(** * Workbench runner: OAuth credential pool, evidence log, redactor,
      stdio framing and tool-dispatch loop

    A shallow embedding of the Python sources
    - [runner/auth/openai_oauth_pool.py] (profiles, pool, selection, rotation),
    - [runner/run_smoke.py] (evidence writer, redactor, dispatch loop),
    - [runner/mcp_stdio.py] (Content-Length framing),
    followed by the properties established about them.

    Conventions of the embedding.
    - A Python [str] is a [string]: the sequence of its UTF-8 bytes.  Byte-wise
      lexicographic comparison of UTF-8 agrees with Python's comparison by code
      point.  [strip], [lower] and the regular expression class [\s] are
      modelled on the ASCII range.
    - A Python [int] is a [Z]; a Python [float] is a binary64 value of
      [SpecFloat.spec_float] compared with [SFeqb] and [SFltb].
    - A [dict] is an association list in insertion order (Python dictionaries
      iterate in insertion order and [sorted] is stable, so the order is
      observable).
    - An exception is a value of [exn]; a function that may raise returns a
      [result].
    - The wall clock ([now_ms()], [now_iso()]) is an explicit argument. *)

From Stdlib Require Import ZArith List String Ascii Bool Lia.
From Stdlib Require Import Decimal DecimalString DecimalNat.
From Stdlib Require Import Floats.SpecFloat.
From Stdlib Require Import Sorting.Permutation Sorting.Sorted.
Import ListNotations.

Local Open Scope string_scope.
Local Open Scope Z_scope.

(* ================================================================== *)
(** * Part I: the embedding                                            *)
(* ================================================================== *)

(** ** Python primitives *)

Module Py.

(** [str.isspace] on the ASCII range: tab, LF, VT, FF, CR, the four
    separators 0x1c-0x1f and the space. *)
Definition is_space (c : ascii) : bool :=
  let n := nat_of_ascii c in
  ((9 <=? n) && (n <=? 13) || (28 <=? n) && (n <=? 32))%nat.

(** [str.lower] on one ASCII character. *)
Definition lower_ascii (c : ascii) : ascii :=
  let n := nat_of_ascii c in
  if ((65 <=? n) && (n <=? 90))%nat then ascii_of_nat (n + 32) else c.

Fixpoint lower (s : string) : string :=
  match s with
  | EmptyString => EmptyString
  | String c s' => String (lower_ascii c) (lower s')
  end.

Fixpoint lstrip (s : string) : string :=
  match s with
  | EmptyString => EmptyString
  | String c s' => if is_space c then lstrip s' else s
  end.

(** Removes trailing white space: a character is dropped when it is a space
    and everything after it has been dropped. *)
Fixpoint rstrip (s : string) : string :=
  match s with
  | EmptyString => EmptyString
  | String c s' =>
      match rstrip s' with
      | EmptyString => if is_space c then EmptyString else String c EmptyString
      | r => String c r
      end
  end.

Definition strip (s : string) : string := rstrip (lstrip s).

(** Truthiness of a [str]: the empty string is false. *)
Definition str_truthy (s : string) : bool :=
  match s with EmptyString => false | _ => true end.

(** An [Optional[str]] tested for truth: [Some s] when it holds a non-empty
    string, [None] when it is [None] or empty. *)
Definition if_truthy (o : option string) : option string :=
  match o with
  | Some s => if str_truthy s then Some s else None
  | None => None
  end.

(** [x in xs] for a list of strings. *)
Definition str_in (x : string) (xs : list string) : bool :=
  existsb (String.eqb x) xs.

(** [xs.index(x)]: position of the first element equal to [x]. *)
Fixpoint list_index (x : string) (xs : list string) : option nat :=
  match xs with
  | [] => None
  | y :: ys => if String.eqb y x then Some O
               else option_map S (list_index x ys)
  end.

Section Sorting.
Variable A : Type.
Variable lt : A -> A -> bool.

(** One step of insertion: [x] goes in front of the first element that is
    strictly greater, hence behind every element it does not precede.  This
    is where Python's binary insertion places the pivot ([ISLT(pivot, *p)]). *)
Fixpoint insort (x : A) (l : list A) : list A :=
  match l with
  | [] => [x]
  | y :: ys => if lt x y then x :: y :: ys else y :: insort x ys
  end.

(** [sorted(xs, key=...)] with [lt a b] standing for [key(a) < key(b)]:
    a stable sort that only ever asks [<]. *)
Definition sorted (xs : list A) : list A :=
  fold_left (fun acc x => insort x acc) xs [].

(** [min(xs, key=...)]: the first element no later element is strictly
    smaller than. *)
Fixpoint min_from (best : A) (xs : list A) : A :=
  match xs with
  | [] => best
  | x :: xs' => min_from (if lt x best then x else best) xs'
  end.

Definition min_by (xs : list A) : option A :=
  match xs with
  | [] => None
  | x :: xs' => Some (min_from x xs')
  end.

End Sorting.

Arguments insort {A} lt x l.
Arguments sorted {A} lt xs.
Arguments min_from {A} lt best xs.
Arguments min_by {A} lt xs.

(** binary64: [float(z)] for an integer [z]. *)
Definition float_of_Z (z : Z) : spec_float := binary_normalize 53 1024 z 0 false.

Definition is_nan (f : spec_float) : bool :=
  match f with S754_nan => true | _ => false end.

Definition is_inf (f : spec_float) : bool :=
  match f with S754_infinity _ => true | _ => false end.

(** [s[n:]] for a length [n] *)
Fixpoint drop (n : nat) (s : string) : string :=
  match n, s with
  | O, _ => s
  | S n', String _ s' => drop n' s'
  | S _, EmptyString => EmptyString
  end.

(** [s[:n]] for a length [n] *)
Fixpoint take (n : nat) (s : string) : string :=
  match n, s with
  | S n', String c s' => String c (take n' s')
  | _, _ => EmptyString
  end.

(** An index of a slice brought into [0 .. len]: a negative index counts
    from the end. *)
Definition slice_index (len i : Z) : nat :=
  Z.to_nat (if i <? 0 then Z.max 0 (len + i) else Z.min i len).

(** [s[start:stop]] *)
Definition slice (s : string) (start stop : Z) : string :=
  let n := Z.of_nat (String.length s) in
  let a := slice_index n start in
  let b := slice_index n stop in
  take (b - a) (drop a s).

(** [s[start:]] *)
Definition slice_from (s : string) (start : Z) : string :=
  drop (slice_index (Z.of_nat (String.length s)) start) s.

(** [s.find(sub)]: the index of the first occurrence, [None] for -1. *)
Fixpoint find (sub s : string) : option nat :=
  if String.prefix sub s then Some O
  else match s with
       | EmptyString => None
       | String _ s' => option_map S (find sub s')
       end.

(** [s.rfind(sub)]: the index of the last occurrence, [None] for -1. *)
Fixpoint rfind (sub s : string) : option nat :=
  match s with
  | EmptyString => if String.prefix sub s then Some O else None
  | String _ s' =>
      match rfind sub s' with
      | Some i => Some (S i)
      | None => if String.prefix sub s then Some O else None
      end
  end.

(** [s.split(sep)] for a non-empty [sep]; every round passes at least one
    character, so [fuel] above the length of [s] is never used up. *)
Fixpoint split_fuel (fuel : nat) (sep s : string) : list string :=
  match fuel with
  | O => [s]
  | S fuel' =>
      match find sep s with
      | None => [s]
      | Some i =>
          take i s :: split_fuel fuel' sep (drop (i + String.length sep) s)
      end
  end.

Definition split (sep s : string) : list string :=
  split_fuel (S (String.length s)) sep s.

(** [s.split(sep, 1)] *)
Definition split1 (sep s : string) : list string :=
  match find sep s with
  | None => [s]
  | Some i => [take i s; drop (i + String.length sep) s]
  end.

(** [str(z)] for an integer: its decimal numeral. *)
Definition str_of_Z (z : Z) : string :=
  DecimalString.NilEmpty.string_of_int (Z.to_int z).

(** [str(n)] for a length. *)
Definition str_of_nat (n : nat) : string :=
  DecimalString.NilEmpty.string_of_uint (Nat.to_uint n).

Definition is_digit (c : ascii) : bool :=
  let n := nat_of_ascii c in ((48 <=? n) && (n <=? 57))%nat.

(** The digits of an [int()] literal: decimal digits, single underscores
    allowed between two digits.  [prev_digit] tells whether the character
    before was a digit. *)
Fixpoint digits_value (acc : Z) (s : string) (prev_digit : bool) : option Z :=
  match s with
  | EmptyString => if prev_digit then Some acc else None
  | String c s' =>
      if is_digit c
      then digits_value (10 * acc + (Z.of_nat (nat_of_ascii c) - 48)) s' true
      else if Ascii.eqb c "_" && prev_digit then digits_value acc s' false
      else None
  end.

(** [int(s)] for a string, base 10: surrounding white space, an optional
    sign, digits.  [None] stands for [ValueError]. *)
Definition int_of_str (s : string) : option Z :=
  match strip s with
  | String "+" r => digits_value 0 r false
  | String "-" r => option_map Z.opp (digits_value 0 r false)
  | r => digits_value 0 r false
  end.

(** [int(f)] for a float: truncation toward zero. *)
Definition trunc_float (f : spec_float) : option Z :=
  match f with
  | S754_zero _ => Some 0
  | S754_finite s m e =>
      let a := if 0 <=? e then Z.shiftl (Zpos m) e
               else Z.shiftr (Zpos m) (- e) in
      Some (if s then - a else a)
  | S754_infinity _ | S754_nan => None
  end.

(** [f == n] for a float and an integer: Python compares the two values
    exactly, without rounding [n]. *)
Definition float_eq_Z (f : spec_float) (n : Z) : bool :=
  match f with
  | S754_zero _ => n =? 0
  | S754_finite s m e =>
      let a := if s then Z.neg m else Z.pos m in
      if 0 <=? e then a * 2 ^ e =? n else a =? n * 2 ^ (- e)
  | S754_infinity _ | S754_nan => false
  end.

Section Dict.
Variable V : Type.

(** [d.get(k)] *)
Fixpoint dict_get (d : list (string * V)) (k : string) : option V :=
  match d with
  | [] => None
  | (k', v) :: d' => if String.eqb k' k then Some v else dict_get d' k
  end.

(** [d[k] = v]: a present key keeps its position, a new key goes last. *)
Fixpoint dict_set (d : list (string * V)) (k : string) (v : V)
  : list (string * V) :=
  match d with
  | [] => [(k, v)]
  | (k', v') :: d' =>
      if String.eqb k' k then (k', v) :: d' else (k', v') :: dict_set d' k v
  end.

(** [{**d, **e}] *)
Definition dict_update (d e : list (string * V)) : list (string * V) :=
  fold_left (fun acc kv => dict_set acc (fst kv) (snd kv)) e d.

End Dict.

Arguments dict_get {V} d k.
Arguments dict_set {V} d k v.
Arguments dict_update {V} d e.

End Py.

(** ** Exceptions and results *)

(** The exceptions raised by the modelled code.  A constructor stands for one
    [raise] site; its arguments are the values formatted into the message. *)
Inductive exn : Type :=
| ProfileNotFound (explicit : string)
| PinnedProfileNotFound (pinned : string)
| NoUsableAllDisabled
| NoUsableAllRateLimited (next_reset_at_ms : Z) (email : string)
| NoUsableProfiles
| NoUsableToRotateTo
| SelectedProfileMissing (selected : string)
| InvalidPoolFile
| UnsupportedPoolVersion
| ValueError
| TypeError
| AttributeError
| IndexError
| KeyError
| OverflowError
| JSONDecodeError
| TooManyUnparseable
| FinishedEarlyTooOften (next_required : string)
| InvalidToolCall
| NoToolsDiscovered
| ProviderError
| ToolError
| InvalidPoolVersion
| PoolHasNoProfiles
| TokenFileNotFound
| InvalidTokenFile
| TokenFileMissingTokens.

Inductive result (A : Type) : Type :=
| Ok (a : A)
| Raise (e : exn).

Arguments Ok {A} a.
Arguments Raise {A} e.

Definition bind {A B : Type} (r : result A) (k : A -> result B) : result B :=
  match r with
  | Ok a => k a
  | Raise e => Raise e
  end.

Notation "'do' x <- r ; k" := (bind r (fun x => k))
  (at level 10, x name, r at level 100, k at level 200).

(** ** JSON values *)

(** What [json.loads] returns: [None], [bool], [int], [float], [str], [list]
    and [dict] with string keys. *)
#[warnings="-register-all"] Inductive json : Type :=
| JNull
| JBool (b : bool)
| JInt (z : Z)
| JFloat (f : spec_float)
| JStr (s : string)
| JList (l : list json)
| JDict (kvs : list (string * json)).

Module Json.

(** Truth value of a Python object. *)
Definition truthy (x : json) : bool :=
  match x with
  | JNull => false
  | JBool b => b
  | JInt z => negb (z =? 0)
  | JFloat (S754_zero _) => false
  | JFloat _ => true
  | JStr s => Py.str_truthy s
  | JList l => match l with [] => false | _ => true end
  | JDict kvs => match kvs with [] => false | _ => true end
  end.

(** [x or d] *)
Definition or_ (x d : json) : json := if truthy x then x else d.

(** [obj.get(k)]: a missing key reads as [None]. *)
Definition get (obj : list (string * json)) (k : string) : json :=
  match Py.dict_get obj k with Some v => v | None => JNull end.

(** [x if isinstance(x, str) else None] *)
Definition as_str (x : json) : option string :=
  match x with JStr s => Some s | _ => None end.

(** [x if isinstance(x, str) and x else None] *)
Definition as_nonempty_str (x : json) : option string :=
  Py.if_truthy (as_str x).

(** [int(x) if isinstance(x, int) else None]; a [bool] is an [int]. *)
Definition as_int (x : json) : option Z :=
  match x with
  | JInt z => Some z
  | JBool b => Some (if b then 1 else 0)
  | _ => None
  end.

(** [x if isinstance(x, dict) else {}] *)
Definition as_dict (x : json) : list (string * json) :=
  match x with JDict kvs => kvs | _ => [] end.

(** [x == n] for an integer [n]: a [bool] compares as 0 or 1, a [float] by
    its value, anything else is unequal. *)
Definition eq_int (x : json) (n : Z) : bool :=
  match x with
  | JBool b => (if b then 1 else 0) =? n
  | JInt z => z =? n
  | JFloat f => Py.float_eq_Z f n
  | _ => false
  end.

(** [int(x)] *)
Definition int (x : json) : result Z :=
  match x with
  | JBool b => Ok (if b then 1 else 0)
  | JInt z => Ok z
  | JFloat f =>
      match Py.trunc_float f with
      | Some z => Ok z
      | None => Raise (if Py.is_nan f then ValueError else OverflowError)
      end
  | JStr s =>
      match Py.int_of_str s with
      | Some z => Ok z
      | None => Raise ValueError
      end
  | JNull | JList _ | JDict _ => Raise TypeError
  end.

(** [float(z)] for an [int]: [OverflowError] past the binary64 range. *)
Definition float_of_int (z : Z) : result spec_float :=
  let f := Py.float_of_Z z in
  if Py.is_inf f then Raise OverflowError else Ok f.

(** [float(x) if isinstance(x, (int, float)) else None] *)
Definition as_float (x : json) : result (option spec_float) :=
  match x with
  | JBool b => do f <- float_of_int (if b then 1 else 0); Ok (Some f)
  | JInt z => do f <- float_of_int z; Ok (Some f)
  | JFloat f => Ok (Some f)
  | _ => Ok None
  end.

(** An [Optional[str]] / [Optional[int]] / [Optional[float]] as JSON. *)
Definition of_opt_str (o : option string) : json :=
  match o with Some s => JStr s | None => JNull end.

Definition of_opt_int (o : option Z) : json :=
  match o with Some z => JInt z | None => JNull end.

Definition of_opt_float (o : option spec_float) : json :=
  match o with Some f => JFloat f | None => JNull end.

Section Str.
(** [repr] gives [str(x)] for the values whose text depends on the float
    formatting and quoting rules of Python: floats, lists and dicts. *)
Variable repr : json -> string.

(** [str(x)] *)
Definition str (x : json) : string :=
  match x with
  | JStr s => s
  | JNull => "None"
  | JBool b => if b then "True" else "False"
  | JInt z => Py.str_of_Z z
  | JFloat _ | JList _ | JDict _ => repr x
  end.

End Str.

(** *** [json.dumps(x, ensure_ascii=False)] *)

(** The characters the encoder names. *)
Definition dquote : ascii := ascii_of_nat 34.
Definition backslash : ascii := ascii_of_nat 92.
Definition char_lf : ascii := ascii_of_nat 10.
Definition char_cr : ascii := ascii_of_nat 13.
Definition char_tab : ascii := ascii_of_nat 9.
Definition char_bs : ascii := ascii_of_nat 8.
Definition char_ff : ascii := ascii_of_nat 12.

Definition hex_digit (n : nat) : ascii :=
  if (n <? 10)%nat then ascii_of_nat (48 + n) else ascii_of_nat (87 + n).

(** One character of a string literal: the quote, the backslash and the
    control characters are escaped, everything else is copied. *)
Definition escape_char (c : ascii) : string :=
  let n := nat_of_ascii c in
  if Ascii.eqb c dquote then String backslash (String dquote "")
  else if Ascii.eqb c backslash then String backslash (String backslash "")
  else if Ascii.eqb c char_lf then String backslash "n"
  else if Ascii.eqb c char_cr then String backslash "r"
  else if Ascii.eqb c char_tab then String backslash "t"
  else if Ascii.eqb c char_bs then String backslash "b"
  else if Ascii.eqb c char_ff then String backslash "f"
  else if (n <? 32)%nat
  then String backslash
         ("u00" ++ String (hex_digit (n / 16)) (String (hex_digit (n mod 16)) ""))
  else String c "".

Fixpoint escape (s : string) : string :=
  match s with
  | EmptyString => EmptyString
  | String c s' => escape_char c ++ escape s'
  end.

Definition quote (s : string) : string :=
  String dquote (escape s ++ String dquote "").

Section Dumps.
(** [float_repr] is [float.__repr__] with [NaN], [Infinity] and [-Infinity]
    for the values JSON has no literal for. *)
Variable float_repr : spec_float -> string.

Fixpoint dumps (x : json) : string :=
  match x with
  | JNull => "null"
  | JBool b => if b then "true" else "false"
  | JInt z => Py.str_of_Z z
  | JFloat f => float_repr f
  | JStr s => quote s
  | JList l =>
      "[" ++
      (fix items (l : list json) : string :=
         match l with
         | [] => ""
         | y :: l' =>
             match l' with
             | [] => dumps y
             | _ :: _ => dumps y ++ ", " ++ items l'
             end
         end) l ++ "]"
  | JDict kvs =>
      "{" ++
      (fix items (kvs : list (string * json)) : string :=
         match kvs with
         | [] => ""
         | (k, v) :: kvs' =>
             match kvs' with
             | [] => quote k ++ ": " ++ dumps v
             | _ :: _ => quote k ++ ": " ++ dumps v ++ ", " ++ items kvs'
             end
         end) kvs ++ "}"
  end.

End Dumps.

End Json.

(** ** [OAuthProfile] *)

Module OAuthProfile.

Record t : Type := mk {
  profile : string;
  access_token : string;
  refresh_token : string;
  expires_at_ms : Z;
  email : option string;
  account_id : option string;
  issuer : option string;
  client_id : option string;
  remaining : option spec_float;
  reset_at_ms : option Z;
  provider : option string;
  last_seen_at : option string;
  rate_limited_until_ms : option Z;
  disabled : bool;
  updated_at : option string
}.

(** [until = self.rate_limited_until_ms or 0] *)
Definition until_or_0 (self : t) : Z :=
  match rate_limited_until_ms self with
  | Some u => u
  | None => 0
  end.

(** [is_usable(at_ms)]; [now] is what [now_ms()] returns, read only when
    [at_ms] is [None]. *)
Definition is_usable (now : Z) (self : t) (at_ms : option Z) : bool :=
  if disabled self then false
  else
    let at_ := match at_ms with None => now | Some a => a end in
    until_or_0 self <=? at_.

Definition is_expired (now : Z) (self : t) (at_ms : option Z) : bool :=
  let at_ := match at_ms with None => now | Some a => a end in
  expires_at_ms self <=? at_ + 30000.

(** [self.email or self.profile] *)
Definition effective_email (self : t) : string :=
  match Py.if_truthy (email self) with
  | Some e => e
  | None => profile self
  end.

(** 1e18 as a binary64 value. *)
Definition f_1e18 : spec_float := Eval vm_compute in Py.float_of_Z (10 ^ 18).

(** [float(x)] of a float is [x]; the [except] branch is unreachable. *)
Definition effective_remaining (self : t) : spec_float :=
  match remaining self with
  | None => f_1e18
  | Some r => r
  end.

Definition effective_reset_at_ms (self : t) : Z :=
  match reset_at_ms self with
  | Some r => if 0 <? r then r else
      match rate_limited_until_ms self with
      | Some u => if 0 <? u then u else 10 ^ 18
      | None => 10 ^ 18
      end
  | None =>
      match rate_limited_until_ms self with
      | Some u => if 0 <? u then u else 10 ^ 18
      | None => 10 ^ 18
      end
  end.

(** The sort key [(effective_remaining, effective_reset_at_ms,
    effective_email)]. *)
Definition sort_key (self : t) : spec_float * Z * string :=
  (effective_remaining self, effective_reset_at_ms self, effective_email self).

(** The key of the wait target: [(effective_reset_at_ms, effective_email)]. *)
Definition wait_key (self : t) : Z * string :=
  (effective_reset_at_ms self, effective_email self).

(** Python's [<] on the key tuples: the first position where the components
    are not [==] decides, by [<] on that component. *)
Definition key_lt (k1 k2 : spec_float * Z * string) : bool :=
  let '(r1, t1, e1) := k1 in
  let '(r2, t2, e2) := k2 in
  if negb (SFeqb r1 r2) then SFltb r1 r2
  else if negb (t1 =? t2) then t1 <? t2
  else if negb (String.eqb e1 e2) then String.ltb e1 e2
  else false.

Definition wait_key_lt (k1 k2 : Z * string) : bool :=
  let '(t1, e1) := k1 in
  let '(t2, e2) := k2 in
  if negb (t1 =? t2) then t1 <? t2
  else if negb (String.eqb e1 e2) then String.ltb e1 e2
  else false.

Definition lt (p q : t) : bool := key_lt (sort_key p) (sort_key q).

Definition wait_lt (p q : t) : bool := wait_key_lt (wait_key p) (wait_key q).

Definition set_rate_limited_until_ms (self : t) (u : option Z) : t :=
  mk (profile self) (access_token self) (refresh_token self)
     (expires_at_ms self) (email self) (account_id self) (issuer self)
     (client_id self) (remaining self) (reset_at_ms self) (provider self)
     (last_seen_at self) u (disabled self) (updated_at self).

Definition set_updated_at (self : t) (s : option string) : t :=
  mk (profile self) (access_token self) (refresh_token self)
     (expires_at_ms self) (email self) (account_id self) (issuer self)
     (client_id self) (remaining self) (reset_at_ms self) (provider self)
     (last_seen_at self) (rate_limited_until_ms self) (disabled self) s.

(** [to_json()]; [iso] is what [now_iso()] returns. *)
Definition to_json (iso : string) (self : t) : json :=
  JDict
    [ ("profile", JStr (profile self));
      ("email", Json.of_opt_str (email self));
      ("accountId", Json.of_opt_str (account_id self));
      ("issuer", Json.of_opt_str (issuer self));
      ("clientId", Json.of_opt_str (client_id self));
      ("accessToken", JStr (access_token self));
      ("refreshToken", JStr (refresh_token self));
      ("expiresAtMs", JInt (expires_at_ms self));
      ("remaining", Json.of_opt_float (remaining self));
      ("resetAtMs", Json.of_opt_int (reset_at_ms self));
      ("provider", Json.of_opt_str (provider self));
      ("lastSeenAt", Json.of_opt_str (last_seen_at self));
      ("rateLimitedUntilMs", Json.of_opt_int (rate_limited_until_ms self));
      ("disabled", JBool (disabled self));
      ("updatedAt",
       JStr (match Py.if_truthy (updated_at self) with
             | Some u => u
             | None => iso
             end)) ].

Section FromJson.
Variable repr : json -> string.

(** [OAuthProfile.from_json(obj)].  The keyword arguments are evaluated in
    the order written; [int(...)] of [expiresAtMs] and [float(...)] of
    [remaining] are the two that can raise. *)
Definition from_json (obj : list (string * json)) : result t :=
  let profile_ := Json.str repr (Json.or_ (Json.get obj "profile") (JStr "")) in
  let email_ := Json.as_nonempty_str (Json.get obj "email") in
  let account_id_ := Json.as_str (Json.get obj "accountId") in
  let issuer_ := Json.as_str (Json.get obj "issuer") in
  let client_id_ := Json.as_str (Json.get obj "clientId") in
  let access_token_ :=
    Json.str repr (Json.or_ (Json.get obj "accessToken") (JStr "")) in
  let refresh_token_ :=
    Json.str repr (Json.or_ (Json.get obj "refreshToken") (JStr "")) in
  do expires_at_ms_ <-
    Json.int (Json.or_ (Json.get obj "expiresAtMs") (JInt 0));
  do remaining_ <- Json.as_float (Json.get obj "remaining");
  let reset_at_ms_ := Json.as_int (Json.get obj "resetAtMs") in
  let provider_ := Json.as_nonempty_str (Json.get obj "provider") in
  let last_seen_at_ := Json.as_nonempty_str (Json.get obj "lastSeenAt") in
  let rate_limited_until_ms_ :=
    Json.as_int (Json.get obj "rateLimitedUntilMs") in
  let disabled_ :=
    Json.truthy (Json.or_ (Json.get obj "disabled") (JBool false)) in
  let updated_at_ := Json.as_str (Json.get obj "updatedAt") in
  Ok (mk profile_ access_token_ refresh_token_ expires_at_ms_ email_
         account_id_ issuer_ client_id_ remaining_ reset_at_ms_ provider_
         last_seen_at_ rate_limited_until_ms_ disabled_ updated_at_).

End FromJson.

End OAuthProfile.

(** ** [OAuthPool] *)

Module OAuthPool.

Record t : Type := mk {
  version : Z;
  provider : string;
  updated_at : string;
  selection_strategy : string;
  pinned_profile : option string;
  last_used_profile : option string;
  profiles : list (string * OAuthProfile.t);
  issuer : option string;
  client_id : option string;
  model : option string;
  codex_endpoint : option string
}.

(** [OAuthPool.empty()]; [iso] is what [now_iso()] returns. *)
Definition empty (iso : string) : t :=
  mk 1 "openai.codex.oauth.pool" iso "sticky" None None [] None None None None.

(** [self.profiles.get(k)] *)
Fixpoint get (ps : list (string * OAuthProfile.t)) (k : string)
  : option OAuthProfile.t :=
  match ps with
  | [] => None
  | (k', p) :: ps' => if String.eqb k' k then Some p else get ps' k
  end.

(** [k in self.profiles] *)
Definition contains (ps : list (string * OAuthProfile.t)) (k : string) : bool :=
  match get ps k with Some _ => true | None => false end.

(** [self.profiles[k] = p]: an existing key keeps its position, a new key
    goes last. *)
Fixpoint set (ps : list (string * OAuthProfile.t)) (k : string)
  (p : OAuthProfile.t) : list (string * OAuthProfile.t) :=
  match ps with
  | [] => [(k, p)]
  | (k', p') :: ps' =>
      if String.eqb k' k then (k', p) :: ps' else (k', p') :: set ps' k p
  end.

(** [self.profiles.values()] *)
Definition values (self : t) : list OAuthProfile.t := map snd (profiles self).

(** [list_profiles()]: [sorted(self.profiles.keys())] *)
Definition list_profiles (self : t) : list string :=
  Py.sorted String.ltb (map fst (profiles self)).

(** [(self.selection_strategy or "sticky").strip().lower()] *)
Definition strategy (self : t) : string :=
  Py.lower (Py.strip (if Py.str_truthy (selection_strategy self)
                      then selection_strategy self else "sticky")).

(** The profiles usable at [at_]: [[p for p in self.profiles.values() if
    p.is_usable(at)]]. *)
Definition usable (self : t) (at_ : Z) : list OAuthProfile.t :=
  filter (fun p => OAuthProfile.is_usable at_ p (Some at_)) (values self).

(** The sticky shortcut of [choose_profile]: the profile returned by the
    [if strategy == "sticky"] block, if it returns. *)
Definition sticky_choice (self : t) (at_ : Z) : option string :=
  if String.eqb (strategy self) "sticky" then
    match Py.if_truthy (last_used_profile self) with
    | Some l =>
        match get (profiles self) l with
        | Some p =>
            if OAuthProfile.is_usable at_ p (Some at_)
            then Some (OAuthProfile.profile p) else None
        | None => None
        end
    | None => None
    end
  else None.

(** The exception raised when no profile is usable. *)
Definition no_usable_error (self : t) (at_ : Z) : exn :=
  let disabled := filter OAuthProfile.disabled (values self) in
  let limited :=
    filter (fun p => at_ <? OAuthProfile.until_or_0 p) (values self) in
  let n := List.length (profiles self) in
  if negb (Nat.eqb (List.length disabled) 0)
     && Nat.eqb (List.length disabled) n
  then NoUsableAllDisabled
  else if negb (Nat.eqb (List.length limited) 0)
          && Nat.eqb (List.length limited) n
  then
    match Py.min_by OAuthProfile.wait_lt (values self) with
    | Some w => NoUsableAllRateLimited (OAuthProfile.effective_reset_at_ms w)
                                       (OAuthProfile.effective_email w)
    | None => ValueError
    end
  else NoUsableProfiles.

(** The round-robin step: the successor of [lastUsedProfile] in the sorted
    order, wrapping around, when the strategy asks for it and the profile is
    among the sorted names. *)
Definition round_robin_choice (self : t) (usable_profiles : list string)
  : option string :=
  if String.eqb (strategy self) "round-robin" then
    match Py.if_truthy (last_used_profile self) with
    | Some l =>
        match Py.list_index l usable_profiles with
        | Some i =>
            nth_error usable_profiles
                      (Nat.modulo (i + 1) (List.length usable_profiles))
        | None => None
        end
    | None => None
    end
  else None.

(** [choose_profile(explicit, at_ms)] *)
Definition choose_profile (now : Z) (self : t) (explicit : option string)
  (at_ms : option Z) : result string :=
  let at_ := match at_ms with None => now | Some a => a end in
  match Py.if_truthy explicit with
  | Some e =>
      if contains (profiles self) e then Ok e else Raise (ProfileNotFound e)
  | None =>
  match Py.if_truthy (pinned_profile self) with
  | Some e =>
      if contains (profiles self) e then Ok e
      else Raise (PinnedProfileNotFound e)
  | None =>
  match sticky_choice self at_ with
  | Some name => Ok name
  | None =>
  match usable self at_ with
  | [] => Raise (no_usable_error self at_)
  | _ :: _ =>
      let usable_sorted := Py.sorted OAuthProfile.lt (usable self at_) in
      let usable_profiles := map OAuthProfile.profile usable_sorted in
      match round_robin_choice self usable_profiles with
      | Some name => Ok name
      | None =>
          match usable_sorted with
          | p :: _ => Ok (OAuthProfile.profile p)
          | [] => Raise IndexError
          end
      end
  end end end end.

(** The profiles usable "now" as [rotate_after] computes them: [is_usable()]
    reads the clock once per profile, [clock i] being the reading taken for
    the profile at position [i]. *)
Fixpoint usable_now (clock : nat -> Z) (i : nat) (ps : list OAuthProfile.t)
  : list OAuthProfile.t :=
  match ps with
  | [] => []
  | p :: ps' =>
      if OAuthProfile.is_usable (clock i) p None
      then p :: usable_now clock (S i) ps'
      else usable_now clock (S i) ps'
  end.

(** [for p in ranked_profiles: if p != current: return p] *)
Fixpoint first_other (current : string) (ranked_profiles : list string)
  : option string :=
  match ranked_profiles with
  | [] => None
  | p :: ps => if negb (String.eqb p current) then Some p
               else first_other current ps
  end.

(** [rotate_after(current, explicit)] *)
Definition rotate_after (clock : nat -> Z) (self : t) (current : string)
  (explicit : option string) : result string :=
  match Py.if_truthy explicit with
  | Some e => Ok e
  | None =>
  match usable_now clock 0 (values self) with
  | [] => Raise NoUsableToRotateTo
  | usable =>
      let ranked := Py.sorted OAuthProfile.lt usable in
      let ranked_profiles := map OAuthProfile.profile ranked in
      if negb (Py.str_in current ranked_profiles) then
        match ranked_profiles with
        | p :: _ => Ok p
        | [] => Raise IndexError
        end
      else
        match first_other current ranked_profiles with
        | Some p => Ok p
        | None => Ok current
        end
  end end.

Definition set_profiles (self : t) (ps : list (string * OAuthProfile.t)) : t :=
  mk (version self) (provider self) (updated_at self)
     (selection_strategy self) (pinned_profile self) (last_used_profile self)
     ps (issuer self) (client_id self) (model self) (codex_endpoint self).

Definition set_updated_at (self : t) (iso : string) : t :=
  mk (version self) (provider self) iso
     (selection_strategy self) (pinned_profile self) (last_used_profile self)
     (profiles self) (issuer self) (client_id self) (model self)
     (codex_endpoint self).

Definition set_last_used_profile (self : t) (l : option string) : t :=
  mk (version self) (provider self) (updated_at self)
     (selection_strategy self) (pinned_profile self) l
     (profiles self) (issuer self) (client_id self) (model self)
     (codex_endpoint self).

(** [mark_used(profile)] *)
Definition mark_used (iso : string) (self : t) (profile : string) : t :=
  set_updated_at (set_last_used_profile self (Some profile)) iso.

(** [mark_rate_limited(profile, until_ms)]: the profile object found under
    the key is updated in place; [now] is the reading of [now_ms()], [iso_p]
    and [iso_pool] those of the two [now_iso()] calls. *)
Definition mark_rate_limited (now : Z) (iso_p iso_pool : string) (self : t)
  (profile : string) (until_ms : Z) : t :=
  match get (profiles self) profile with
  | None => self
  | Some p =>
      let p1 := OAuthProfile.set_rate_limited_until_ms p
                  (Some (Z.max until_ms now)) in
      let p2 := OAuthProfile.set_updated_at p1 (Some iso_p) in
      set_updated_at (set_profiles self (set (profiles self) profile p2))
                     iso_pool
  end.

(** [to_json()] *)
Definition to_json (iso : string) (self : t) : json :=
  JDict
    [ ("version", JInt (version self));
      ("provider", JStr (provider self));
      ("updatedAt", JStr (updated_at self));
      ("issuer", Json.of_opt_str (issuer self));
      ("clientId", Json.of_opt_str (client_id self));
      ("model", Json.of_opt_str (model self));
      ("codexEndpoint", Json.of_opt_str (codex_endpoint self));
      ("selection",
       JDict [ ("strategy", JStr (selection_strategy self));
               ("pinnedProfile", Json.of_opt_str (pinned_profile self));
               ("lastUsedProfile", Json.of_opt_str (last_used_profile self)) ]);
      ("profiles",
       JDict (map (fun kv => (fst kv, OAuthProfile.to_json iso (snd kv)))
                  (profiles self))) ].

Section FromJson.
Variable repr : json -> string.

(** The loop of [from_json] over [profs.items()]: an entry that is not a
    [dict] is skipped, a profile with an empty name is dropped, the others
    are stored under their own [profile] field. *)
Fixpoint profiles_from_json (profs : list (string * json))
  (acc : list (string * OAuthProfile.t))
  : result (list (string * OAuthProfile.t)) :=
  match profs with
  | [] => Ok acc
  | (k, v) :: rest =>
      match v with
      | JDict fields =>
          do p <- OAuthProfile.from_json repr
                    (Py.dict_update [("profile", JStr k)] fields);
          profiles_from_json rest
            (if Py.str_truthy (OAuthProfile.profile p)
             then set acc (OAuthProfile.profile p) p else acc)
      | _ => profiles_from_json rest acc
      end
  end.

(** [OAuthPool.from_json(obj)]: the profiles are built first, then the
    arguments of the constructor in the order written, [version] first. *)
Definition from_json (iso : string) (obj : list (string * json)) : result t :=
  let selection := Json.as_dict (Json.get obj "selection") in
  let profs := Json.as_dict (Json.get obj "profiles") in
  do profiles_ <- profiles_from_json profs [];
  do version_ <- Json.int (Json.or_ (Json.get obj "version") (JInt 1));
  Ok (mk version_
         (Json.str repr (Json.or_ (Json.get obj "provider")
                                  (JStr "openai.codex.oauth.pool")))
         (Json.str repr (Json.or_ (Json.get obj "updatedAt") (JStr iso)))
         (Json.str repr (Json.or_ (Json.get selection "strategy")
                                  (JStr "sticky")))
         (Json.as_str (Json.get selection "pinnedProfile"))
         (Json.as_str (Json.get selection "lastUsedProfile"))
         profiles_
         (Json.as_str (Json.get obj "issuer"))
         (Json.as_str (Json.get obj "clientId"))
         (Json.as_str (Json.get obj "model"))
         (Json.as_str (Json.get obj "codexEndpoint"))).

End FromJson.

End OAuthPool.

(** ** The pool file: [load_pool], [save_pool], [upsert_profile] *)

(** What is found at the pool path: nothing, a text [json.loads] rejects, or
    a text holding a JSON value. *)
Inductive file_content : Type :=
| Absent
| NotJson
| Holds (data : json).

Module PoolFile.

Section Load.
Variable repr : json -> string.

(** [load_pool(path)] *)
Definition load_pool (iso : string) (file : file_content)
  : result OAuthPool.t :=
  match file with
  | Absent => Ok (OAuthPool.empty iso)
  | NotJson => Raise JSONDecodeError
  | Holds (JDict obj) => OAuthPool.from_json repr iso obj
  | Holds _ => Raise InvalidPoolFile
  end.

(** [save_pool(path, pool)]: the file then holds the text of
    [pool.to_json()]. *)
Definition save_pool (iso : string) (pool : OAuthPool.t) : file_content :=
  Holds (OAuthPool.to_json iso pool).

Definition or_opt (a b : option string) : option string :=
  match Py.if_truthy a with Some x => Some x | None => b end.

(** [upsert_profile(path, profile, pool_fields)]: the pool and name returned
    and the file left behind. *)
Definition upsert_profile (iso : string) (file : file_content)
  (profile : OAuthProfile.t) (pool_fields : list (string * option string))
  : result (OAuthPool.t * string * file_content) :=
  do pool <- load_pool iso file;
  if negb (OAuthPool.version pool =? 1) then Raise UnsupportedPoolVersion
  else
    let field k := match Py.dict_get pool_fields k with
                   | Some v => v | None => None end in
    let pool1 :=
      OAuthPool.mk (OAuthPool.version pool) (OAuthPool.provider pool)
        (OAuthPool.updated_at pool) (OAuthPool.selection_strategy pool)
        (OAuthPool.pinned_profile pool) (OAuthPool.last_used_profile pool)
        (OAuthPool.set (OAuthPool.profiles pool)
                       (OAuthProfile.profile profile) profile)
        (or_opt (field "issuer") (OAuthPool.issuer pool))
        (or_opt (field "clientId") (OAuthPool.client_id pool))
        (or_opt (field "model") (OAuthPool.model pool))
        (or_opt (field "codexEndpoint") (OAuthPool.codex_endpoint pool)) in
    let pool2 := OAuthPool.mark_used iso pool1 (OAuthProfile.profile profile) in
    Ok (pool2, OAuthProfile.profile profile, save_pool iso pool2).

End Load.

End PoolFile.

(** ** [EvidenceWriter] *)

Module EvidenceWriter.

(** The writer; its [path] is the one file threaded through [append]. *)
Record t : Type := mk {
  max_bytes : Z;
  _disabled : bool
}.

(** [EvidenceWriter(path, max_bytes)] *)
Definition init (max_bytes : Z) : t := mk max_bytes false.

(** The file at [path]: [None] while it does not exist, else its bytes.
    Only the writer touches it, and reading its size and appending to it
    succeed. *)
Definition file : Type := option string.

Definition content (f : file) : string :=
  match f with Some c => c | None => "" end.

(** [self.path.stat().st_size if self.path.exists() else 0] *)
Definition size (f : file) : Z := Z.of_nat (String.length (content f)).

(** [with self.path.open("a") as f: f.write(text)] *)
Definition write (f : file) (text : string) : file :=
  Some (content f ++ text).

Definition newline : string := String Json.char_lf "".

Section Append.
Variable float_repr : spec_float -> string.

(** The line of an event: [json.dumps({"schemaVersion": 1, **obj}) + "\n"] *)
Definition line (obj : list (string * json)) : string :=
  Json.dumps float_repr
    (JDict (Py.dict_update [("schemaVersion", JInt 1)] obj)) ++ newline.

(** The text of the truncation marker, without its newline. *)
Definition truncated (iso : string) (max_bytes : Z) : string :=
  Json.dumps float_repr
    (JDict [ ("schemaVersion", JInt 1);
             ("type", JStr "evidence.truncated");
             ("at", JStr iso);
             ("maxBytes", JInt max_bytes) ]).

Definition len (s : string) : Z := Z.of_nat (String.length s).

(** [append(obj)]; [iso] is what [now_iso()] returns. *)
Definition append (iso : string) (self : t) (f : file)
  (obj : list (string * json)) : t * file :=
  if _disabled self then (self, f)
  else
    let current := size f in
    if (0 <? max_bytes self) && (max_bytes self <? current + len (line obj))
    then
      let self' := mk (max_bytes self) true in
      if max_bytes self <=? 0 then (self', f)
      else if current + len (truncated iso (max_bytes self)) + 1
              <=? max_bytes self
      then (self', write f (truncated iso (max_bytes self) ++ newline))
      else (self', f)
    else (self, write f (line obj)).

(** A run of appends, each with the clock reading at its time. *)
Fixpoint appends (self : t) (f : file)
  (events : list (string * list (string * json))) : t * file :=
  match events with
  | [] => (self, f)
  | (iso, obj) :: rest =>
      let '(self', f') := append iso self f obj in appends self' f' rest
  end.

(** The lines of a list of events, in order. *)
Fixpoint lines (events : list (string * list (string * json))) : string :=
  match events with
  | [] => ""
  | (_, obj) :: rest => line obj ++ lines rest
  end.

(** The marker left when the event of clock [iso] overflows a file of
    [used] bytes: the truncation line when it fits, nothing otherwise. *)
Definition marker (B : Z) (used : Z) (iso : string) : string :=
  if used + len (truncated iso B) + 1 <=? B
  then truncated iso B ++ newline else "".

End Append.

End EvidenceWriter.

(** ** The redactor: [redact_text], [redact_obj] *)

Module Redact.

(** The number of leading characters of [s] that satisfy [p]. *)
Fixpoint span (p : ascii -> bool) (s : string) : nat :=
  match s with
  | String c s' => if p c then S (span p s') else O
  | EmptyString => O
  end.

(** A left-to-right scan that replaces non-overlapping matches by [new], as
    [str.replace] and [re.sub] do.  [m s] is the length of the match that
    starts [s], if one does; after a match the scan resumes behind it.
    [skip] counts the characters of the current match still to pass. *)
Fixpoint rewrite_from (m : string -> option nat) (new : string) (skip : nat)
  (s : string) : string :=
  match s with
  | EmptyString => EmptyString
  | String c s' =>
      match skip with
      | S k => rewrite_from m new k s'
      | O =>
          match m s with
          | Some n => new ++ rewrite_from m new (n - 1) s'
          | None => String c (rewrite_from m new 0 s')
          end
      end
  end.

(** The match of the literal [old] at the start of [s]. *)
Definition literal_match (old s : string) : option nat :=
  if String.prefix old s then Some (String.length old) else None.

(** [text.replace(old, new)] for a non-empty [old]. *)
Definition replace (old new text : string) : string :=
  rewrite_from (literal_match old) new 0 text.

(** The class [[A-Za-z0-9._-]]. *)
Definition is_token_char (c : ascii) : bool :=
  let n := nat_of_ascii c in
  ((65 <=? n) && (n <=? 90) || (97 <=? n) && (n <=? 122)
   || (48 <=? n) && (n <=? 57) || (n =? 46) || (n =? 95) || (n =? 45))%nat.

(** The match of [Bearer\s+[A-Za-z0-9._-]+] at the start of [s]: both
    repetitions are greedy, and as no character is both white space and a
    token character giving back white space never helps. *)
Definition bearer_match (s : string) : option nat :=
  if String.prefix "Bearer" s then
    let k := span Py.is_space (Py.drop 6 s) in
    let n := span is_token_char (Py.drop (6 + k) s) in
    if ((1 <=? k) && (1 <=? n))%nat then Some (6 + k + n)%nat else None
  else None.

Definition redacted : string := "<redacted>".

(** [re.sub(r"Bearer\s+[A-Za-z0-9._-]+", "Bearer <redacted>", text)] *)
Definition bearer_sub (text : string) : string :=
  rewrite_from bearer_match "Bearer <redacted>" 0 text.

(** [redact_text(text, secrets)] *)
Definition redact_text (text : string) (secrets : list string) : string :=
  bearer_sub
    (fold_left
       (fun text s => if Py.str_truthy s then replace s redacted text else text)
       secrets text).

(** [str(k).lower() in ("authorization", "api_key", "apikey")] *)
Definition sensitive_key (k : string) : bool :=
  let l := Py.lower k in
  String.eqb l "authorization" || String.eqb l "api_key"
  || String.eqb l "apikey".

(** [redact_obj(obj, secrets)] *)
Fixpoint redact_obj (obj : json) (secrets : list string) : json :=
  match obj with
  | JStr s => JStr (redact_text s secrets)
  | JList l => JList (map (fun x => redact_obj x secrets) l)
  | JDict kvs =>
      JDict (map (fun kv =>
                    match kv with
                    | (k, v) =>
                        if sensitive_key k then (k, JStr redacted)
                        else (k, redact_obj v secrets)
                    end) kvs)
  | other => other
  end.

End Redact.

(** ** [mcp_stdio]: Content-Length framing *)

Module McpStdio.

Definition crlf : string := String Json.char_cr (String Json.char_lf "").

(** [HEADER_SEPARATOR = b"\r\n\r\n"] *)
Definition HEADER_SEPARATOR : string := crlf ++ crlf.

Section Framing.
(** [float_repr] formats the floats of [json.dumps]; [json_loads] is
    [json.loads] applied to the decoded UTF-8 text of its argument, raising
    when the bytes are no UTF-8 text or the text is no JSON. *)
Variable float_repr : spec_float -> string.
Variable json_loads : string -> result json.

(** [encode_message(obj)] *)
Definition encode_message (obj : json) : string :=
  let body := Json.dumps float_repr obj in
  let header :=
    "Content-Length: " ++ Py.str_of_nat (String.length body) ++ crlf ++ crlf in
  header ++ body.

(** The loop over the header lines: the first line whose name is
    [content-length] decides, with [None] when its value is no integer. *)
Fixpoint content_length (lines : list string) : option Z :=
  match lines with
  | [] => None
  | line :: rest =>
      match Py.split1 ":" line with
      | [k; v] =>
          if String.eqb (Py.lower (Py.strip k)) "content-length"
          then Py.int_of_str (Py.strip v)
          else content_length rest
      | _ => content_length rest
      end
  end.

(** [_try_parse_one(buffer)]; the header is ASCII, so decoding it changes
    nothing. *)
Definition _try_parse_one (buffer : string) : result (option json * string) :=
  match Py.find HEADER_SEPARATOR buffer with
  | None => Ok (None, buffer)
  | Some header_end =>
      let header_text := Py.take header_end buffer in
      match content_length (Py.split crlf header_text) with
      | None => Ok (None, buffer)
      | Some cl =>
          let body_start :=
            Z.of_nat header_end + Z.of_nat (String.length HEADER_SEPARATOR) in
          let body_end := body_start + cl in
          if Z.of_nat (String.length buffer) <? body_end
          then Ok (None, buffer)
          else
            let body := Py.slice buffer body_start body_end in
            let rest := Py.slice_from buffer body_end in
            do v <- json_loads body;
            Ok (Some v, rest)
      end
  end.

(** [isinstance(msg, dict) and msg.get("id") == want_id] *)
Definition has_id (msg : json) (want_id : Z) : bool :=
  match msg with
  | JDict kvs => Json.eq_int (Json.get kvs "id") want_id
  | _ => false
  end.

(** The inner [while True] of [_read_response], run on the bytes buffered so
    far: messages are parsed off the buffer until none is complete
    ([msg is None], which also holds for a body that is the JSON [null]) or
    one carries the wanted id.  The result is the message returned, if one
    is, and the buffer left.  [None] stands for a loop that is still running
    when [fuel] is used up. *)
Fixpoint parse_buffered (fuel : nat) (want_id : Z) (buf : string)
  : option (result (option json * string)) :=
  match fuel with
  | O => None
  | S fuel' =>
      match _try_parse_one buf with
      | Raise e => Some (Raise e)
      | Ok (None, buf') | Ok (Some JNull, buf') => Some (Ok (None, buf'))
      | Ok (Some msg, buf') =>
          if has_id msg want_id then Some (Ok (Some msg, buf'))
          else parse_buffered fuel' want_id buf'
      end
  end.

(** Every message the loop passes has a body of at least one byte when
    [json.loads] accepts it, so the loop ends within as many rounds as the
    buffer has bytes, and one more to see that nothing is left. *)
Definition _read_buffered (want_id : Z) (buf : string)
  : option (result (option json * string)) :=
  parse_buffered (S (String.length buf)) want_id buf.

End Framing.

(** The frames of a list of messages, one after the other. *)
Definition frames (float_repr : spec_float -> string) (msgs : list json)
  : string :=
  fold_right (fun m s => encode_message float_repr m ++ s) "" msgs.

End McpStdio.

(** ** [run_smoke]: the tool-dispatch loop *)

Module RunSmoke.

(** The events handed to [evidence.append], by their [type]: the fields of
    the dictionary apart from [type] and [at].  The first three are those
    [main] appends before the loop. *)
Inductive event : Type :=
| RunStart (run_id : string) (provider : json)
| OAuthAutosync (result : json)
| ProviderDoctor (provider doctor : json)
| LlmRequest (step : nat) (messages : json)
| LlmResponse (step : nat) (raw_text content : string)
| LlmParseError (error : exn) (content : string)
| RunFinal (final : json)
| ToolRejected (tool expected : string)
| ToolCall (payload : json)
| RegistryLoaded (servers tools : list string)
| RunError (error : exn).

(** The [type] field of an event. *)
Definition event_type (e : event) : string :=
  match e with
  | RunStart _ _ => "run.start"
  | OAuthAutosync _ => "oauth.autosync.opencode"
  | ProviderDoctor _ _ => "provider.doctor"
  | LlmRequest _ _ => "llm.request"
  | LlmResponse _ _ _ => "llm.response"
  | LlmParseError _ _ => "llm.parse_error"
  | RunFinal _ => "run.final"
  | ToolRejected _ _ => "tool.rejected"
  | ToolCall _ => "tool.call"
  | RegistryLoaded _ _ => "registry.loaded"
  | RunError _ => "run.error"
  end.

(** What the loop reads and writes: the variables of [main] it updates,
    the evidence writer and its file [events.jsonl].  [evidence] is the
    history of the calls of [evidence.append]: the events handed to the
    writer so far, in order, whether or not the writer kept them. *)
Record state : Type := mk_state {
  messages : list (string * string);
  expected_i : nat;
  bad_outputs : nat;
  tool_calls_seen : list string;
  tool_to_server : list (string * (string * json));
  current_workflow_id : option string;
  discovered_servers : list string;
  discovered_tools : list string;
  evidence : list event;
  writer : EvidenceWriter.t;
  events_file : EvidenceWriter.file
}.

(** The collaborators of the loop: the provider, the MCP servers and the
    files they leave.  [step] tells the calls of different iterations
    apart. *)
Record env : Type := mk_env {
  float_repr : spec_float -> string;
  json_loads : string -> result json;
  secrets : list string;
  (** [provider.chat(messages, timeout_s=60.0)] *)
  chat : nat -> list (string * string) -> result json;
  (** [provider.extract_text(llm_resp)] *)
  extract_text : json -> result string;
  (** [call_tool(client, tool, arguments, timeout)] on the client of
      [server], started on first use: request, response and process meta *)
  call_tool : nat -> string -> string -> json -> result (json * json * json);
  (** the mapping [load_registry_mapping()] reads from the registry file *)
  load_registry_mapping : nat -> result (list (string * (string * json)));
  (** [snapshot_state()] *)
  snapshot_state : nat -> option string -> json;
  (** [evidence_max], from [WORKBENCH_EVIDENCE_MAX_BYTES] *)
  evidence_max : Z;
  (** [now_iso()] as read for the [at] of the event handed to the writer
      when [k] events were handed before *)
  event_at : nat -> string;
  (** [now_iso()] as read by the writer for its truncation marker, should
      the event handed when [k] events were handed before overflow *)
  truncated_at : nat -> string;
  (** [int((time.time() - started) * 1000)] for the tool call of a step *)
  duration_ms : nat -> Z;
  (** [str(exc)] for the exceptions whose text the loop does not write
      itself *)
  exn_str : exn -> string
}.

Definition expected : list string :=
  [ "workbench.registry.scan";
    "workbench.workflow.upload";
    "workbench.workflow.status";
    "workbench.workflow.update";
    "workbench.workflow.status" ].

(** [parse_tool_json(text)]: the whole text, else the span from the first
    opening to the last closing brace; without such a span the first
    exception is raised again. *)
Definition parse_tool_json (loads : string -> result json) (text : string)
  : result json :=
  let text := Py.strip text in
  match loads text with
  | Ok v => Ok v
  | Raise e =>
      match Py.find "{" text, Py.rfind "}" text with
      | Some start, Some end_ =>
          if (start <? end_)%nat
          then loads (Py.slice text (Z.of_nat start) (Z.of_nat end_ + 1))
          else Raise e
      | _, _ => Raise e
      end
  end.

(** [messages] as the JSON the provider and the log see. *)
Definition messages_json (ms : list (string * string)) : json :=
  JList (map (fun m => JDict [ ("role", JStr (fst m));
                               ("content", JStr (snd m)) ]) ms).

(** [x == s] for a string [s] *)
Definition json_eqb_str (x : json) (s : string) : bool :=
  match x with JStr t => String.eqb t s | _ => false end.

(** ["final" in call] *)
Definition has_final (call : json) : result bool :=
  match call with
  | JDict kvs =>
      Ok (match Py.dict_get kvs "final" with Some _ => true | None => false end)
  | JList l => Ok (existsb (fun x => json_eqb_str x "final") l)
  | JStr s => Ok (match Py.find "final" s with Some _ => true | None => false end)
  | _ => Raise TypeError
  end.

(** [call["final"]], reached when ["final" in call] holds *)
Definition get_final (call : json) : result json :=
  match call with
  | JDict kvs =>
      match Py.dict_get kvs "final" with
      | Some v => Ok v
      | None => Raise KeyError
      end
  | _ => Raise TypeError
  end.

(** [call.get(key, default)] *)
Definition call_get (call : json) (key : string) (default : json)
  : result json :=
  match call with
  | JDict kvs =>
      Ok (match Py.dict_get kvs key with Some v => v | None => default end)
  | _ => Raise AttributeError
  end.

(** [extract_first_json_content(resp)]; any exception gives [None]. *)
Definition extract_first_json_content (resp : json)
  : option (list (string * json)) :=
  match resp with
  | JDict r =>
      match Json.or_ (Json.get r "result") (JDict []) with
      | JDict result =>
          match Json.or_ (Json.get result "content") (JList []) with
          | JList content =>
              match
                find (fun item =>
                        match item with
                        | JDict i =>
                            json_eqb_str (Json.get i "type") "json"
                            && match Json.get i "json" with
                               | JDict _ => true | _ => false end
                        | _ => false
                        end) content
              with
              | Some (JDict i) =>
                  match Json.get i "json" with
                  | JDict j => Some j
                  | _ => None
                  end
              | _ => None
              end
          | JDict content =>
              (* iterating a dict yields its keys: no item is a dict *)
              None
          | _ => None
          end
      | _ => None
      end
  | _ => None
  end.

(** [sorted(set(xs))] for strings *)
Fixpoint dedup (xs : list string) : list string :=
  match xs with
  | [] => []
  | x :: xs' => if Py.str_in x xs' then dedup xs' else x :: dedup xs'
  end.

Definition sorted_set (xs : list string) : list string :=
  Py.sorted String.ltb (dedup xs).

Definition steer_parse (next_required : string) : string :=
  "Output ONLY a single-line JSON tool call. No prose." ++ String Json.char_lf ""
  ++ "Example: {" ++ Json.quote "tool" ++ ":" ++ Json.quote next_required
  ++ "," ++ Json.quote "arguments" ++ ":{...}}".

Definition steer_final (next_required : string) : string :=
  "Do NOT finish yet. Next required tool is " ++ next_required
  ++ ". Output ONLY the tool-call JSON.".

Definition steer_tool (next_required : string) : string :=
  "Incorrect tool. Next required tool is " ++ next_required
  ++ ". Output ONLY the tool-call JSON.".

(** How one iteration of the loop ends. *)
Inductive flow : Type :=
| Next (s : state)                 (* [continue], or the end of the body *)
| Break (s : state)                (* [break] *)
| Raised (s : state) (e : exn).    (* an exception leaves the loop *)

(** [str(exc)]: the text of the exceptions the loop raises itself, and
    [exn_str] for the others. *)
Definition exception_text (E : env) (e : exn) : string :=
  match e with
  | TooManyUnparseable => "LLM output was not parseable JSON too many times"
  | FinishedEarlyTooOften next_required =>
      "Model tried to finish early too many times; next required tool is "
      ++ next_required
  | NoToolsDiscovered =>
      "No tools discovered yet. The LLM must call workbench.registry.scan first."
  | _ => exn_str E e
  end.

(** The dictionary handed to [evidence.append] for an event; [at_] is the
    reading of [now_iso()] taken for it.  A [tool.call] is handed over as
    [redact_obj] returned it, [at] included. *)
Definition event_obj (E : env) (at_ : string) (e : event)
  : list (string * json) :=
  let head := [ ("type", JStr (event_type e)); ("at", JStr at_) ] in
  match e with
  | RunStart run_id provider =>
      head ++ [ ("runId", JStr run_id); ("provider", provider) ]
  | OAuthAutosync result => head ++ [ ("result", result) ]
  | ProviderDoctor provider doctor =>
      head ++ [ ("provider", provider); ("doctor", doctor) ]
  | LlmRequest step messages =>
      head ++ [ ("step", JInt (Z.of_nat step)); ("messages", messages) ]
  | LlmResponse step raw_text content =>
      head ++ [ ("step", JInt (Z.of_nat step)); ("rawText", JStr raw_text);
                ("content", JStr content) ]
  | LlmParseError error content =>
      head ++ [ ("error", JStr (exception_text E error));
                ("content", JStr content) ]
  | RunFinal final => head ++ [ ("final", final) ]
  | ToolRejected tool expected =>
      head ++ [ ("tool", JStr tool); ("expected", JStr expected) ]
  | ToolCall payload => Json.as_dict payload
  | RegistryLoaded servers tools =>
      head ++ [ ("servers", JList (map JStr servers));
                ("tools", JList (map JStr tools)) ]
  | RunError error =>
      head ++ [ ("error",
                 JStr (Redact.redact_text (exception_text E error)
                         (secrets E))) ]
  end.

(** [evidence.append({...})]: the event goes through the writer, which
    writes its line, or the truncation marker, or nothing. *)
Definition log (E : env) (s : state) (e : event) : state :=
  let k := List.length (evidence s) in
  let r := EvidenceWriter.append (float_repr E) (truncated_at E k)
             (writer s) (events_file s) (event_obj E (event_at E k) e) in
  mk_state (messages s) (expected_i s) (bad_outputs s) (tool_calls_seen s)
    (tool_to_server s) (current_workflow_id s) (discovered_servers s)
    (discovered_tools s) (evidence s ++ [e]) (fst r) (snd r).

Definition say (s : state) (ms : list (string * string)) : state :=
  mk_state (messages s ++ ms) (expected_i s) (bad_outputs s)
    (tool_calls_seen s) (tool_to_server s) (current_workflow_id s)
    (discovered_servers s) (discovered_tools s) (evidence s)
    (writer s) (events_file s).

Definition strike (s : state) : state :=
  mk_state (messages s) (expected_i s) (S (bad_outputs s))
    (tool_calls_seen s) (tool_to_server s) (current_workflow_id s)
    (discovered_servers s) (discovered_tools s) (evidence s)
    (writer s) (events_file s).

(** [tool_calls_seen.append(tool); expected_i = min(expected_i + 1, len)] *)
Definition seen (s : state) (tool : string) : state :=
  mk_state (messages s) (Nat.min (S (expected_i s)) (List.length expected))
    (bad_outputs s) (tool_calls_seen s ++ [tool]) (tool_to_server s)
    (current_workflow_id s) (discovered_servers s) (discovered_tools s)
    (evidence s) (writer s) (events_file s).

Definition set_mapping (s : state) (m : list (string * (string * json)))
  : state :=
  mk_state (messages s) (expected_i s) (bad_outputs s) (tool_calls_seen s)
    m (current_workflow_id s)
    (sorted_set (map (fun kv => fst (snd kv)) m))
    (Py.sorted String.ltb (map fst m)) (evidence s)
    (writer s) (events_file s).

Definition set_workflow (s : state) (w : option string) : state :=
  mk_state (messages s) (expected_i s) (bad_outputs s) (tool_calls_seen s)
    (tool_to_server s) w (discovered_servers s) (discovered_tools s)
    (evidence s) (writer s) (events_file s).

(** [expected[expected_i] if expected_i < len(expected) else
    "workbench.workflow.status"] *)
Definition next_required (s : state) : string :=
  nth (expected_i s) expected "workbench.workflow.status".

Definition tool_call_payload (E : env) (step : nat) (s : state)
  (tool : string) (server : json) (arguments req resp meta : json) : json :=
  Redact.redact_obj
    (JDict [ ("type", JStr "tool.call");
             ("at", JStr (event_at E (List.length (evidence s))));
             ("tool", JStr tool);
             ("server", server);
             ("arguments", arguments);
             ("jsonrpcRequest", req);
             ("jsonrpcResponse", resp);
             ("process", meta);
             ("durationMs", JInt (duration_ms E step));
             ("state", snapshot_state E step (current_workflow_id s)) ])
    (secrets E).

(** The part of the body behind the check against the script: the call of
    the tool. *)
Definition dispatch_tool (E : env) (step : nat) (s : state) (content : string)
  (tool : string) (arguments : json) : flow :=
  if String.eqb tool "workbench.registry.scan" then
    match call_tool E step "workbench.registry" tool arguments with
    | Raise e => Raised s e
    | Ok (req, resp, meta) =>
        let s1 := seen s tool in
        let s2 := log E s1 (ToolCall (tool_call_payload E step s1 tool
                            (JStr "workbench.registry") arguments req resp meta)) in
        match load_registry_mapping E step with
        | Raise e => Raised s2 e
        | Ok m =>
            let s3 := set_mapping s2 m in
            let s4 := log E s3 (RegistryLoaded (discovered_servers s3)
                                             (discovered_tools s3)) in
            Next (say s4
                    [ ("assistant", content);
                      ("user", "Tool result for " ++ tool ++ ": "
                               ++ Json.dumps (float_repr E) resp);
                      ("user", "Discovered tools: "
                               ++ String.concat ", "
                                    (Py.sorted String.ltb
                                       (map fst (tool_to_server s3)))) ])
        end
    end
  else
    match tool_to_server s with
    | [] => Raised s NoToolsDiscovered
    | _ :: _ =>
        match Py.dict_get (tool_to_server s) tool with
        | None => Raised s KeyError
        | Some (server, _) =>
            match call_tool E step server tool arguments with
            | Raise e => Raised s e
            | Ok (req, resp, meta) =>
                let s0 :=
                  if String.eqb tool "workbench.workflow.upload" then
                    match extract_first_json_content resp with
                    | Some status =>
                        match Json.get status "id" with
                        | JStr id => set_workflow s (Some id)
                        | _ => s
                        end
                    | None => s
                    end
                  else s in
                let s1 := seen s0 tool in
                let s2 := log E s1 (ToolCall (tool_call_payload E step s1 tool
                                    (JStr server) arguments req resp meta)) in
                Next (say s2
                        [ ("assistant", content);
                          ("user", "Tool result for " ++ tool ++ ": "
                                   ++ Json.dumps (float_repr E) resp) ])
            end
        end
    end.

(** The body of [for step in range(args.max_steps)]. *)
Definition body (E : env) (step : nat) (s : state) : flow :=
  let s := log E s (LlmRequest step
                    (Redact.redact_obj (messages_json (messages s)) (secrets E))) in
  match chat E step (messages s) with
  | Raise e => Raised s e
  | Ok llm_resp =>
  match extract_text E llm_resp with
  | Raise e => Raised s e
  | Ok content =>
  let raw := Json.dumps (float_repr E) (Redact.redact_obj llm_resp (secrets E)) in
  let raw_text :=
    if 20000 <? Z.of_nat (String.length raw)
    then Py.take (Z.to_nat 20000) raw ++ "...<truncated>" else raw in
  let content_redacted := Redact.redact_text content (secrets E) in
  let s := log E s (LlmResponse step raw_text content_redacted) in
  match parse_tool_json (json_loads E) content with
  | Raise exc =>
      let s := strike (log E s (LlmParseError exc content_redacted)) in
      if (5 <=? bad_outputs s)%nat then Raised s TooManyUnparseable
      else Next (say s [ ("assistant", content_redacted);
                         ("user", steer_parse (next_required s)) ])
  | Ok call =>
  match has_final call with
  | Raise e => Raised s e
  | Ok true =>
      if (expected_i s <? List.length expected)%nat then
        let s := strike s in
        if (5 <=? bad_outputs s)%nat
        then Raised s (FinishedEarlyTooOften (next_required s))
        else Next (say s [ ("assistant", content_redacted);
                           ("user", steer_final (next_required s)) ])
      else
        match get_final call with
        | Raise e => Raised s e
        | Ok final => Break (log E s (RunFinal final))
        end
  | Ok false =>
  match call_get call "tool" JNull with
  | Raise e => Raised s e
  | Ok tool_ =>
  match call_get call "arguments" (JDict []) with
  | Raise e => Raised s e
  | Ok arguments =>
  match Py.if_truthy (Json.as_str tool_) with
  | None => Raised s InvalidToolCall
  | Some tool =>
      if (expected_i s <? List.length expected)%nat
         && negb (String.eqb tool (next_required s))
      then
        Next (say (log E s (ToolRejected tool (next_required s)))
                [ ("assistant", content);
                  ("user", steer_tool (next_required s)) ])
      else dispatch_tool E step s content tool arguments
  end end end end end end end.

(** The loop with its [except]: [steps] iterations from [step], stopping at
    a [break]; an exception is logged as [run.error] and kept as [error]. *)
Fixpoint loop (E : env) (steps : nat) (step : nat) (s : state)
  : state * option exn :=
  match steps with
  | O => (s, None)
  | S steps' =>
      match body E step s with
      | Next s' => loop E steps' (S step) s'
      | Break s' => (s', None)
      | Raised s' e => (log E s' (RunError e), Some e)
      end
  end.

(** The variables of [main] before anything is appended: a writer for the
    budget on a file that does not exist yet (the run directory is new). *)
Definition start (E : env) (messages0 : list (string * string)) : state :=
  mk_state messages0 0 0 [] [] None [] [] []
    (EvidenceWriter.init (evidence_max E)) None.

(** [main] from the creation of the writer on: the events [evidence0] are
    appended before the loop, then the loop runs for [max_steps] on the
    conversation [messages0]. *)
Definition run (E : env) (max_steps : nat) (messages0 : list (string * string))
  (evidence0 : list event) : state * option exn :=
  loop E max_steps 0 (fold_left (log E) evidence0 (start E messages0)).

(** The number of events of a type in a list of events. *)
Definition count_type (ty : string) (l : list event) : nat :=
  List.length (filter (fun e => String.eqb (event_type e) ty) l).

(** What the writer was handed for a list of events, the first of them when
    [k] events were handed before: for each the reading of the clock for
    the truncation marker and the dictionary. *)
Fixpoint entries (E : env) (k : nat) (events : list event)
  : list (string * list (string * json)) :=
  match events with
  | [] => []
  | e :: rest =>
      (truncated_at E k, event_obj E (event_at E k) e)
      :: entries E (S k) rest
  end.

End RunSmoke.

(** ** [OpenAICodexOAuthProvider.chat]: how an attempt resolves its profile *)

Module OpenAICodexOAuthProvider.

(** [OpenAICodexOAuthConfig]; what is found at its two paths is handed to
    [_load_pool_or_single] as [pool_file] and [token_file]. *)
Record OpenAICodexOAuthConfig : Type := mk_config {
  issuer : string;
  client_id : string;
  model : string;
  codex_endpoint : string;
  selection_profile : option string;
  selection_strategy : string
}.

(** [a or b] for an [Optional[str]] and a [str] *)
Definition or_str (a : option string) (b : string) : string :=
  match Py.if_truthy a with Some x => x | None => b end.

Section LoadPool.
Variable repr : json -> string.

(** The second half of [_load_pool_or_single]: the legacy token file, an
    object of version 1, as a pool of the one profile [default]. *)
Definition single_pool (iso : string) (cfg : OpenAICodexOAuthConfig)
  (data : list (string * json)) : result OAuthPool.t :=
  let access :=
    Json.str repr (Json.or_ (Json.get data "accessToken") (JStr "")) in
  let refresh :=
    Json.str repr (Json.or_ (Json.get data "refreshToken") (JStr "")) in
  do expires_at_ms <-
    Json.int (Json.or_ (Json.get data "expiresAtMs") (JInt 0));
  if negb (Py.str_truthy access) || negb (Py.str_truthy refresh)
  then Raise TokenFileMissingTokens
  else
    let p_issuer := match Json.as_str (Json.get data "issuer") with
                    | Some x => x
                    | None => issuer cfg
                    end in
    let p_client_id := match Json.as_str (Json.get data "clientId") with
                       | Some x => x
                       | None => client_id cfg
                       end in
    let p :=
      OAuthProfile.mk "default" access refresh expires_at_ms None
        (Json.as_str (Json.get data "accountId")) (Some p_issuer)
        (Some p_client_id) None None None None None false None in
    let or_cfg key default :=
      let text := Json.str repr (Json.or_ (Json.get data key) (JStr "")) in
      if Py.str_truthy text then text else default in
    Ok (OAuthPool.mk 1 "openai.codex.oauth.pool" iso (selection_strategy cfg)
          None (Some "default") [("default", p)]
          (Some p_issuer) (Some p_client_id)
          (Some (or_cfg "model" (model cfg)))
          (Some (or_cfg "codexEndpoint" (codex_endpoint cfg)))).

(** [_load_pool_or_single()]: the pool file when there is one, else the
    token file; returns the pool and its origin. *)
Definition _load_pool_or_single (iso : string) (cfg : OpenAICodexOAuthConfig)
  (pool_file token_file : file_content) : result (OAuthPool.t * string) :=
  match pool_file with
  | Absent =>
      match token_file with
      | Absent => Raise TokenFileNotFound
      | NotJson => Raise JSONDecodeError
      | Holds (JDict data) =>
          if negb (Json.eq_int (Json.get data "version") 1)
          then Raise InvalidTokenFile
          else do pool <- single_pool iso cfg data; Ok (pool, "single")
      | Holds _ => Raise InvalidTokenFile
      end
  | _ =>
      do pool <- PoolFile.load_pool repr iso pool_file;
      if negb (OAuthPool.version pool =? 1) then Raise InvalidPoolVersion
      else
        match OAuthPool.profiles pool with
        | [] => Raise PoolHasNoProfiles
        | _ :: _ =>
            Ok (OAuthPool.mk (OAuthPool.version pool) (OAuthPool.provider pool)
                  (OAuthPool.updated_at pool)
                  (OAuthPool.selection_strategy pool)
                  (OAuthPool.pinned_profile pool)
                  (OAuthPool.last_used_profile pool)
                  (OAuthPool.profiles pool)
                  (Some (or_str (OAuthPool.issuer pool) (issuer cfg)))
                  (Some (or_str (OAuthPool.client_id pool) (client_id cfg)))
                  (Some (or_str (OAuthPool.model pool) (model cfg)))
                  (Some (or_str (OAuthPool.codex_endpoint pool)
                                (codex_endpoint cfg))),
                "pool")
        end
  end.

End LoadPool.

(** The head of one iteration of the rotation loop in [chat]: rotate when the
    selected name was attempted before, then look the name up in the pool.
    Returns the name and the profile the attempt goes on with. *)
Definition select_for_attempt (clock : nat -> Z) (pool : OAuthPool.t)
  (attempted : list string) (selected : string)
  (selection_profile : option string) : result (string * OAuthProfile.t) :=
  do selected' <-
    (if Py.str_in selected attempted
     then OAuthPool.rotate_after clock pool selected selection_profile
     else Ok selected);
  match OAuthPool.get (OAuthPool.profiles pool) selected' with
  | Some profile => Ok (selected', profile)
  | None => Raise (SelectedProfileMissing selected')
  end.

End OpenAICodexOAuthProvider.

(** ** Vocabulary of the properties: orders *)

(** A three-way comparison that behaves as a total preorder on the values
    satisfying [ok]. *)
Record order_ok {A : Type} (ok : A -> Prop) (cmp : A -> A -> comparison)
  : Prop := {
  cmp_antisym : forall x y, ok x -> ok y -> cmp y x = CompOpp (cmp x y);
  cmp_eq_l : forall x y z, ok x -> ok y -> ok z ->
    cmp x y = Eq -> cmp x z = cmp y z;
  cmp_lt_trans : forall x y z, ok x -> ok y -> ok z ->
    cmp x y = Lt -> cmp y z = Lt -> cmp x z = Lt
}.

(** Lexicographic product of two comparisons. *)
Definition lex {A B : Type} (ca : A -> A -> comparison)
  (cb : B -> B -> comparison) (x y : A * B) : comparison :=
  match ca (fst x) (fst y) with
  | Eq => cb (snd x) (snd y)
  | c => c
  end.

(** [<] read off a comparison. *)
Definition is_lt (c : comparison) : bool :=
  match c with Lt => true | _ => false end.

(** The comparison of two binary64 values; [Eq] stands in where IEEE has no
    answer (a NaN operand). *)
Definition fcmp (a b : spec_float) : comparison :=
  match SFcompare a b with Some c => c | None => Eq end.

Definition not_nan (f : spec_float) : Prop := Py.is_nan f = false.

(** The order the sort key induces. *)
Definition key_cmp : spec_float * Z * string -> spec_float * Z * string
  -> comparison :=
  lex (lex fcmp Z.compare) String.compare.

Definition key_ok (k : spec_float * Z * string) : Prop :=
  (not_nan (fst (fst k)) /\ True) /\ True.

(** A profile whose remaining quota is a number. *)
Definition ordered_profile (p : OAuthProfile.t) : Prop :=
  not_nan (OAuthProfile.effective_remaining p).

(** ** Vocabulary of the properties: the pool *)

(** The round-robin step of [choose_profile] does not apply at [at_]: the
    strategy is another one, or no profile was used last, or the profile used
    last is not among the usable ones. *)
Definition round_robin_idle (self : OAuthPool.t) (at_ : Z) : Prop :=
  String.eqb (OAuthPool.strategy self) "round-robin" = false \/
  Py.if_truthy (OAuthPool.last_used_profile self) = None \/
  exists l, Py.if_truthy (OAuthPool.last_used_profile self) = Some l /\
            forall p, In p (OAuthPool.usable self at_) ->
                      OAuthProfile.profile p <> l.

(** [p] comes no later than [q] in the order (remaining, resetAtMs, email). *)
Definition key_le (p q : OAuthProfile.t) : Prop :=
  key_cmp (OAuthProfile.sort_key p) (OAuthProfile.sort_key q) <> Gt.

(** The profiles of a pool are stored under their own names: the keys are
    distinct and not empty, and each is the [profile] field of its value. *)
Definition well_keyed (ps : list (string * OAuthProfile.t)) : Prop :=
  NoDup (map fst ps) /\
  Forall (fun kv => OAuthProfile.profile (snd kv) = fst kv /\
                    Py.str_truthy (fst kv) = true) ps.

(** [p] is stored in the pool, under the name [name]. *)
Definition stored (self : OAuthPool.t) (name : string) (p : OAuthProfile.t)
  : Prop :=
  OAuthPool.get (OAuthPool.profiles self) name = Some p.

(** The exceptions of a failed conversion: [int(...)] and [float(...)]
    raise [ValueError], [TypeError] or [OverflowError]. *)
Definition conversion_error (e : exn) : Prop :=
  e = ValueError \/ e = TypeError \/ e = OverflowError.

(** ** Vocabulary of the properties: texts *)

(** [sub in s] *)
Fixpoint contains (sub s : string) : bool :=
  String.prefix sub s ||
  match s with
  | EmptyString => false
  | String _ s' => contains sub s'
  end.

(** Some substring of [s] matches [Bearer\s+[A-Za-z0-9._-]+]. *)
Fixpoint has_bearer (s : string) : bool :=
  match Redact.bearer_match s with
  | Some _ => true
  | None =>
      match s with
      | EmptyString => false
      | String _ s' => has_bearer s'
      end
  end.

Fixpoint all_chars (p : ascii -> bool) (s : string) : bool :=
  match s with
  | EmptyString => true
  | String c s' => p c && all_chars p s'
  end.

(** A character a token-like secret is made of: no white space and no angle
    bracket. *)
Definition plain_char (c : ascii) : bool :=
  negb (Ascii.eqb c "<") && negb (Ascii.eqb c ">") && negb (Py.is_space c).

(** A secret the placeholder cannot rebuild: not empty, made of plain
    characters, and no part of the word "redacted". *)
Definition token_like (s : string) : bool :=
  Py.str_truthy s && all_chars plain_char s && negb (contains s "redacted").

(** The last character of [p], if any, is no white space. *)
Fixpoint ends_plain (p : string) : bool :=
  match p with
  | EmptyString => true
  | String x p' =>
      match p' with
      | EmptyString => negb (Py.is_space x)
      | String _ _ => ends_plain p'
      end
  end.

(** A text the redactor is done with: no bearer token and none of the
    token-like secrets. *)
Definition clean (secrets : list string) (s : string) : bool :=
  negb (has_bearer s) &&
  forallb (fun k => negb (token_like k) || negb (contains k s)) secrets.

(** [p] holds of every string value in [x]: the strings in lists and the
    values of dictionaries, at any depth.  Keys are not values. *)
Fixpoint all_string_values (p : string -> bool) (x : json) : bool :=
  match x with
  | JStr s => p s
  | JList l => forallb (all_string_values p) l
  | JDict kvs => forallb (fun kv => all_string_values p (snd kv)) kvs
  | _ => true
  end.

(** The keys of a dictionary, in order. *)
Definition keys (x : json) : list string :=
  match x with JDict kvs => map fst kvs | _ => [] end.

(** ** Vocabulary of the properties: the dispatch loop *)

(** The model's answer is unparseable at every step. *)
Definition always_unparseable (E : RunSmoke.env) : Prop :=
  forall step msgs, exists resp content exc,
    RunSmoke.chat E step msgs = Ok resp /\
    RunSmoke.extract_text E resp = Ok content /\
    RunSmoke.parse_tool_json (RunSmoke.json_loads E) content = Raise exc.

(** The writer and the file of a state are what the writer makes of the
    events handed to it since the start of the run. *)
Definition replayed (E : RunSmoke.env) (s : RunSmoke.state) : Prop :=
  (RunSmoke.writer s, RunSmoke.events_file s)
  = EvidenceWriter.appends (RunSmoke.float_repr E)
      (EvidenceWriter.init (RunSmoke.evidence_max E)) None
      (RunSmoke.entries E 0 (RunSmoke.evidence s)).

(** The state an iteration ends in. *)
Definition state_of (f : RunSmoke.flow) : RunSmoke.state :=
  match f with
  | RunSmoke.Next s | RunSmoke.Break s | RunSmoke.Raised s _ => s
  end.

(** The tool calls made so far follow the script: [expected_i] counts them,
    up to the length of the script, and the calls made while the script was
    open are its first entries, in order. *)
Definition in_script (s : RunSmoke.state) : Prop :=
  RunSmoke.expected_i s
  = Nat.min (List.length (RunSmoke.tool_calls_seen s))
            (List.length RunSmoke.expected) /\
  firstn (List.length RunSmoke.expected) (RunSmoke.tool_calls_seen s)
  = firstn (RunSmoke.expected_i s) RunSmoke.expected.

(** The model proposes, at every step, a tool that is not the first of the
    script. *)
Definition always_mismatch (E : RunSmoke.env) : Prop :=
  forall step msgs, exists resp content call tool_ arguments tool,
    RunSmoke.chat E step msgs = Ok resp /\
    RunSmoke.extract_text E resp = Ok content /\
    RunSmoke.parse_tool_json (RunSmoke.json_loads E) content = Ok call /\
    RunSmoke.has_final call = Ok false /\
    RunSmoke.call_get call "tool" JNull = Ok tool_ /\
    RunSmoke.call_get call "arguments" (JDict []) = Ok arguments /\
    Py.if_truthy (Json.as_str tool_) = Some tool /\
    tool <> "workbench.registry.scan".

(** The model declares the run final at every step. *)
Definition always_final (E : RunSmoke.env) : Prop :=
  forall step msgs, exists resp content call,
    RunSmoke.chat E step msgs = Ok resp /\
    RunSmoke.extract_text E resp = Ok content /\
    RunSmoke.parse_tool_json (RunSmoke.json_loads E) content = Ok call /\
    RunSmoke.has_final call = Ok true.

(** The [type] of the dictionaries handed to the writer. *)
Definition entry_types (written : list (string * list (string * json)))
  : list json :=
  map (fun entry => Json.get (snd entry) "type") written.

(** ** Sample data *)

Module Samples.

(** A profile with the fields selection reads; tokens and expiry are fixed. *)
Definition profile (name email : string) (remaining : Z) (reset_at_ms : Z)
  : OAuthProfile.t :=
  OAuthProfile.mk name "access" "refresh" 86400000 (Some email) None None None
    (Some (Py.float_of_Z remaining)) (Some reset_at_ms) None None None false
    None.

Definition pool (strategy : string) (last_used : option string)
  (ps : list OAuthProfile.t) : OAuthPool.t :=
  OAuthPool.mk 1 "openai.codex.oauth.pool" "2026-01-01T00:00:00Z" strategy
    None last_used (map (fun p => (OAuthProfile.profile p, p)) ps)
    None None None None.

(** The pool of the deterministic-selection test after its two updates:
    equal remaining, [p1] and [p2] with equal resetAtMs. *)
Definition tie_pool : OAuthPool.t :=
  pool "sticky" None
    [ profile "p1" "b@example.com" 100 1000;
      profile "p2" "a@example.com" 100 1000;
      profile "p3" "c@example.com" 100 9000 ].

(** Two profiles that tie on remaining and resetAtMs, round-robin, the
    profile with the smaller email used last. *)
Definition round_robin_pool : OAuthPool.t :=
  pool "round-robin" (Some "a")
    [ profile "a" "a@example.com" 100 1000;
      profile "b" "b@example.com" 100 1000 ].

(** A single profile. *)
Definition single_pool : OAuthPool.t :=
  pool "sticky" None [ profile "a" "a@example.com" 100 1000 ].

(** A pool file of version 2 with one profile. *)
Definition version2_file : file_content :=
  Holds (JDict
    [ ("version", JInt 2);
      ("provider", JStr "openai.codex.oauth.pool");
      ("selection", JDict [ ("strategy", JStr "sticky") ]);
      ("profiles",
       JDict [ ("a", JDict [ ("accessToken", JStr "access");
                             ("refreshToken", JStr "refresh");
                             ("expiresAtMs", JInt 86400000);
                             ("email", JStr "a@example.com") ]) ]) ]).

(** A configuration of the provider. *)
Definition config : OpenAICodexOAuthProvider.OpenAICodexOAuthConfig :=
  OpenAICodexOAuthProvider.mk_config "https://auth.openai.com"
    "client" "gpt-5.2-codex"
    "https://chatgpt.com/backend-api/codex/responses" None "sticky".

(** A stand-in for Python's formatting of floats, lists and dicts in [str];
    the samples have no such value where [str] is applied. *)
Definition no_repr (x : json) : string := "".

(** A stand-in for [float.__repr__]; the samples carry no float. *)
Definition float_repr0 (f : spec_float) : string := "".

(** Three events, the second longer than a budget of 100 bytes allows. *)
Definition three_events : list (string * list (string * json)) :=
  [ ("2026-01-01T00:00:00Z", [ ("type", JStr "run.start") ]);
    ("2026-01-01T00:00:01Z",
     [ ("type", JStr "llm.response");
       ("content",
        JStr "0123456789012345678901234567890123456789012345678901234567890123456789") ]);
    ("2026-01-01T00:00:02Z", [ ("type", JStr "run.final") ]) ].

(** A tool result that names a session by its token. *)
Definition keyed_by_token : json :=
  JDict [ ("sessions", JDict [ ("tokenA", JStr "active") ]) ].

(** [json.loads] on the texts the samples use: the empty object; any other
    text is refused. *)
Definition loads_empty_object (text : string) : result json :=
  if String.eqb text "{}" then Ok (JDict []) else Raise JSONDecodeError.

(** A response that carries an id and nothing else. *)
Definition with_id (n : Z) : json := JDict [ ("id", JInt n) ].

(** [json.loads] on the texts of the responses with the ids 1 and 2; any
    other text is refused. *)
Definition loads_ids (text : string) : result json :=
  if String.eqb text (Json.dumps float_repr0 (with_id 1)) then Ok (with_id 1)
  else if String.eqb text (Json.dumps float_repr0 (with_id 2))
  then Ok (with_id 2)
  else Raise JSONDecodeError.

(** The text of a tool call as a model would write it. *)
Definition status_call : json :=
  JDict [ ("tool", JStr "workbench.workflow.status");
          ("arguments", JDict []) ].

Definition status_call_text : string := Json.dumps float_repr0 status_call.

(** [json.loads] on the texts the dispatch samples use: the tool call above
    is decoded, any other text is refused. *)
Definition loads_status_call (text : string) : result json :=
  if String.eqb text status_call_text then Ok status_call
  else Raise JSONDecodeError.

(** [extract_text] of the OAuth provider on a response that carries
    [output_text]. *)
Definition output_text (resp : json) : result string :=
  match resp with
  | JDict r =>
      match Json.get r "output_text" with
      | JStr s => Ok s
      | _ => Ok ""
      end
  | _ => Raise AttributeError
  end.

(** A run whose model answers [text] at every step; no tool is reachable. *)
Definition stubborn_env (text : string) : RunSmoke.env :=
  RunSmoke.mk_env float_repr0 loads_status_call []
    (fun _ _ => Ok (JDict [ ("output_text", JStr text) ]))
    output_text
    (fun _ _ _ _ => Raise ToolError)
    (fun _ => Raise ToolError)
    (fun _ _ => JDict [])
    20000000
    (fun _ => "2026-01-01T00:00:00Z")
    (fun _ => "2026-01-01T00:00:00Z")
    (fun _ => 0)
    (fun _ => "").

(** A model's declaration that the run is done. *)
Definition final_call : json := JDict [ ("final", JStr "done") ].

Definition final_call_text : string := Json.dumps float_repr0 final_call.

(** A run whose model declares the run done at every step; no tool is
    reachable. *)
Definition finishing_env : RunSmoke.env :=
  RunSmoke.mk_env float_repr0
    (fun text => if String.eqb text final_call_text then Ok final_call
                 else Raise JSONDecodeError)
    []
    (fun _ _ => Ok (JDict [ ("output_text", JStr final_call_text) ]))
    output_text
    (fun _ _ _ _ => Raise ToolError)
    (fun _ => Raise ToolError)
    (fun _ _ => JDict [])
    20000000
    (fun _ => "2026-01-01T00:00:00Z")
    (fun _ => "2026-01-01T00:00:00Z")
    (fun _ => 0)
    (fun _ => "").

(** The tool calls of the script, as a model would write them. *)
Definition script_calls : list json :=
  map (fun tool => JDict [ ("tool", JStr tool); ("arguments", JDict []) ])
      RunSmoke.expected.

(** [json.loads] on the texts of a table: the value of the first entry whose
    text is the argument; any other text is refused. *)
Fixpoint loads_table (table : list json) (text : string) : result json :=
  match table with
  | [] => Raise JSONDecodeError
  | v :: rest =>
      if String.eqb text (Json.dumps float_repr0 v) then Ok v
      else loads_table rest text
  end.

(** A run whose model follows the script and then declares the run done;
    every tool answers with an empty response and the registry lists the
    workflow tools. *)
Definition scripted_env : RunSmoke.env :=
  RunSmoke.mk_env float_repr0
    (loads_table (script_calls ++ [final_call]))
    []
    (fun step _ =>
       Ok (JDict [ ("output_text",
                    JStr (Json.dumps float_repr0
                            (nth step script_calls final_call))) ]))
    output_text
    (fun _ _ _ _ => Ok (JDict [], JDict [], JDict []))
    (fun _ =>
       Ok [ ("workbench.workflow.upload", ("workbench.workflow", JDict []));
            ("workbench.workflow.status", ("workbench.workflow", JDict []));
            ("workbench.workflow.update", ("workbench.workflow", JDict [])) ])
    (fun _ _ => JDict [])
    20000000
    (fun _ => "2026-01-01T00:00:00Z")
    (fun _ => "2026-01-01T00:00:00Z")
    (fun _ => 0)
    (fun _ => "").

Definition first_messages : list (string * string) :=
  [ ("system", "You are a tool-using agent.");
    ("user", "Run the smoke scenario.") ].

End Samples.

(** ** Vocabulary of the properties: pools on disk *)

(** The profile as it comes back from its JSON form: [to_json] writes a time
    stamp where [updated_at] is unset or empty. *)
Definition stamped (iso : string) (p : OAuthProfile.t) : OAuthProfile.t :=
  OAuthProfile.set_updated_at p
    (Some match Py.if_truthy (OAuthProfile.updated_at p) with
          | Some u => u
          | None => iso
          end).

(** No optional text of the profile that [from_json] reads with
    [... and obj.get(...)] is the empty string. *)
Definition no_empty_text (p : OAuthProfile.t) : Prop :=
  OAuthProfile.email p <> Some "" /\
  OAuthProfile.provider p <> Some "" /\
  OAuthProfile.last_seen_at p <> Some "".

(** A pool that [from_json] reads back as it is: no field for which
    [from_json] substitutes a default holds the value that triggers the
    default, and every profile carries its time stamp. *)
Definition canonical (pool : OAuthPool.t) : Prop :=
  OAuthPool.version pool <> 0 /\
  Py.str_truthy (OAuthPool.provider pool) = true /\
  Py.str_truthy (OAuthPool.updated_at pool) = true /\
  Py.str_truthy (OAuthPool.selection_strategy pool) = true /\
  well_keyed (OAuthPool.profiles pool) /\
  Forall (fun kv => no_empty_text (snd kv) /\
                    Py.if_truthy (OAuthProfile.updated_at (snd kv))
                    = OAuthProfile.updated_at (snd kv) /\
                    OAuthProfile.updated_at (snd kv) <> None)
         (OAuthPool.profiles pool).

(* ================================================================== *)
(** * Part II: properties                                              *)
(* ================================================================== *)

(** ** Orders *)

Section Comparators.
Context {A : Type} (ok : A -> Prop) (cmp : A -> A -> comparison).
Hypothesis H : order_ok ok cmp.

Lemma cmp_eq_r x y z :
  ok x -> ok y -> ok z -> cmp y z = Eq -> cmp x y = cmp x z.
Proof.
  intros ox oy oz E.
  assert (E' : cmp z y = Eq) by (rewrite (cmp_antisym _ _ H y z), E; auto).
  assert (S := cmp_eq_l _ _ H z y x oz oy ox E').
  rewrite (cmp_antisym _ _ H y x oy ox), (cmp_antisym _ _ H z x oz ox).
  now rewrite S.
Qed.

Lemma cmp_asym x y : ok x -> ok y -> cmp x y = Lt -> is_lt (cmp y x) = false.
Proof.
  intros ox oy E. rewrite (cmp_antisym _ _ H x y), E by assumption.
  reflexivity.
Qed.

Lemma cmp_refl x : ok x -> cmp x x = Eq.
Proof.
  intros ox. assert (E := cmp_antisym _ _ H x x ox ox).
  destruct (cmp x x); simpl in E; congruence.
Qed.

(** "Not below" is transitive: [x <= y] and [y <= z] give [x <= z]. *)
Lemma cmp_nlt_trans x y z :
  ok x -> ok y -> ok z ->
  is_lt (cmp y x) = false -> is_lt (cmp z y) = false ->
  is_lt (cmp z x) = false.
Proof.
  intros ox oy oz Hyx Hzy.
  destruct (cmp z x) eqn:Ezx; try reflexivity. exfalso.
  destruct (cmp x y) eqn:Exy.
  - rewrite (cmp_eq_r z x y oz ox oy Exy) in Ezx. rewrite Ezx in Hzy.
    discriminate.
  - assert (T := cmp_lt_trans _ _ H z x y oz ox oy Ezx Exy).
    rewrite T in Hzy. discriminate.
  - rewrite (cmp_antisym _ _ H x y), Exy in Hyx by assumption. discriminate.
Qed.

End Comparators.

Lemma lex_ok {A B : Type} (oka : A -> Prop) (okb : B -> Prop) ca cb :
  order_ok oka ca -> order_ok okb cb ->
  order_ok (fun p => oka (fst p) /\ okb (snd p)) (lex ca cb).
Proof.
  intros Ha Hb. split.
  - intros [x1 x2] [y1 y2] [o1 o2] [o3 o4]. unfold lex. simpl in *.
    rewrite (cmp_antisym _ _ Ha x1 y1) by assumption.
    destruct (ca x1 y1); simpl; auto.
    now apply (cmp_antisym _ _ Hb).
  - intros [x1 x2] [y1 y2] [z1 z2] [o1 o2] [o3 o4] [o5 o6]. unfold lex.
    simpl in *. destruct (ca x1 y1) eqn:E1; try discriminate. intros E2.
    rewrite (cmp_eq_l _ _ Ha x1 y1 z1) by assumption.
    destruct (ca y1 z1); auto. now apply (cmp_eq_l _ _ Hb).
  - intros [x1 x2] [y1 y2] [z1 z2] [o1 o2] [o3 o4] [o5 o6]. unfold lex.
    simpl in *.
    destruct (ca x1 y1) eqn:E1; try discriminate;
      destruct (ca y1 z1) eqn:E2; try discriminate; intros L1 L2.
    + rewrite (cmp_eq_l _ _ Ha x1 y1 z1), E2 by assumption.
      now apply (cmp_lt_trans _ _ Hb x2 y2 z2).
    + now rewrite (cmp_eq_l _ _ Ha x1 y1 z1), E2 by assumption.
    + now rewrite <- (cmp_eq_r _ _ Ha x1 y1 z1), E1 by assumption.
    + now rewrite (cmp_lt_trans _ _ Ha x1 y1 z1) by assumption.
Qed.

Lemma Z_compare_ok : order_ok (fun _ => True) Z.compare.
Proof.
  split.
  - intros x y _ _. apply Z.compare_antisym.
  - intros x y z _ _ _ E. apply Z.compare_eq in E. now subst.
  - intros x y z _ _ _ E1 E2. rewrite Z.compare_lt_iff in *. lia.
Qed.

Lemma Ascii_compare_lt_trans a b c :
  Ascii.compare a b = Lt -> Ascii.compare b c = Lt -> Ascii.compare a c = Lt.
Proof.
  unfold Ascii.compare. rewrite !N.compare_lt_iff. lia.
Qed.

Lemma String_compare_lt_trans s1 : forall s2 s3,
  String.compare s1 s2 = Lt -> String.compare s2 s3 = Lt ->
  String.compare s1 s3 = Lt.
Proof.
  induction s1 as [|a s1 IH]; intros [|b s2] [|c s3]; simpl;
    try discriminate; auto.
  destruct (Ascii.compare a b) eqn:Eab; try discriminate;
    destruct (Ascii.compare b c) eqn:Ebc; try discriminate; intros L1 L2.
  - apply Ascii.compare_eq_iff in Eab, Ebc. subst.
    assert (R : Ascii.compare c c = Eq) by (unfold Ascii.compare; apply N.compare_refl).
    rewrite R. eauto.
  - apply Ascii.compare_eq_iff in Eab. subst. now rewrite Ebc.
  - apply Ascii.compare_eq_iff in Ebc. subst. now rewrite Eab.
  - now rewrite (Ascii_compare_lt_trans a b c).
Qed.

Lemma String_compare_ok : order_ok (fun _ => True) String.compare.
Proof.
  split.
  - intros x y _ _. apply String.compare_antisym.
  - intros x y z _ _ _ E. apply String.compare_eq_iff in E. now subst.
  - intros x y z _ _ _. apply String_compare_lt_trans.
Qed.

Lemma String_compare_refl s : String.compare s s = Eq.
Proof. exact (cmp_refl _ _ String_compare_ok s I). Qed.

Lemma String_eqb_compare s1 s2 :
  String.eqb s1 s2 = match String.compare s1 s2 with Eq => true | _ => false end.
Proof.
  destruct (String.eqb_spec s1 s2) as [->|N].
  - now rewrite String_compare_refl.
  - destruct (String.compare s1 s2) eqn:E; auto.
    apply String.compare_eq_iff in E. contradiction.
Qed.

(** *** The order of binary64 values other than NaN *)

Lemma fcmp_antisym x y : not_nan x -> not_nan y -> fcmp y x = CompOpp (fcmp x y).
Proof.
  unfold not_nan, fcmp.
  destruct x as [sx|sx| |sx mx ex], y as [sy|sy| |sy my ey]; simpl;
    try discriminate; intros _ _;
    repeat match goal with b : bool |- _ => destruct b end; simpl; auto.
  - rewrite (Z.compare_antisym ex ey). destruct (ex ?= ey); simpl; auto.
    change (Pos.compare_cont Eq my mx) with (Pos.compare my mx).
    change (Pos.compare_cont Eq mx my) with (Pos.compare mx my).
    rewrite (Pos.compare_antisym mx my). now rewrite CompOpp_involutive.
  - rewrite (Z.compare_antisym ex ey). destruct (ex ?= ey); simpl; auto.
    change (Pos.compare_cont Eq my mx) with (Pos.compare my mx).
    change (Pos.compare_cont Eq mx my) with (Pos.compare mx my).
    now rewrite (Pos.compare_antisym mx my).
Qed.

Lemma fcmp_finite_eq s1 m1 e1 s2 m2 e2 :
  fcmp (S754_finite s1 m1 e1) (S754_finite s2 m2 e2) = Eq ->
  s1 = s2 /\ m1 = m2 /\ e1 = e2.
Proof.
  unfold fcmp. simpl. destruct s1, s2; try discriminate;
    destruct (Z.compare_spec e1 e2); try discriminate;
    change (Pos.compare_cont Eq m1 m2) with (Pos.compare m1 m2);
    destruct (Pos.compare_spec m1 m2); try discriminate; auto.
Qed.

Lemma fcmp_eq_l x y z :
  not_nan x -> not_nan y -> not_nan z -> fcmp x y = Eq -> fcmp x z = fcmp y z.
Proof.
  unfold not_nan.
  destruct x as [sx|sx| |sx mx ex], y as [sy|sy| |sy my ey]; simpl;
    try discriminate; intros _ _ _ E;
    try (apply fcmp_finite_eq in E; destruct E as (-> & -> & ->);
         reflexivity);
    unfold fcmp in *; simpl in *;
    repeat match goal with b : bool |- _ => destruct b end;
    try discriminate; destruct z; reflexivity.
Qed.

Lemma fcmp_lt_trans x y z :
  not_nan x -> not_nan y -> not_nan z ->
  fcmp x y = Lt -> fcmp y z = Lt -> fcmp x z = Lt.
Proof.
  unfold not_nan, fcmp.
  destruct x as [sx|sx| |sx mx ex], y as [sy|sy| |sy my ey],
    z as [sz|sz| |sz mz ez]; simpl; try discriminate; intros _ _ _;
    repeat match goal with b : bool |- _ => destruct b end; simpl;
    try discriminate; auto;
    change (Pos.compare_cont Eq mx my) with (Pos.compare mx my);
    change (Pos.compare_cont Eq my mz) with (Pos.compare my mz);
    change (Pos.compare_cont Eq mx mz) with (Pos.compare mx mz);
    destruct (Z.compare_spec ex ey); try discriminate;
    destruct (Z.compare_spec ey ez); try discriminate;
    destruct (Z.compare_spec ex ez); try lia; auto;
    destruct (Pos.compare_spec mx my); simpl; try discriminate;
    destruct (Pos.compare_spec my mz); simpl; try discriminate;
    destruct (Pos.compare_spec mx mz); simpl; try lia; auto.
Qed.

Lemma fcmp_ok : order_ok not_nan fcmp.
Proof.
  split; [exact fcmp_antisym | exact fcmp_eq_l | exact fcmp_lt_trans].
Qed.

Lemma key_cmp_ok : order_ok key_ok key_cmp.
Proof.
  unfold key_cmp.
  apply (lex_ok (fun p => not_nan (fst p) /\ True) (fun _ => True)).
  - apply (lex_ok not_nan (fun _ => True)); [exact fcmp_ok|exact Z_compare_ok].
  - exact String_compare_ok.
Qed.

(** Python's [<] on key tuples is the strict part of [key_cmp]. *)
Lemma key_lt_cmp k1 k2 :
  key_ok k1 -> key_ok k2 ->
  OAuthProfile.key_lt k1 k2 = is_lt (key_cmp k1 k2).
Proof.
  destruct k1 as [[r1 t1] e1], k2 as [[r2 t2] e2].
  unfold key_ok, not_nan, key_cmp, lex, OAuthProfile.key_lt, SFeqb, SFltb,
    fcmp, is_lt. simpl. intros [[N1 _] _] [[N2 _] _].
  destruct (SFcompare r1 r2) as [c|] eqn:E.
  - destruct c; simpl; auto.
    rewrite Z.eqb_compare, Z.ltb_compare.
    destruct (t1 ?= t2); simpl; auto.
    rewrite String_eqb_compare. unfold String.ltb.
    destruct (String.compare e1 e2); auto.
  - destruct r1, r2; simpl in *; try discriminate;
      repeat match goal with b : bool |- _ => destruct b end; discriminate.
Qed.

Lemma profile_lt_cmp p q :
  ordered_profile p -> ordered_profile q ->
  OAuthProfile.lt p q
  = is_lt (key_cmp (OAuthProfile.sort_key p) (OAuthProfile.sort_key q)).
Proof.
  intros Hp Hq. unfold OAuthProfile.lt. apply key_lt_cmp; repeat split; auto.
Qed.

Lemma profile_lt_asym p q :
  ordered_profile p -> ordered_profile q ->
  OAuthProfile.lt p q = true -> OAuthProfile.lt q p = false.
Proof.
  intros Hp Hq. rewrite !profile_lt_cmp by assumption. intros L.
  apply (cmp_asym _ _ key_cmp_ok); try (repeat split; assumption).
  destruct (key_cmp _ _); simpl in L; congruence.
Qed.

Lemma profile_nlt_trans p q r :
  ordered_profile p -> ordered_profile q -> ordered_profile r ->
  OAuthProfile.lt q p = false -> OAuthProfile.lt r q = false ->
  OAuthProfile.lt r p = false.
Proof.
  intros Hp Hq Hr. rewrite !profile_lt_cmp by assumption.
  apply (cmp_nlt_trans _ _ key_cmp_ok); repeat split; assumption.
Qed.

(** ** The sort *)

Section SortFacts.
Context {A : Type} (lt : A -> A -> bool) (ok : A -> Prop).
Hypothesis lt_asym : forall x y, ok x -> ok y -> lt x y = true -> lt y x = false.
Hypothesis nlt_trans : forall x y z, ok x -> ok y -> ok z ->
  lt y x = false -> lt z y = false -> lt z x = false.

(** [x] is not above [y]. *)
Let le (x y : A) : Prop := lt y x = false.

Lemma insort_perm x l : Permutation (Py.insort lt x l) (x :: l).
Proof.
  induction l as [|y ys IH]; simpl; auto.
  destruct (lt x y); auto.
  rewrite IH. apply perm_swap.
Qed.

Lemma sorted_acc_perm l : forall acc,
  Permutation (fold_left (fun acc x => Py.insort lt x acc) l acc) (acc ++ l).
Proof.
  induction l as [|x xs IH]; intros acc; simpl.
  - now rewrite app_nil_r.
  - rewrite IH, insort_perm. apply Permutation_middle.
Qed.

Lemma sorted_perm l : Permutation (Py.sorted lt l) l.
Proof. unfold Py.sorted. now rewrite sorted_acc_perm. Qed.

Lemma sorted_nonempty l : l <> [] -> Py.sorted lt l <> [].
Proof.
  intros N E. apply N. apply Permutation_nil. rewrite <- E.
  apply sorted_perm.
Qed.

Lemma insort_sorted x l :
  ok x -> Forall ok l ->
  StronglySorted le l -> StronglySorted le (Py.insort lt x l).
Proof.
  intros ox. induction l as [|y ys IH]; simpl; intros okl S.
  - repeat constructor.
  - inversion okl as [|? ? oy okys]; subst.
    inversion S as [|? ? Sys Hy]; subst.
    destruct (lt x y) eqn:E.
    + constructor; auto. constructor.
      * unfold le. apply lt_asym; assumption.
      * rewrite Forall_forall in *. intros z Hz. unfold le.
        apply (nlt_trans x y z); auto. now apply Hy.
    + constructor; auto.
      eapply Permutation_Forall.
      * symmetry. apply insort_perm.
      * constructor; auto.
Qed.

Lemma sorted_acc_sorted l : forall acc,
  Forall ok l -> Forall ok acc -> StronglySorted le acc ->
  StronglySorted le (fold_left (fun acc x => Py.insort lt x acc) l acc).
Proof.
  induction l as [|x xs IH]; intros acc okl okacc S; simpl; auto.
  inversion okl; subst. apply IH; auto.
  - eapply Permutation_Forall.
    + symmetry. apply insort_perm.
    + constructor; auto.
  - now apply insort_sorted.
Qed.

Lemma sorted_sorted l :
  Forall ok l -> StronglySorted le (Py.sorted lt l).
Proof.
  intros H. apply sorted_acc_sorted; auto. constructor.
Qed.

(** The head of the sorted list is below no element of the input. *)
Lemma sorted_head_min l best rest :
  Forall ok l -> Py.sorted lt l = best :: rest ->
  In best l /\ forall q, In q l -> lt q best = false.
Proof.
  intros okl E. assert (P := sorted_perm l). assert (S := sorted_sorted l okl).
  rewrite E in P, S. split.
  - apply (Permutation_in _ P). now left.
  - intros q Hq. apply (Permutation_in _ (Permutation_sym P)) in Hq.
    inversion S as [|? ? _ Hall]; subst. destruct Hq as [->|Hq].
    + assert (ob : ok q).
      { rewrite Forall_forall in okl. apply okl.
        apply (Permutation_in _ P). now left. }
      destruct (lt q q) eqn:L; auto. now rewrite (lt_asym q q ob ob L) in L.
    + rewrite Forall_forall in Hall. now apply Hall.
Qed.


End SortFacts.

(** ** Profile selection *)

Lemma list_index_none x xs : ~ In x xs -> Py.list_index x xs = None.
Proof.
  induction xs as [|y ys IH]; simpl; auto. intros N.
  destruct (String.eqb_spec y x) as [->|_].
  - exfalso. apply N. now left.
  - rewrite IH; auto.
Qed.

Lemma round_robin_idle_none self at_ :
  round_robin_idle self at_ ->
  OAuthPool.round_robin_choice self
    (map OAuthProfile.profile
         (Py.sorted OAuthProfile.lt (OAuthPool.usable self at_))) = None.
Proof.
  unfold OAuthPool.round_robin_choice. intros [E|[E|(l & E & N)]].
  - now rewrite E.
  - rewrite E. now destruct (String.eqb _ _).
  - rewrite E. destruct (String.eqb _ _); auto.
    rewrite list_index_none; auto.
    rewrite in_map_iff. intros (p & Hp & I).
    apply (N p); auto.
    apply (Permutation_in _ (sorted_perm OAuthProfile.lt _)). exact I.
Qed.

Lemma profile_nlt_key_le p q :
  ordered_profile p -> ordered_profile q ->
  OAuthProfile.lt q p = false -> key_le p q.
Proof.
  intros Hp Hq. rewrite profile_lt_cmp by assumption. unfold key_le.
  rewrite (cmp_antisym _ _ key_cmp_ok (OAuthProfile.sort_key p)
             (OAuthProfile.sort_key q)) by (repeat split; assumption).
  destruct (key_cmp _ _); simpl; congruence.
Qed.

Lemma tie_break_lt p q :
  SFeqb (OAuthProfile.effective_remaining p)
        (OAuthProfile.effective_remaining q) = true ->
  OAuthProfile.effective_reset_at_ms p = OAuthProfile.effective_reset_at_ms q ->
  String.ltb (OAuthProfile.effective_email p)
             (OAuthProfile.effective_email q) = true ->
  OAuthProfile.lt p q = true.
Proof.
  unfold OAuthProfile.lt, OAuthProfile.sort_key, OAuthProfile.key_lt.
  intros -> -> L. simpl. rewrite Z.eqb_refl. simpl.
  rewrite String_eqb_compare. unfold String.ltb in *.
  destruct (String.compare _ _); try discriminate. reflexivity.
Qed.

(** C1 as stated fails: under round-robin, with the profile used last first
    in the order, the second profile of the order is returned.  Here [a] and
    [b] tie on remaining and resetAtMs, no explicit or pinned profile is set,
    the sticky shortcut returns nothing and the sorted order is [a; b], yet
    [b], whose email is the larger, is chosen. *)
Lemma choose_profile_round_robin_counterexample :
  (Py.if_truthy (OAuthPool.pinned_profile Samples.round_robin_pool),
   OAuthPool.sticky_choice Samples.round_robin_pool 0,
   map OAuthProfile.profile
     (Py.sorted OAuthProfile.lt (OAuthPool.usable Samples.round_robin_pool 0)),
   OAuthPool.choose_profile 0 Samples.round_robin_pool None (Some 0))
  = (None, None, ["a"; "b"], Ok "b").
Proof. vm_compute. reflexivity. Qed.

(** C1, amended: with no explicit and no pinned profile, the sticky shortcut
    and the round-robin step not applying, and some profile usable (all with
    an ordered remaining), [choose_profile] returns the name of the head of
    the usable profiles sorted by (remaining, resetAtMs, email): the sorted
    list is an ascending permutation of the usable profiles, its head is
    below no usable profile, and of two usable profiles that tie on
    remaining and resetAtMs the one with the larger email is not the head. *)
Theorem choose_profile_first_in_total_order :
  forall (now : Z) (self : OAuthPool.t) (explicit : option string)
         (at_ms : option Z),
  let at_ := match at_ms with None => now | Some a => a end in
  let usable := OAuthPool.usable self at_ in
  Py.if_truthy explicit = None ->
  Py.if_truthy (OAuthPool.pinned_profile self) = None ->
  OAuthPool.sticky_choice self at_ = None ->
  round_robin_idle self at_ ->
  usable <> [] ->
  Forall ordered_profile usable ->
  exists best rest,
    Py.sorted OAuthProfile.lt usable = best :: rest /\
    Permutation (best :: rest) usable /\
    StronglySorted key_le (best :: rest) /\
    OAuthPool.choose_profile now self explicit at_ms
      = Ok (OAuthProfile.profile best) /\
    (forall q, In q usable -> key_le best q) /\
    (forall p q, In p usable -> In q usable ->
       SFeqb (OAuthProfile.effective_remaining p)
             (OAuthProfile.effective_remaining q) = true ->
       OAuthProfile.effective_reset_at_ms p
         = OAuthProfile.effective_reset_at_ms q ->
       String.ltb (OAuthProfile.effective_email p)
                  (OAuthProfile.effective_email q) = true ->
       best <> q).
Proof.
  intros now self explicit at_ms at_ usable He Hp Hs Hr Hne Hok.
  destruct (Py.sorted OAuthProfile.lt usable) as [|best rest] eqn:E.
  { exfalso. now apply (sorted_nonempty OAuthProfile.lt usable Hne). }
  assert (P : Permutation (best :: rest) usable)
    by (rewrite <- E; apply sorted_perm).
  assert (S := sorted_sorted OAuthProfile.lt ordered_profile
                 profile_lt_asym profile_nlt_trans usable Hok).
  rewrite E in S.
  assert (Hok' : Forall ordered_profile (best :: rest))
    by (eapply Permutation_Forall; [symmetry; exact P | exact Hok]).
  destruct (sorted_head_min OAuthProfile.lt ordered_profile
              profile_lt_asym profile_nlt_trans usable best rest Hok E)
    as [Ib M].
  assert (ob : ordered_profile best)
    by (rewrite Forall_forall in Hok; now apply Hok).
  exists best, rest. repeat split; auto.
  - clear - S Hok'. induction S as [|x l Sl IH Hx]; constructor.
    + apply IH. now inversion Hok'.
    + inversion Hok' as [|? ? ox ol]; subst.
      rewrite Forall_forall in *. intros y Hy.
      apply profile_nlt_key_le; auto.
  - unfold OAuthPool.choose_profile. fold at_. rewrite He, Hp, Hs.
    rewrite (round_robin_idle_none self at_ Hr). fold usable. rewrite E.
    destruct usable; [congruence|reflexivity].
  - intros q Hq. apply profile_nlt_key_le; auto.
    rewrite Forall_forall in Hok; now apply Hok.
  - intros p q Ip Iq Er Et El ->.
    assert (L := tie_break_lt p q Er Et El).
    rewrite (M p Ip) in L. discriminate.
Qed.

Lemma choose_profile_first_in_total_order_witness :
  exists best rest,
    Py.sorted OAuthProfile.lt (OAuthPool.usable Samples.tie_pool 0)
      = best :: rest /\
    OAuthPool.choose_profile 0 Samples.tie_pool None (Some 0)
      = Ok (OAuthProfile.profile best) /\
    OAuthProfile.profile best = "p2".
Proof.
  destruct (choose_profile_first_in_total_order 0 Samples.tie_pool None
              (Some 0)) as (best & rest & E & _ & _ & C & _).
  - reflexivity.
  - reflexivity.
  - reflexivity.
  - left. reflexivity.
  - discriminate.
  - repeat constructor.
  - exists best, rest. repeat split; auto.
    vm_compute in E. now inversion E.
Defined.

(** ** Rate limiting *)

Lemma get_set_same ps k p :
  OAuthPool.contains ps k = true ->
  OAuthPool.get (OAuthPool.set ps k p) k = Some p.
Proof.
  unfold OAuthPool.contains.
  induction ps as [|[k' p'] ps IH]; simpl; try discriminate.
  destruct (String.eqb k' k) eqn:E; simpl; rewrite E; auto.
Qed.

(** C2 as stated fails: marked at clock 100 with [u = 50], the profile is
    not usable at [T = 60] although [T >= u] and it is not disabled. *)
Lemma mark_rate_limited_counterexample :
  option_map
    (fun p => (OAuthProfile.disabled p, OAuthProfile.is_usable 60 p (Some 60)))
    (OAuthPool.get
       (OAuthPool.profiles
          (OAuthPool.mark_rate_limited 100 "t1" "t2" Samples.single_pool "a" 50))
       "a")
  = Some (false, false).
Proof. vm_compute. reflexivity. Qed.

(** C2, amended: after [mark_rate_limited(p, u)] at clock [now] the profile
    stored under [p] is rate-limited until [max(u, now)]: it is not usable at
    any [T < max(u, now)], in particular at no [T < u], and it is usable at
    every [T >= max(u, now)] provided it is not disabled. *)
Theorem mark_rate_limited_usable :
  forall (now : Z) (iso_p iso_pool : string) (self : OAuthPool.t)
         (name : string) (p : OAuthProfile.t) (u : Z),
  OAuthPool.get (OAuthPool.profiles self) name = Some p ->
  exists p',
    OAuthPool.get
      (OAuthPool.profiles
         (OAuthPool.mark_rate_limited now iso_p iso_pool self name u)) name
      = Some p' /\
    OAuthProfile.disabled p' = OAuthProfile.disabled p /\
    OAuthProfile.rate_limited_until_ms p' = Some (Z.max u now) /\
    (forall T clock, T < Z.max u now ->
       OAuthProfile.is_usable clock p' (Some T) = false /\
       OAuthProfile.is_usable T p' None = false) /\
    (forall T clock, T < u ->
       OAuthProfile.is_usable clock p' (Some T) = false) /\
    (forall T clock, Z.max u now <= T -> OAuthProfile.disabled p = false ->
       OAuthProfile.is_usable clock p' (Some T) = true /\
       OAuthProfile.is_usable T p' None = true).
Proof.
  intros now iso_p iso_pool self name p u G.
  unfold OAuthPool.mark_rate_limited. rewrite G. simpl.
  rewrite get_set_same by (unfold OAuthPool.contains; now rewrite G).
  eexists. split; [reflexivity|].
  unfold OAuthProfile.is_usable, OAuthProfile.until_or_0. simpl.
  repeat split; auto; intros;
    destruct (OAuthProfile.disabled p); auto; try discriminate;
    try (apply Z.leb_gt; lia); apply Z.leb_le; lia.
Qed.

Lemma mark_rate_limited_usable_witness :
  exists p',
    OAuthPool.get
      (OAuthPool.profiles
         (OAuthPool.mark_rate_limited 100 "t1" "t2" Samples.single_pool "a" 500))
      "a" = Some p' /\
    OAuthProfile.is_usable 0 p' (Some 499) = false /\
    OAuthProfile.is_usable 0 p' (Some 500) = true.
Proof.
  destruct (mark_rate_limited_usable 100 "t1" "t2" Samples.single_pool "a"
              (Samples.profile "a" "a@example.com" 100 1000) 500 eq_refl)
    as (p' & G & _ & _ & _ & Lo & Hi).
  exists p'. repeat split.
  - exact G.
  - apply Lo. lia.
  - apply (Hi 500 0); [vm_compute; discriminate | reflexivity].
Defined.

(** ** Rotation *)



Lemma str_in_true x xs : Py.str_in x xs = true -> In x xs.
Proof.
  unfold Py.str_in. intros E. apply existsb_exists in E.
  destruct E as (y & I & E). apply String.eqb_eq in E. now subst.
Qed.






(** C10: [rotate_after] with a non-empty [explicit] returns it unchanged,
    whatever the pool holds; when [explicit] names no profile of the pool,
    [choose_profile] raises for the same argument, while after the rotation
    the unknown name is only met by the caller's lookup, which raises
    "Selected OAuth profile missing". *)
Theorem rotate_after_explicit_unchecked :
  forall (clock : nat -> Z) (now : Z) (self : OAuthPool.t)
         (current e : string) (at_ms : option Z) (attempted : list string),
  Py.str_truthy e = true ->
  OAuthPool.rotate_after clock self current (Some e) = Ok e /\
  (OAuthPool.contains (OAuthPool.profiles self) e = false ->
     OAuthPool.choose_profile now self (Some e) at_ms
       = Raise (ProfileNotFound e) /\
     (Py.str_in current attempted = true ->
        OpenAICodexOAuthProvider.select_for_attempt clock self attempted
          current (Some e) = Raise (SelectedProfileMissing e))).
Proof.
  intros clock now self current e at_ms attempted T.
  assert (R : OAuthPool.rotate_after clock self current (Some e) = Ok e).
  { unfold OAuthPool.rotate_after. simpl. now rewrite T. }
  split; [exact R|]. intros C. split.
  - unfold OAuthPool.choose_profile. simpl. now rewrite T, C.
  - intros A. unfold OpenAICodexOAuthProvider.select_for_attempt.
    rewrite A, R. simpl. unfold OAuthPool.contains in C.
    now destruct (OAuthPool.get (OAuthPool.profiles self) e).
Qed.

Lemma rotate_after_explicit_unchecked_witness :
  OAuthPool.rotate_after (fun _ => 0) Samples.single_pool "a" (Some "ghost")
    = Ok "ghost" /\
  OAuthPool.choose_profile 0 Samples.single_pool (Some "ghost") None
    = Raise (ProfileNotFound "ghost").
Proof.
  destruct (rotate_after_explicit_unchecked (fun _ => 0) 0 Samples.single_pool
              "a" "ghost" None ["a"] eq_refl) as [R C].
  split; [exact R|]. apply C. reflexivity.
Defined.

(** ** Loading the pool file *)

(** C4 as stated fails: a pool file whose version is 2 loads; the pool
    returned carries version 2 and the file's profile. *)
Lemma load_pool_version_counterexample :
  match PoolFile.load_pool Samples.no_repr "2026-01-01T00:00:00Z"
          Samples.version2_file with
  | Ok pool => Some (OAuthPool.version pool,
                     map fst (OAuthPool.profiles pool))
  | Raise _ => None
  end = Some (2, ["a"]).
Proof. vm_compute. reflexivity. Qed.

Lemma int_raises x e : Json.int x = Raise e -> conversion_error e.
Proof.
  unfold conversion_error. destruct x as [|b|z|f|t|l|kvs]; simpl;
    try discriminate; try (intros [= <-]; tauto).
  - destruct (Py.trunc_float f); [discriminate|].
    destruct (Py.is_nan f); intros [= <-]; tauto.
  - destruct (Py.int_of_str t); [discriminate|]. intros [= <-]; tauto.
Qed.

Lemma as_float_raises x e : Json.as_float x = Raise e -> conversion_error e.
Proof.
  unfold conversion_error, Json.as_float, Json.float_of_int.
  destruct x as [|b|z|f|t|l|kvs]; try discriminate.
  - destruct (Py.is_inf _); simpl; [intros [= <-]; tauto|discriminate].
  - destruct (Py.is_inf _); simpl; [intros [= <-]; tauto|discriminate].
Qed.

Lemma profile_from_json_raises repr obj e :
  OAuthProfile.from_json repr obj = Raise e -> conversion_error e.
Proof.
  unfold OAuthProfile.from_json.
  destruct (Json.int _) as [z|e1] eqn:I; cbn [bind].
  - destruct (Json.as_float _) as [r|e2] eqn:F; cbn [bind]; [discriminate|].
    intros [= <-]. eapply as_float_raises; eauto.
  - intros [= <-]. eapply int_raises; eauto.
Qed.

Lemma profiles_from_json_raises repr profs e : forall acc,
  OAuthPool.profiles_from_json repr profs acc = Raise e -> conversion_error e.
Proof.
  induction profs as [|[k v] rest IH]; intros acc; simpl; [discriminate|].
  destruct v; try apply IH.
  destruct (OAuthProfile.from_json repr _) as [p|e1] eqn:P; cbn [bind].
  - apply IH.
  - intros [= <-]. eapply profile_from_json_raises; eauto.
Qed.

(** [load_pool] on a file that holds an object: the profiles are built,
    then the version is converted; nothing compares it. *)
Lemma load_pool_object repr iso obj :
  PoolFile.load_pool repr iso (Holds (JDict obj))
  = do ps <- OAuthPool.profiles_from_json repr
               (Json.as_dict (Json.get obj "profiles")) [];
    do v <- Json.int (Json.or_ (Json.get obj "version") (JInt 1));
    Ok (OAuthPool.mk v
          (Json.str repr (Json.or_ (Json.get obj "provider")
                            (JStr "openai.codex.oauth.pool")))
          (Json.str repr (Json.or_ (Json.get obj "updatedAt") (JStr iso)))
          (Json.str repr
             (Json.or_ (Json.get (Json.as_dict (Json.get obj "selection"))
                                 "strategy")
                       (JStr "sticky")))
          (Json.as_str (Json.get (Json.as_dict (Json.get obj "selection"))
                                 "pinnedProfile"))
          (Json.as_str (Json.get (Json.as_dict (Json.get obj "selection"))
                                 "lastUsedProfile"))
          ps
          (Json.as_str (Json.get obj "issuer"))
          (Json.as_str (Json.get obj "clientId"))
          (Json.as_str (Json.get obj "model"))
          (Json.as_str (Json.get obj "codexEndpoint"))).
Proof. reflexivity. Qed.

(** C4, amended: [load_pool] does not look at the version to accept or
    reject.  It returns the empty pool for an absent file and raises only
    for a text that is no JSON, for a JSON value that is no object, and when
    [int(...)] or [float(...)] fails on a field: of a profile, or the
    version itself.  Otherwise it returns a pool with the profiles built and
    with [int(version or 1)] for its version, which for an integer version
    is that integer, 0 read as 1.  A pool loaded with a version other than 1
    is rejected after the load, by the callers that check: [upsert_profile]
    and the provider's [_load_pool_or_single]. *)
Theorem load_pool_ignores_version :
  forall (repr : json -> string) (iso : string) (file : file_content),
  let loaded := PoolFile.load_pool repr iso file in
  (forall e, loaded = Raise e ->
     e = JSONDecodeError \/ e = InvalidPoolFile \/ conversion_error e) /\
  (file = Absent -> loaded = Ok (OAuthPool.empty iso)) /\
  (file = NotJson -> loaded = Raise JSONDecodeError) /\
  (forall data, file = Holds data -> (forall obj, data <> JDict obj) ->
     loaded = Raise InvalidPoolFile) /\
  (forall obj, file = Holds (JDict obj) ->
     let built :=
       OAuthPool.profiles_from_json repr
         (Json.as_dict (Json.get obj "profiles")) [] in
     let version := Json.int (Json.or_ (Json.get obj "version") (JInt 1)) in
     (forall e, loaded = Raise e <->
        built = Raise e \/ ((exists ps, built = Ok ps) /\ version = Raise e)) /\
     (forall ps v, built = Ok ps -> version = Ok v ->
        exists pool, loaded = Ok pool /\
          OAuthPool.version pool = v /\ OAuthPool.profiles pool = ps) /\
     (forall v, Json.get obj "version" = JInt v ->
        version = Ok (if v =? 0 then 1 else v))) /\
  (forall pool, loaded = Ok pool -> OAuthPool.version pool <> 1 ->
     (forall profile pool_fields,
        PoolFile.upsert_profile repr iso file profile pool_fields
          = Raise UnsupportedPoolVersion) /\
     (forall cfg token_file,
        OpenAICodexOAuthProvider._load_pool_or_single repr iso cfg file
          token_file = Raise InvalidPoolVersion)).
Proof.
  intros repr iso file loaded. subst loaded.
  split; [|split; [|split; [|split; [|split]]]].
  - intros e. destruct file as [| |data].
    + discriminate.
    + intros [= <-]. auto.
    + destruct data; try (intros [= <-]; auto).
      rewrite load_pool_object.
      destruct (OAuthPool.profiles_from_json repr _ []) as [ps|e1] eqn:B;
        cbn [bind].
      * destruct (Json.int _) as [v|e2] eqn:V; cbn [bind]; [discriminate|].
        intros [= <-]. right. right. eapply int_raises; eauto.
      * intros [= <-]. right. right. eapply profiles_from_json_raises; eauto.
  - now intros ->.
  - now intros ->.
  - intros data -> N. destruct data; try reflexivity.
    exfalso. eapply N. reflexivity.
  - intros obj -> built version. rewrite load_pool_object.
    fold built. fold version. clearbody built.
    split; [|split].
    + intros e. split.
      * destruct built as [ps|e1]; cbn [bind].
        -- destruct version as [v|e2]; cbn [bind]; [discriminate|].
           intros [= <-]. right. split; eauto.
        -- intros [= <-]. now left.
      * intros [->|[[ps ->] ->]]; reflexivity.
    + intros ps v -> ->. cbn [bind]. eexists. repeat split.
    + intros v Hv. subst version. rewrite Hv. unfold Json.or_. simpl.
      now destruct (v =? 0).
  - intros pool L N. apply Z.eqb_neq in N. split.
    + intros profile pool_fields. unfold PoolFile.upsert_profile.
      rewrite L. cbn [bind]. now rewrite N.
    + intros cfg token_file.
      unfold OpenAICodexOAuthProvider._load_pool_or_single.
      destruct file as [| |data].
      * simpl in L. injection L as <-. discriminate.
      * rewrite L. cbn [bind]. now rewrite N.
      * rewrite L. cbn [bind]. now rewrite N.
Qed.

Lemma load_pool_ignores_version_witness :
  (exists pool,
     PoolFile.load_pool Samples.no_repr "2026-01-01T00:00:00Z"
       Samples.version2_file = Ok pool /\
     OAuthPool.version pool = 2) /\
  PoolFile.upsert_profile Samples.no_repr "2026-01-01T00:00:00Z"
    Samples.version2_file (Samples.profile "b" "b@example.com" 1 1) []
    = Raise UnsupportedPoolVersion /\
  OpenAICodexOAuthProvider._load_pool_or_single Samples.no_repr
    "2026-01-01T00:00:00Z" Samples.config Samples.version2_file Absent
    = Raise InvalidPoolVersion.
Proof.
  destruct (load_pool_ignores_version Samples.no_repr "2026-01-01T00:00:00Z"
              Samples.version2_file) as (_ & _ & _ & _ & _ & C).
  split; [eexists; split; reflexivity|].
  destruct (C _ eq_refl) as [U P]; [discriminate|].
  split; [apply U|apply P].
Defined.

(** ** Strings *)

Lemma append_nil_r s : (s ++ "")%string = s.
Proof. induction s; simpl; congruence. Qed.

Lemma append_assoc s1 s2 s3 :
  ((s1 ++ s2) ++ s3)%string = (s1 ++ (s2 ++ s3))%string.
Proof. induction s1; simpl; congruence. Qed.

Lemma length_append s1 s2 :
  String.length (s1 ++ s2) = (String.length s1 + String.length s2)%nat.
Proof. induction s1; simpl; congruence. Qed.

(** ** The evidence writer *)

Section EvidenceFacts.
Variable float_repr : spec_float -> string.

Local Abbreviation line := (EvidenceWriter.line float_repr).
Local Abbreviation lines := (EvidenceWriter.lines float_repr).
Local Abbreviation truncated := (EvidenceWriter.truncated float_repr).
Local Abbreviation append := (EvidenceWriter.append float_repr).
Local Abbreviation appends := (EvidenceWriter.appends float_repr).
Local Abbreviation len := EvidenceWriter.len.
Local Abbreviation marker := (EvidenceWriter.marker float_repr).

Lemma len_append s1 s2 : len (s1 ++ s2) = len s1 + len s2.
Proof. unfold len. rewrite length_append. lia. Qed.

(** Once latched the writer drops every append. *)
Lemma append_disabled iso w f obj :
  EvidenceWriter._disabled w = true -> append iso w f obj = (w, f).
Proof. unfold EvidenceWriter.append. now intros ->. Qed.

Lemma appends_disabled events : forall w f,
  EvidenceWriter._disabled w = true -> appends w f events = (w, f).
Proof.
  induction events as [|[iso obj] rest IH]; intros w f D; simpl; auto.
  rewrite append_disabled by assumption. now apply IH.
Qed.

(** One append by a writer that has not latched, under a positive budget. *)
Lemma append_step B iso f obj :
  0 < B ->
  append iso (EvidenceWriter.init B) f obj
  = if B <? EvidenceWriter.size f + len (line obj)
    then (EvidenceWriter.mk B true,
          if EvidenceWriter.size f + len (truncated iso B) + 1 <=? B
          then EvidenceWriter.write f
                 (truncated iso B ++ EvidenceWriter.newline)
          else f)
    else (EvidenceWriter.init B, EvidenceWriter.write f (line obj)).
Proof.
  intros HB. unfold EvidenceWriter.append. simpl.
  assert (P : (0 <? B) = true) by (apply Z.ltb_lt; lia). rewrite P. simpl.
  assert (N : (B <=? 0) = false) by (apply Z.leb_gt; lia). rewrite N.
  destruct (B <? _); auto. now destruct (_ <=? B).
Qed.

(** What a run leaves behind, from any file within the budget. *)
Lemma appends_spec B events : forall f,
  0 < B -> EvidenceWriter.size f <= B ->
  let run := appends (EvidenceWriter.init B) f events in
  exists kept dropped,
    events = (kept ++ dropped)%list /\
    EvidenceWriter.size f + len (lines kept) <= B /\
    match dropped with
    | [] =>
        EvidenceWriter._disabled (fst run) = false /\
        EvidenceWriter.content (snd run)
        = (EvidenceWriter.content f ++ lines kept)%string
    | (iso, obj) :: _ =>
        EvidenceWriter._disabled (fst run) = true /\
        B < EvidenceWriter.size f + len (lines kept) + len (line obj) /\
        EvidenceWriter.content (snd run)
        = (EvidenceWriter.content f ++ lines kept
           ++ marker B (EvidenceWriter.size f + len (lines kept)) iso)%string
    end.
Proof.
  induction events as [|[iso obj] rest IH]; intros f HB Hf run.
  - exists [], []. subst run. simpl. unfold len. simpl.
    repeat split; try lia; try congruence. now rewrite append_nil_r.
  - subst run. cbn [EvidenceWriter.appends]. rewrite append_step by assumption.
    destruct (B <? EvidenceWriter.size f + len (line obj)) eqn:Over.
    + (* the event overflows: latch, maybe write the marker *)
      apply Z.ltb_lt in Over.
      exists [], ((iso, obj) :: rest).
      rewrite appends_disabled by reflexivity.
      cbn [app EvidenceWriter.lines fst snd].
      unfold EvidenceWriter.marker. replace (len "") with 0 by reflexivity.
      rewrite !Z.add_0_r.
      destruct (EvidenceWriter.size f + len (truncated iso B) + 1 <=? B);
        simpl; repeat split; auto; try lia.
      now rewrite append_nil_r.
    + (* the event fits: its line is written *)
      apply Z.ltb_ge in Over.
      set (f1 := EvidenceWriter.write f (line obj)).
      assert (S1 : EvidenceWriter.size f1
                   = EvidenceWriter.size f + len (line obj)).
      { unfold f1, EvidenceWriter.write, EvidenceWriter.size. simpl.
        rewrite length_append. unfold len. lia. }
      assert (C1 : EvidenceWriter.content f1
                   = (EvidenceWriter.content f ++ line obj)%string)
        by reflexivity.
      destruct (IH f1 HB) as (kept & dropped & E & Fit & R); [lia|].
      exists ((iso, obj) :: kept), dropped.
      cbn [app EvidenceWriter.lines fst snd]. fold f1.
      rewrite len_append. split; [now rewrite E|]. split; [lia|].
      destruct dropped as [|[iso' obj'] dropped'].
      * destruct R as (D & C). split; auto.
        rewrite C, C1. now rewrite append_assoc.
      * destruct R as (D & O & C). repeat split; auto; try lia.
        rewrite C, C1, S1. rewrite !append_assoc.
        now rewrite !Z.add_assoc.
Qed.

End EvidenceFacts.

(** C7: under a positive budget [B] and from a fresh file, after any run of
    appends the file holds at most [B] bytes.  The file is the lines of the
    longest prefix of the events that fits, in order; the first event whose
    line would exceed [B] latches the writer, after it the file gains at
    most the one [evidence.truncated] line, and only if that line fits, and
    every later append leaves writer and file as they are. *)
Theorem evidence_budget :
  forall (float_repr : spec_float -> string) (B : Z)
         (events : list (string * list (string * json))),
  0 < B ->
  let run := EvidenceWriter.appends float_repr (EvidenceWriter.init B) None
               events in
  let w := fst run in
  let f := snd run in
  EvidenceWriter.size f <= B /\
  exists kept dropped,
    events = (kept ++ dropped)%list /\
    EvidenceWriter.len (EvidenceWriter.lines float_repr kept) <= B /\
    match dropped with
    | [] =>
        EvidenceWriter._disabled w = false /\
        EvidenceWriter.content f = EvidenceWriter.lines float_repr kept
    | (iso, obj) :: _ =>
        EvidenceWriter._disabled w = true /\
        B < EvidenceWriter.len (EvidenceWriter.lines float_repr kept)
            + EvidenceWriter.len (EvidenceWriter.line float_repr obj) /\
        EvidenceWriter.content f
        = (EvidenceWriter.lines float_repr kept
           ++ EvidenceWriter.marker float_repr B
                (EvidenceWriter.len (EvidenceWriter.lines float_repr kept))
                iso)%string /\
        forall iso' obj',
          EvidenceWriter.append float_repr iso' w f obj' = (w, f)
    end.
Proof.
  intros float_repr B events HB run w f.
  destruct (appends_spec float_repr B events None HB) as
    (kept & dropped & E & Fit & R).
  { unfold EvidenceWriter.size. simpl. lia. }
  fold run in R. fold w in R. fold f in R.
  replace (EvidenceWriter.size None) with 0 in * by reflexivity.
  rewrite !Z.add_0_l in *.
  assert (S : EvidenceWriter.size f = EvidenceWriter.len (EvidenceWriter.content f))
    by reflexivity.
  split.
  - rewrite S. destruct dropped as [|[iso obj] rest].
    + destruct R as (_ & ->). exact Fit.
    + destruct R as (_ & _ & ->). simpl. rewrite len_append.
      unfold EvidenceWriter.marker.
      destruct (_ <=? B) eqn:M.
      * apply Z.leb_le in M. rewrite len_append.
        replace (EvidenceWriter.len EvidenceWriter.newline) with 1
          by reflexivity. lia.
      * replace (EvidenceWriter.len "") with 0 by reflexivity. lia.
  - exists kept, dropped. split; [exact E|]. split; [exact Fit|].
    destruct dropped as [|[iso obj] rest]; [exact R|].
    destruct R as (D & O & C). repeat split; auto.
    intros iso' obj'. now apply append_disabled.
Qed.

Lemma evidence_budget_witness :
  EvidenceWriter.size
    (snd (EvidenceWriter.appends Samples.float_repr0 (EvidenceWriter.init 100)
            None Samples.three_events)) <= 100.
Proof.
  apply (evidence_budget Samples.float_repr0 100 Samples.three_events).
  lia.
Defined.

(** ** Texts: prefixes and substrings *)

Lemma prefix_nil_l s : String.prefix "" s = true.
Proof. now destruct s. Qed.

Lemma prefix_cons a p b s :
  String.prefix (String a p) (String b s)
  = Ascii.eqb a b && String.prefix p s.
Proof.
  simpl. destruct (ascii_dec a b) as [->|N].
  - now rewrite Ascii.eqb_refl.
  - apply Ascii.eqb_neq in N. now rewrite N.
Qed.

Lemma prefix_nil_r p : String.prefix p "" = true -> p = "".
Proof. destruct p; simpl; congruence. Qed.

Lemma prefix_app p s : String.prefix p (p ++ s) = true.
Proof.
  induction p as [|a p IH]; simpl.
  - apply prefix_nil_l.
  - destruct (ascii_dec a a); congruence.
Qed.

Lemma prefix_split p s :
  String.prefix p s = true -> s = (p ++ Py.drop (String.length p) s)%string.
Proof.
  revert s. induction p as [|a p IH]; intros s H; simpl; auto.
  destruct s as [|b s]; [discriminate|]. rewrite prefix_cons in H.
  apply andb_true_iff in H. destruct H as [E H].
  apply Ascii.eqb_eq in E. subst. simpl. f_equal. auto.
Qed.

(** A prefix of [a] is a prefix of [a ++ b]. *)
Lemma prefix_app_l p a b :
  String.prefix p a = true -> String.prefix p (a ++ b) = true.
Proof.
  revert a. induction p as [|x p IH]; intros a H.
  - apply prefix_nil_l.
  - destruct a as [|y a]; [discriminate|].
    rewrite prefix_cons in H. change ((String y a ++ b)%string)
      with (String y (a ++ b)). rewrite prefix_cons.
    apply andb_true_iff in H. destruct H as [-> H]. simpl. auto.
Qed.

(** A prefix of [a ++ c :: b] in which [c] does not occur is a prefix of
    [a]. *)
Lemma prefix_stops p c : forall a b,
  all_chars (fun x => negb (Ascii.eqb x c)) p = true ->
  String.prefix p (a ++ String c b) = String.prefix p a.
Proof.
  induction p as [|x p IH]; intros a b H.
  - now rewrite !prefix_nil_l.
  - simpl in H. apply andb_true_iff in H. destruct H as [N H].
    destruct a as [|y a].
    + change (("" ++ String c b)%string) with (String c b).
      rewrite prefix_cons. apply negb_true_iff in N. now rewrite N.
    + change ((String y a ++ String c b)%string)
        with (String y (a ++ String c b)).
      rewrite !prefix_cons. now rewrite IH.
Qed.

Lemma contains_cons sub c s :
  contains sub (String c s) = String.prefix sub (String c s) || contains sub s.
Proof. reflexivity. Qed.

Lemma contains_nil sub : contains sub "" = String.prefix sub "".
Proof. simpl. now rewrite orb_false_r. Qed.

Lemma contains_nonempty_nil sub : Py.str_truthy sub = true -> contains sub "" = false.
Proof. destruct sub; simpl; congruence. Qed.

(** An occurrence in the tail is an occurrence in the whole. *)
Lemma contains_app_r sub a b :
  contains sub b = true -> contains sub (a ++ b) = true.
Proof.
  induction a as [|x a IH]; intros H; simpl; auto.
  rewrite IH by assumption. apply orb_true_r.
Qed.

(** An occurrence in the head is an occurrence in the whole. *)
Lemma contains_app_l sub a b :
  contains sub a = true -> contains sub (a ++ b) = true.
Proof.
  induction a as [|x a IH]; intros H.
  - rewrite contains_nil in H. apply prefix_nil_r in H. subst.
    destruct b; reflexivity.
  - rewrite contains_cons in H.
    change ((String x a ++ b)%string) with (String x (a ++ b)).
    rewrite contains_cons. apply orb_true_iff in H. destruct H as [H|H].
    + change (String x (a ++ b)) with ((String x a ++ b)%string).
      now rewrite (prefix_app_l _ _ _ H).
    + rewrite IH by assumption. apply orb_true_r.
Qed.

(** An occurrence cannot straddle a character the text does not have. *)
Lemma contains_no_straddle sub c a b :
  Py.str_truthy sub = true ->
  all_chars (fun x => negb (Ascii.eqb x c)) sub = true ->
  contains sub (a ++ String c b) = contains sub a || contains sub b.
Proof.
  intros T H. induction a as [|y a IH].
  - change (("" ++ String c b)%string) with (String c b).
    rewrite contains_cons, contains_nonempty_nil by assumption.
    replace (String.prefix sub (String c b)) with false; auto.
    destruct sub as [|x sub]; [discriminate|]. rewrite prefix_cons.
    simpl in H. apply andb_true_iff in H. destruct H as [N _].
    apply negb_true_iff in N. now rewrite N.
  - change ((String y a ++ String c b)%string)
      with (String y (a ++ String c b)).
    rewrite !contains_cons, IH.
    change (String y (a ++ String c b))
      with ((String y a ++ String c b)%string).
    rewrite (prefix_stops sub c (String y a) b H). now rewrite orb_assoc.
Qed.

Lemma all_chars_weaken (p q : ascii -> bool) s :
  (forall c, p c = true -> q c = true) ->
  all_chars p s = true -> all_chars q s = true.
Proof.
  intros W. induction s as [|c s IH]; simpl; auto.
  intros H. apply andb_true_iff in H. destruct H as [Hc Hs].
  now rewrite (W c Hc), IH.
Qed.

(** ** The scan shared by [str.replace] and [re.sub] *)

Lemma drop_length n s : (String.length (Py.drop n s) <= String.length s)%nat.
Proof.
  revert s. induction n as [|n IH]; intros [|c s]; simpl; auto.
Qed.

Lemma drop_app s t : Py.drop (String.length s) (s ++ t) = t.
Proof. induction s; simpl; auto. Qed.

Section Scan.
Variable m : string -> option nat.
Variable new : string.
Hypothesis m_pos : forall s n, m s = Some n -> (1 <= n)%nat /\ s <> "".

Local Abbreviation rw := (Redact.rewrite_from m new 0).

Lemma rewrite_from_skip s : forall k,
  Redact.rewrite_from m new k s = rw (Py.drop k s).
Proof.
  induction s as [|c s IH]; intros [|k]; auto.
  simpl Py.drop. rewrite <- IH. reflexivity.
Qed.

Lemma rewrite_none c s : m (String c s) = None -> rw (String c s) = String c (rw s).
Proof. intros E. simpl. now rewrite E. Qed.

Lemma rewrite_some u n :
  m u = Some n -> rw u = (new ++ rw (Py.drop n u))%string.
Proof.
  intros E. destruct (m_pos u n E) as [Hn Hu].
  destruct u as [|c s]; [congruence|]. simpl. rewrite E.
  rewrite rewrite_from_skip. destruct n as [|n]; [lia|].
  simpl. now rewrite Nat.sub_0_r.
Qed.

(** Induction along the scan: the empty text, a character that starts no
    match, a match. *)
Lemma scan_ind (P : string -> string -> Prop) :
  P "" "" ->
  (forall c s, m (String c s) = None -> P s (rw s) ->
               P (String c s) (String c (rw s))) ->
  (forall u n, m u = Some n -> P (Py.drop n u) (rw (Py.drop n u)) ->
               P u (new ++ rw (Py.drop n u))%string) ->
  forall s, P s (rw s).
Proof.
  intros H0 Hn Hs s.
  remember (String.length s) as k eqn:Ek.
  assert (L : (String.length s <= k)%nat) by lia. clear Ek.
  revert s L. induction k as [|k IH]; intros s L.
  - destruct s; [exact H0|simpl in L; lia].
  - destruct s as [|c s]; [exact H0|].
    destruct (m (String c s)) as [n|] eqn:E.
    + rewrite (rewrite_some _ _ E). apply Hs; auto. apply IH.
      destruct (m_pos _ _ E) as [Hp _]. destruct n as [|n]; [lia|].
      simpl. assert (D := drop_length n s). simpl in L. lia.
    + rewrite (rewrite_none _ _ E). apply Hn; auto. apply IH.
      simpl in L. lia.
Qed.

End Scan.

Lemma literal_match_pos old :
  Py.str_truthy old = true ->
  forall s n, Redact.literal_match old s = Some n -> (1 <= n)%nat /\ s <> "".
Proof.
  intros T s n. unfold Redact.literal_match.
  destruct (String.prefix old s) eqn:E; [|discriminate]. intros [= <-].
  destruct old as [|a old]; [discriminate|]. split; [simpl; lia|].
  intros ->. discriminate.
Qed.

Lemma bearer_match_pos s n :
  Redact.bearer_match s = Some n -> (1 <= n)%nat /\ s <> "".
Proof.
  unfold Redact.bearer_match.
  destruct (String.prefix "Bearer" s) eqn:E; [|discriminate].
  destruct (_ && _)%bool; [|discriminate]. intros [= <-].
  split; [lia|]. intros ->. discriminate.
Qed.

(** ** Replacing a secret *)

Lemma token_like_truthy s : token_like s = true -> Py.str_truthy s = true.
Proof.
  unfold token_like. intros H. apply andb_true_iff in H. destruct H as [H _].
  apply andb_true_iff in H. tauto.
Qed.

Lemma token_like_no_char s c :
  token_like s = true -> plain_char c = false ->
  all_chars (fun x => negb (Ascii.eqb x c)) s = true.
Proof.
  unfold token_like. intros H Hc. apply andb_true_iff in H.
  destruct H as [H _]. apply andb_true_iff in H. destruct H as [_ H].
  revert H. apply all_chars_weaken. intros x Hx.
  destruct (Ascii.eqb_spec x c); subst; simpl; congruence.
Qed.

Lemma token_like_not_in_word s :
  token_like s = true -> contains s "redacted" = false.
Proof.
  unfold token_like. intros H. apply andb_true_iff in H.
  destruct H as [_ H]. now apply negb_true_iff.
Qed.

(** A token-like secret occurs behind the placeholder or not at all. *)
Lemma contains_redacted s r :
  token_like s = true ->
  contains s (Redact.redacted ++ r) = contains s r.
Proof.
  intros T.
  change ((Redact.redacted ++ r)%string)
    with (("" ++ String "<" ("redacted" ++ String ">" r))%string).
  rewrite contains_no_straddle;
    auto using token_like_truthy, token_like_no_char.
  rewrite contains_nonempty_nil by auto using token_like_truthy.
  rewrite contains_no_straddle;
    auto using token_like_truthy, token_like_no_char.
  now rewrite token_like_not_in_word.
Qed.

Section ReplaceFacts.
Variable old : string.
Hypothesis old_truthy : Py.str_truthy old = true.

Local Abbreviation rep := (Redact.replace old Redact.redacted).

(** A text without ["<"] that starts the result starts the input. *)
Lemma replace_prefix t : forall p,
  all_chars (fun x => negb (Ascii.eqb x "<")) p = true ->
  String.prefix p (rep t) = true -> String.prefix p t = true.
Proof.
  unfold Redact.replace.
  apply (scan_ind (Redact.literal_match old) Redact.redacted
           (literal_match_pos old old_truthy)
           (fun t r => forall p,
              all_chars (fun x => negb (Ascii.eqb x "<")) p = true ->
              String.prefix p r = true -> String.prefix p t = true)).
  - auto.
  - intros c s _ IH [|x p] Hp; [reflexivity|]. rewrite !prefix_cons.
    simpl in Hp. apply andb_true_iff in Hp. destruct Hp as [_ Hp].
    intros H. apply andb_true_iff in H. destruct H as [-> H]. simpl. auto.
  - intros u n _ _ [|x p] Hp; [intros _; apply prefix_nil_l|].
    simpl in Hp. apply andb_true_iff in Hp. destruct Hp as [N _].
    change ((Redact.redacted ++ ?r)%string) with (String "<" ("redacted>" ++ r)).
    cbn [Redact.redacted append]. rewrite prefix_cons.
    apply negb_true_iff in N. now rewrite N.
Qed.

(** Replacing [old] brings in no token-like secret. *)
Lemma replace_keeps_absent s t :
  token_like s = true -> contains s t = false -> contains s (rep t) = false.
Proof.
  intros T. unfold Redact.replace.
  apply (scan_ind (Redact.literal_match old) Redact.redacted
           (literal_match_pos old old_truthy)
           (fun t r => contains s t = false -> contains s r = false)).
  - auto.
  - intros c u E IH H. rewrite contains_cons in H.
    apply orb_false_iff in H. destruct H as [Hp Hc].
    rewrite contains_cons, (IH Hc), orb_false_r.
    destruct (String.prefix s (String c (Redact.rewrite_from _ _ 0 u)))
      eqn:P; auto.
    rewrite <- (rewrite_none _ _ _ _ E) in P.
    apply replace_prefix in P; [congruence|].
    apply token_like_no_char; auto.
  - intros u n E IH H. rewrite contains_redacted by assumption. apply IH.
    destruct (contains s (Py.drop n u)) eqn:C; auto.
    unfold Redact.literal_match in E.
    destruct (String.prefix old u) eqn:P; [|discriminate].
    injection E as <-. rewrite (prefix_split _ _ P) in H.
    now rewrite contains_app_r in H.
Qed.

End ReplaceFacts.

(** Replacing a token-like secret leaves no occurrence of it. *)
Lemma replace_removes s t :
  token_like s = true ->
  contains s (Redact.replace s Redact.redacted t) = false.
Proof.
  intros T. assert (Ts := token_like_truthy s T). unfold Redact.replace.
  apply (scan_ind (Redact.literal_match s) Redact.redacted
           (literal_match_pos s Ts) (fun t r => contains s r = false)).
  - now apply contains_nonempty_nil.
  - intros c u E IH. rewrite contains_cons, IH, orb_false_r.
    destruct (String.prefix s (String c (Redact.rewrite_from _ _ 0 u)))
      eqn:P; auto.
    rewrite <- (rewrite_none _ _ _ _ E) in P.
    apply (replace_prefix s Ts) in P;
      [|apply token_like_no_char; auto].
    unfold Redact.literal_match in E. now rewrite P in E.
  - intros u n _ IH. now rewrite contains_redacted.
Qed.

(** The pass over the secrets. *)
Lemma secrets_pass_keeps_absent s secrets : forall t,
  token_like s = true -> contains s t = false ->
  contains s
    (fold_left (fun text k => if Py.str_truthy k
                              then Redact.replace k Redact.redacted text
                              else text) secrets t) = false.
Proof.
  induction secrets as [|k secrets IH]; intros t T H; simpl; auto.
  apply IH; auto. destruct (Py.str_truthy k) eqn:Tk; auto.
  now apply replace_keeps_absent.
Qed.

Lemma secrets_pass_removes s secrets : forall t,
  token_like s = true -> In s secrets ->
  contains s
    (fold_left (fun text k => if Py.str_truthy k
                              then Redact.replace k Redact.redacted text
                              else text) secrets t) = false.
Proof.
  induction secrets as [|k secrets IH]; intros t T I; [contradiction|].
  simpl. destruct I as [->|I]; [|now apply IH].
  apply secrets_pass_keeps_absent; auto.
  rewrite (token_like_truthy s T). now apply replace_removes.
Qed.

(** ** Rewriting bearer tokens *)

Lemma take_drop n : forall s, s = (Py.take n s ++ Py.drop n s)%string.
Proof.
  induction n as [|n IH]; intros [|c s]; simpl; auto. f_equal. apply IH.
Qed.

Lemma drop_add a : forall b s,
  Py.drop (a + b) s = Py.drop b (Py.drop a s).
Proof.
  induction a as [|a IH]; intros b s; simpl; auto.
  destruct s; simpl; auto. now destruct b.
Qed.

Lemma contains_drop sub n : forall u,
  contains sub (Py.drop n u) = true -> contains sub u = true.
Proof.
  induction n as [|n IH]; intros [|c u] H; simpl in *; auto.
  rewrite (IH u H). apply orb_true_r.
Qed.

Lemma span_take p s : all_chars p (Py.take (Redact.span p s) s) = true.
Proof.
  induction s as [|c s IH]; simpl; auto.
  destruct (p c) eqn:E; simpl; auto. now rewrite E.
Qed.

Lemma span_pos_head p s :
  (1 <= Redact.span p s)%nat -> exists x z, s = String x z /\ p x = true.
Proof.
  destruct s as [|x z]; simpl; [lia|]. destruct (p x) eqn:E; [|lia].
  intros _. now exists x, z.
Qed.

Lemma span_app p a x z :
  all_chars p a = true -> p x = false ->
  Redact.span p (a ++ String x z) = String.length a.
Proof.
  intros Ha Hx. induction a as [|c a IH]; simpl.
  - now rewrite Hx.
  - simpl in Ha. apply andb_true_iff in Ha. destruct Ha as [-> Ha]. auto.
Qed.

Lemma token_char_not_space x :
  Redact.is_token_char x = true -> Py.is_space x = false.
Proof.
  destruct x as [b0 b1 b2 b3 b4 b5 b6 b7].
  destruct b0, b1, b2, b3, b4, b5, b6, b7; vm_compute; congruence.
Qed.

Lemma all_chars_app p a b :
  all_chars p (a ++ b) = all_chars p a && all_chars p b.
Proof.
  induction a as [|c a IH]; simpl; auto. now rewrite IH, andb_assoc.
Qed.

Lemma ends_plain_tail x p : ends_plain (String x p) = true -> ends_plain p = true.
Proof. destruct p; simpl; auto. Qed.

Lemma ends_plain_snoc a x :
  ends_plain (a ++ String x "") = negb (Py.is_space x).
Proof.
  induction a as [|c a IH]; simpl; auto.
  destruct (a ++ String x "")%string eqn:E; auto.
  destruct a; discriminate.
Qed.

Lemma plain_ends_plain s : all_chars plain_char s = true -> ends_plain s = true.
Proof.
  induction s as [|c s IH]; simpl; auto. intros H.
  apply andb_true_iff in H. destruct H as [Hc Hs]. destruct s; auto.
  unfold plain_char in Hc. apply andb_true_iff in Hc. tauto.
Qed.

(** A prefix of [a ++ [c]] is a prefix of [a] or all of it. *)
Lemma prefix_snoc p : forall a c,
  String.prefix p (a ++ String c "") = true ->
  String.prefix p a = true \/ p = (a ++ String c "")%string.
Proof.
  induction p as [|x p IH]; intros a c H; [left; apply prefix_nil_l|].
  destruct a as [|y a].
  - change (("" ++ String c "")%string) with (String c "") in *.
    rewrite prefix_cons in H. apply andb_true_iff in H. destruct H as [E H].
    apply Ascii.eqb_eq in E. apply prefix_nil_r in H. subst. now right.
  - change ((String y a ++ String c "")%string)
      with (String y (a ++ String c "")) in *.
    rewrite prefix_cons in *. apply andb_true_iff in H. destruct H as [E H].
    rewrite E. simpl. destruct (IH a c H) as [L|R]; [now left|right].
    apply Ascii.eqb_eq in E. now subst.
Qed.

(** The shape of a text a bearer match starts. *)
Lemma bearer_shape v n :
  Redact.bearer_match v = Some n ->
  exists ws x z,
    v = ("Bearer" ++ ws ++ String x z)%string /\
    Py.str_truthy ws = true /\ all_chars Py.is_space ws = true /\
    Redact.is_token_char x = true.
Proof.
  unfold Redact.bearer_match.
  destruct (String.prefix "Bearer" v) eqn:P; [|discriminate].
  apply prefix_split in P. simpl String.length in P.
  set (v1 := Py.drop 6 v) in *.
  rewrite (drop_add 6). fold v1.
  destruct (1 <=? Redact.span Py.is_space v1)%nat eqn:K; [|discriminate].
  destruct (1 <=? Redact.span Redact.is_token_char _)%nat eqn:N;
    [|discriminate].
  intros _. apply Nat.leb_le in K, N.
  destruct (span_pos_head _ _ N) as (x & z & Ez & Tx).
  exists (Py.take (Redact.span Py.is_space v1) v1), x, z. repeat split; auto.
  - rewrite <- Ez. rewrite <- take_drop. exact P.
  - destruct (span_pos_head _ _ K) as (y & z' & -> & Sy). simpl.
    now rewrite Sy.
  - apply span_take.
Qed.

Lemma bearer_shape_match ws x z :
  Py.str_truthy ws = true -> all_chars Py.is_space ws = true ->
  Redact.is_token_char x = true ->
  Redact.bearer_match ("Bearer" ++ ws ++ String x z) <> None.
Proof.
  intros T S X. unfold Redact.bearer_match.
  rewrite prefix_app. rewrite (drop_add 6).
  rewrite (drop_app "Bearer").
  rewrite (span_app _ ws x z S (token_char_not_space x X)).
  rewrite drop_app. simpl. rewrite X.
  destruct ws; [discriminate|]. simpl. discriminate.
Qed.

Lemma bearer_sub_head y :
  has_bearer ("Bearer <redacted>" ++ y) = has_bearer y.
Proof. reflexivity. Qed.

(** A text without ["<"] that ends in no white space: if it starts the
    result it starts the input. *)
Lemma bearer_sub_prefix t : forall p,
  all_chars (fun x => negb (Ascii.eqb x "<")) p = true ->
  ends_plain p = true ->
  String.prefix p (Redact.bearer_sub t) = true -> String.prefix p t = true.
Proof.
  unfold Redact.bearer_sub.
  apply (scan_ind Redact.bearer_match "Bearer <redacted>" bearer_match_pos
           (fun t r => forall p,
              all_chars (fun x => negb (Ascii.eqb x "<")) p = true ->
              ends_plain p = true ->
              String.prefix p r = true -> String.prefix p t = true)).
  - auto.
  - intros c s _ IH [|x p] Hp He; [reflexivity|]. rewrite !prefix_cons.
    simpl in Hp. apply andb_true_iff in Hp. destruct Hp as [_ Hp].
    apply ends_plain_tail in He.
    intros H. apply andb_true_iff in H. destruct H as [-> H]. simpl. auto.
  - intros u n E _ p Hp He.
    change (("Bearer <redacted>" ++ ?r)%string)
      with (("Bearer " ++ String "<" ("redacted>" ++ r))%string).
    match goal with |- String.prefix p (_ ++ ?r) = true -> _ =>
      change (("Bearer <redacted>" ++ r)%string)
        with (("Bearer " ++ String "<" ("redacted>" ++ r))%string) end.
    rewrite (prefix_stops p "<" "Bearer " _ Hp). intros H.
    destruct (prefix_snoc p "Bearer" " " H) as [L|R].
    + destruct (bearer_shape u n E) as (ws & x & z & -> & _).
      now apply prefix_app_l.
    + subst p. discriminate.
Qed.

(** Rewriting bearer tokens brings in no token-like secret. *)
Lemma bearer_sub_keeps_absent s t :
  token_like s = true -> contains s t = false ->
  contains s (Redact.bearer_sub t) = false.
Proof.
  intros T. unfold Redact.bearer_sub.
  apply (scan_ind Redact.bearer_match "Bearer <redacted>" bearer_match_pos
           (fun t r => contains s t = false -> contains s r = false)).
  - auto.
  - intros c u E IH H. rewrite contains_cons in H.
    apply orb_false_iff in H. destruct H as [Hp Hc].
    rewrite contains_cons, (IH Hc), orb_false_r.
    destruct (String.prefix s (String c (Redact.rewrite_from _ _ 0 u)))
      eqn:P; auto.
    rewrite <- (rewrite_none _ _ _ _ E) in P.
    apply bearer_sub_prefix in P; [congruence| |].
    + apply token_like_no_char; auto.
    + apply plain_ends_plain. unfold token_like in T.
      apply andb_true_iff in T. destruct T as [T _].
      apply andb_true_iff in T. tauto.
  - intros u n E IH H.
    match goal with |- contains s (_ ++ ?r) = false =>
      change (("Bearer <redacted>" ++ r)%string)
        with (("Bearer" ++ String " " (Redact.redacted ++ r))%string) end.
    rewrite contains_no_straddle;
      auto using token_like_truthy, token_like_no_char.
    rewrite contains_redacted by assumption.
    rewrite IH.
    + rewrite orb_false_r. destruct (contains s "Bearer") eqn:C; auto.
      destruct (bearer_shape u n E) as (ws & x & z & -> & _).
      now rewrite (contains_app_l _ _ _ C) in H.
    + destruct (contains s (Py.drop n u)) eqn:C; auto.
      now rewrite (contains_drop _ _ _ C) in H.
Qed.

(** After the rewriting no bearer token is left. *)
Lemma bearer_sub_no_bearer t : has_bearer (Redact.bearer_sub t) = false.
Proof.
  unfold Redact.bearer_sub.
  apply (scan_ind Redact.bearer_match "Bearer <redacted>" bearer_match_pos
           (fun t r => has_bearer r = false)).
  - reflexivity.
  - intros c u E IH.
    destruct (Redact.bearer_match
                (String c (Redact.rewrite_from Redact.bearer_match
                             "Bearer <redacted>" 0 u))) as [n|] eqn:M.
    + exfalso. destruct (bearer_shape _ _ M) as (ws & x & z & Ev & Tw & Sw & Tx).
      assert (P : String.prefix ("Bearer" ++ ws ++ String x "")
                    (Redact.bearer_sub (String c u)) = true).
      { unfold Redact.bearer_sub. rewrite (rewrite_none _ _ _ _ E), Ev.
        replace ("Bearer" ++ ws ++ String x z)%string
          with (("Bearer" ++ ws ++ String x "") ++ z)%string.
        - apply prefix_app.
        - rewrite !append_assoc. reflexivity. }
      apply bearer_sub_prefix in P.
      * apply prefix_split in P.
        set (z' := Py.drop _ _) in P. clearbody z'.
        rewrite !append_assoc in P.
        change ((String x "" ++ z')%string) with (String x z') in P.
        rewrite P in E. exact (bearer_shape_match ws x z' Tw Sw Tx E).
      * simpl. rewrite all_chars_app. simpl. rewrite andb_true_r.
        apply andb_true_iff. split.
        -- revert Sw. apply all_chars_weaken. intros y Hy.
           destruct (Ascii.eqb_spec y "<"); subst; auto.
        -- destruct (Ascii.eqb_spec x "<"); subst; auto.
      * change ("Bearer" ++ ws ++ String x "")%string
          with ("Bearer" ++ (ws ++ String x ""))%string.
        rewrite <- append_assoc. rewrite ends_plain_snoc.
        now rewrite (token_char_not_space x Tx).
    + change (has_bearer (String c ?r))
        with (match Redact.bearer_match (String c r) with
              | Some _ => true | None => has_bearer r end).
      now rewrite M.
  - intros u n _ IH. now rewrite bearer_sub_head.
Qed.

(** ** The redactor *)

Lemma redact_text_clean text secrets :
  clean secrets (Redact.redact_text text secrets) = true.
Proof.
  unfold clean, Redact.redact_text. rewrite bearer_sub_no_bearer. simpl.
  apply forallb_forall. intros k I.
  destruct (token_like k) eqn:T; auto. simpl.
  rewrite bearer_sub_keeps_absent; auto.
  now apply secrets_pass_removes.
Qed.

Lemma redacted_clean secrets : clean secrets Redact.redacted = true.
Proof.
  unfold clean. replace (has_bearer Redact.redacted) with false by reflexivity.
  cbn [negb andb]. apply forallb_forall. intros k _.
  destruct (token_like k) eqn:T; auto. cbn [negb orb].
  rewrite <- (append_nil_r Redact.redacted), contains_redacted by assumption.
  now rewrite contains_nonempty_nil by (now apply token_like_truthy).
Qed.

Lemma forallb_map_comp {A B : Type} (f : B -> bool) (g : A -> B) l :
  forallb f (map g l) = forallb (fun x => f (g x)) l.
Proof. induction l as [|x l IH]; simpl; congruence. Qed.

(** Induction on JSON values, through lists and dictionaries. *)
Lemma json_induction (P : json -> Prop) :
  P JNull -> (forall b, P (JBool b)) -> (forall z, P (JInt z)) ->
  (forall f, P (JFloat f)) -> (forall s, P (JStr s)) ->
  (forall l, Forall P l -> P (JList l)) ->
  (forall kvs, Forall (fun kv => P (snd kv)) kvs -> P (JDict kvs)) ->
  forall x, P x.
Proof.
  intros HN HB HI HF HS HL HD. fix IH 1.
  intros [ |b|z|f|s|l|kvs];
    [exact HN|apply HB|apply HI|apply HF|apply HS| | ].
  - apply HL. induction l as [|x l IHl]; constructor; [apply IH|exact IHl].
  - apply HD. induction kvs as [|[k v] kvs IHk]; constructor;
      [apply IH|exact IHk].
Qed.

(** C8, the code at the failing input: [redact_obj] does not rewrite keys.
    The known secret [tokenA] is a key of the value handed to the redactor;
    it is token-like, and the serialized result still contains it. *)
Lemma redact_obj_key_counterexample :
  (token_like "tokenA",
   contains "tokenA"
     (Json.dumps Samples.float_repr0
        (Redact.redact_obj Samples.keyed_by_token ["tokenA"])))
  = (true, true).
Proof. vm_compute. reflexivity. Qed.

(** X18: the redactor on string values: in the redacted result every string
    value, at any depth, contains no match of [Bearer <token>] and no known
    secret that is token-like (not empty, free of white space and angle
    brackets, no part of the word "redacted"); an entry whose key lowercases
    to [authorization], [api_key] or [apikey] has the value ["<redacted>"]
    whatever it held; keys keep their text and order, and values that are
    not strings, lists or dictionaries pass through. *)
Theorem redact_obj_string_values_clean :
  forall (obj : json) (secrets : list string),
  all_string_values (clean secrets) (Redact.redact_obj obj secrets) = true /\
  keys (Redact.redact_obj obj secrets) = keys obj /\
  (forall kvs, obj = JDict kvs ->
     Redact.redact_obj obj secrets
     = JDict (map (fun kv =>
                     (fst kv,
                      if String.eqb (Py.lower (fst kv)) "authorization"
                         || String.eqb (Py.lower (fst kv)) "api_key"
                         || String.eqb (Py.lower (fst kv)) "apikey"
                      then JStr "<redacted>"
                      else Redact.redact_obj (snd kv) secrets)) kvs)) /\
  match obj with
  | JStr _ | JList _ | JDict _ => True
  | _ => Redact.redact_obj obj secrets = obj
  end.
Proof.
  intros obj secrets. repeat split.
  - induction obj using json_induction; simpl; auto.
    + apply redact_text_clean.
    + rewrite forallb_map_comp. apply forallb_forall. intros x I.
      rewrite Forall_forall in H. now apply H.
    + rewrite forallb_map_comp. apply forallb_forall. intros [k v] I.
      rewrite Forall_forall in H. specialize (H (k, v) I). simpl in H.
      destruct (Redact.sensitive_key k); simpl; auto.
      apply redacted_clean.
  - destruct obj; simpl; auto. rewrite map_map. apply map_ext.
    intros [k v]. now destruct (Redact.sensitive_key k).
  - intros kvs ->. cbn [Redact.redact_obj]. f_equal. apply map_ext.
    intros [k v]. cbn [fst snd]. unfold Redact.sensitive_key.
    now destruct (_ || _).
  - destruct obj; auto.
Qed.

(** ** Keys under the redactor *)

Lemma contains_prefix sub s : String.prefix sub s = true -> contains sub s = true.
Proof. intros H. destruct s; simpl in *; now rewrite H. Qed.

Lemma contains_split sub : forall s,
  contains sub s = true -> exists pre post, s = (pre ++ sub ++ post)%string.
Proof.
  induction s as [|c s IH]; intros H.
  - rewrite contains_nil in H. apply prefix_nil_r in H. subst.
    now exists "", "".
  - rewrite contains_cons in H. apply orb_prop in H as [H|H].
    + exists "", (Py.drop (String.length sub) (String c s)).
      now apply prefix_split.
    + destruct (IH H) as (pre & post & ->). now exists (String c pre), post.
Qed.

Lemma contains_trans a b c :
  contains a b = true -> contains b c = true -> contains a c = true.
Proof.
  intros Hab Hbc. destruct (contains_split b c Hbc) as (pre & post & ->).
  apply contains_app_r, contains_app_l. exact Hab.
Qed.

Lemma contains_quoted k : Json.escape k = k -> contains k (Json.quote k) = true.
Proof.
  intros E. unfold Json.quote. rewrite E, contains_cons.
  apply orb_true_intro. right. apply contains_prefix, prefix_app.
Qed.

(** A key of a dictionary is written out in its serialization. *)
Lemma dumps_dict_key fr kvs : forall k v,
  In (k, v) kvs ->
  contains (Json.quote k) (Json.dumps fr (JDict kvs)) = true.
Proof.
  intros k v I. cbn [Json.dumps].
  change ("{" ++ ?x)%string with (String "{" x).
  apply (contains_app_r _ "{"), contains_app_l.
  induction kvs as [|[k' v'] kvs IH]; [destruct I|].
  destruct I as [[= -> ->]|I].
  - destruct kvs as [|kv kvs]; apply contains_prefix, prefix_app.
  - destruct kvs as [|kv kvs]; [destruct I|].
    rewrite <- !append_assoc. apply contains_app_r. now apply IH.
Qed.

Lemma redact_obj_dict_keys kvs secrets k v :
  In (k, v) kvs ->
  exists v', In (k, v')
               (Json.as_dict (Redact.redact_obj (JDict kvs) secrets)).
Proof.
  intros I. cbn [Redact.redact_obj Json.as_dict].
  destruct (Redact.sensitive_key k) eqn:S.
  - exists (JStr Redact.redacted). apply in_map_iff. exists (k, v).
    now rewrite S.
  - exists (Redact.redact_obj v secrets). apply in_map_iff. exists (k, v).
    now rewrite S.
Qed.

(** X19: keys go through the redactor as they are and are written out: every key
    of a dictionary handed to [redact_obj] occurs, quoted, in the
    serialized result, whatever the list of secrets holds; a key without a
    character that JSON escapes occurs in it as it is, and so does a known
    secret used as a key. *)
Theorem redact_obj_writes_keys :
  forall (float_repr : spec_float -> string) (kvs : list (string * json))
         (secrets : list string) (k : string) (v : json),
  In (k, v) kvs ->
  contains (Json.quote k)
    (Json.dumps float_repr (Redact.redact_obj (JDict kvs) secrets)) = true /\
  (Json.escape k = k ->
   contains k
     (Json.dumps float_repr (Redact.redact_obj (JDict kvs) secrets)) = true).
Proof.
  intros float_repr kvs secrets k v I.
  destruct (redact_obj_dict_keys kvs secrets k v I) as [v' I'].
  assert (Q : contains (Json.quote k)
                (Json.dumps float_repr
                   (Redact.redact_obj (JDict kvs) secrets)) = true).
  { cbn [Redact.redact_obj] in *. cbn [Json.as_dict] in I'.
    eapply dumps_dict_key. exact I'. }
  split; [exact Q|]. intros E.
  eapply contains_trans; [apply contains_quoted; exact E|exact Q].
Qed.

Lemma redact_obj_writes_keys_witness :
  contains "tokenA"
    (Json.dumps Samples.float_repr0
       (Redact.redact_obj (JDict [ ("tokenA", JStr "active") ]) ["tokenA"]))
  = true.
Proof.
  apply (redact_obj_writes_keys Samples.float_repr0
           [ ("tokenA", JStr "active") ] ["tokenA"] "tokenA" (JStr "active")).
  - now left.
  - reflexivity.
Defined.

(** ** Framing *)

(** *** Decimal numerals *)

Lemma uint_digits d :
  all_chars Py.is_digit (NilEmpty.string_of_uint d) = true.
Proof. induction d; simpl; auto. Qed.

Lemma to_uint_not_nil n : Nat.to_uint n <> Nil.
Proof.
  intros E. assert (H := DecimalNat.Unsigned.of_to n). rewrite E in H.
  simpl in H. subst n. discriminate.
Qed.

Lemma str_of_nat_digits n : all_chars Py.is_digit (Py.str_of_nat n) = true.
Proof. apply uint_digits. Qed.

Lemma str_of_nat_nonempty n : Py.str_truthy (Py.str_of_nat n) = true.
Proof.
  unfold Py.str_of_nat. assert (N := to_uint_not_nil n).
  destruct (Nat.to_uint n); simpl; congruence.
Qed.

Lemma digits_value_uint d : forall a,
  Py.digits_value (Z.of_nat a) (NilEmpty.string_of_uint d) true
  = Some (Z.of_nat (Nat.of_uint_acc d a)).
Proof.
  induction d; intros a; [reflexivity|..];
    cbn [NilEmpty.string_of_uint Py.digits_value Nat.of_uint_acc];
    match goal with
    | |- context [Py.is_digit ?c] => change (Py.is_digit c) with true
    end; cbv iota; rewrite Nat.tail_mul_spec, <- IHd; f_equal;
    match goal with
    | |- context [Z.of_nat (nat_of_ascii ?c)] =>
        let v := eval vm_compute in (Z.of_nat (nat_of_ascii c)) in
        change (Z.of_nat (nat_of_ascii c)) with v
    end; lia.
Qed.

Lemma digits_value_first c s acc :
  Py.is_digit c = true ->
  Py.digits_value acc (String c s) false = Py.digits_value acc (String c s) true.
Proof. intros H. simpl. now rewrite H. Qed.

Lemma digit_facts c :
  Py.is_digit c = true ->
  Py.is_space c = false /\ Ascii.eqb c "+" = false /\ Ascii.eqb c "-" = false
  /\ Ascii.eqb c Json.char_cr = false.
Proof.
  destruct c as [b0 b1 b2 b3 b4 b5 b6 b7].
  destruct b0, b1, b2, b3, b4, b5, b6, b7; vm_compute; intuition congruence.
Qed.

Lemma rstrip_plain s :
  all_chars (fun c => negb (Py.is_space c)) s = true -> Py.rstrip s = s.
Proof.
  induction s as [|c s IH]; simpl; auto. intros H.
  apply andb_true_iff in H. destruct H as [Hc Hs]. rewrite (IH Hs).
  apply negb_true_iff in Hc. rewrite Hc. now destruct s.
Qed.

Lemma digits_no_space s :
  all_chars Py.is_digit s = true ->
  all_chars (fun c => negb (Py.is_space c)) s = true.
Proof.
  apply all_chars_weaken. intros c H. now rewrite (proj1 (digit_facts c H)).
Qed.

Lemma digits_no_cr s :
  all_chars Py.is_digit s = true ->
  all_chars (fun c => negb (Ascii.eqb c Json.char_cr)) s = true.
Proof.
  apply all_chars_weaken. intros c H.
  destruct (digit_facts c H) as (_ & _ & _ & ->). reflexivity.
Qed.

(** [int(" " + str(n))] is [n]. *)
Lemma int_of_str_of_nat n :
  Py.int_of_str (Py.strip (String " " (Py.str_of_nat n))) = Some (Z.of_nat n).
Proof.
  assert (D := str_of_nat_digits n). assert (T := str_of_nat_nonempty n).
  assert (V := digits_value_uint (Nat.to_uint n) 0).
  fold (Py.str_of_nat n) in V. fold (Nat.of_uint (Nat.to_uint n)) in V.
  rewrite DecimalNat.Unsigned.of_to in V.
  destruct (Py.str_of_nat n) as [|c s] eqn:E; [discriminate|].
  simpl in D. apply andb_true_iff in D. destruct D as [Dc Ds].
  destruct (digit_facts c Dc) as (Sc & Pc & Mc & _).
  assert (R : Py.strip (String c s) = String c s).
  { unfold Py.strip. simpl Py.lstrip. rewrite Sc. apply rstrip_plain.
    simpl. rewrite Sc. simpl. now apply digits_no_space. }
  assert (R' : Py.strip (String " " (String c s)) = String c s).
  { unfold Py.strip in *. simpl Py.lstrip in *. now rewrite Sc in *. }
  rewrite R'. unfold Py.int_of_str. rewrite R.
  clear R R' E T Sc Pc Mc. change (Z.of_nat 0) with 0 in V.
  destruct c as [b0 b1 b2 b3 b4 b5 b6 b7];
    destruct b0, b1, b2, b3, b4, b5, b6, b7;
    try (vm_compute in Dc; discriminate Dc);
    cbv iota; rewrite digits_value_first by reflexivity; exact V.
Qed.

(** *** Searching and slicing *)

Lemma take_app a b : Py.take (String.length a) (a ++ b) = a.
Proof. induction a; simpl; [now destruct b|congruence]. Qed.

Lemma take_all s : Py.take (String.length s) s = s.
Proof. induction s; simpl; congruence. Qed.

Lemma drop_all s : Py.drop (String.length s) s = "".
Proof. induction s; simpl; auto. Qed.

Lemma find_none c sep a :
  all_chars (fun x => negb (Ascii.eqb x c)) a = true ->
  Py.find (String c sep) a = None.
Proof.
  induction a as [|x a IH]; simpl; auto. intros H.
  apply andb_true_iff in H. destruct H as [Hx Ha].
  destruct (ascii_dec c x) as [->|_].
  - now rewrite Ascii.eqb_refl in Hx.
  - now rewrite IH.
Qed.

Lemma find_first c sep a b :
  all_chars (fun x => negb (Ascii.eqb x c)) a = true ->
  Py.find (String c sep) (a ++ String c sep ++ b) = Some (String.length a).
Proof.
  induction a as [|x a IH]; intros H.
  - change (("" ++ String c sep ++ b)%string) with ((String c sep ++ b)%string).
    destruct (String c sep ++ b)%string eqn:E; [discriminate|].
    unfold Py.find. rewrite <- E. now rewrite prefix_app.
  - simpl in H. apply andb_true_iff in H. destruct H as [Hx Ha].
    simpl. destruct (ascii_dec c x) as [->|_].
    + now rewrite Ascii.eqb_refl in Hx.
    + simpl in IH. now rewrite IH.
Qed.

(** *** The frame *)

Lemma header_content_length d :
  McpStdio.content_length [("Content-Length: " ++ d)%string]
  = Py.int_of_str (Py.strip (String " " d)).
Proof. reflexivity. Qed.

Lemma header_no_cr n :
  all_chars (fun c => negb (Ascii.eqb c Json.char_cr))
    ("Content-Length: " ++ Py.str_of_nat n) = true.
Proof.
  rewrite all_chars_app.
  rewrite (digits_no_cr (Py.str_of_nat n) (str_of_nat_digits n)).
  reflexivity.
Qed.

Lemma split_no_sep c sep a :
  all_chars (fun x => negb (Ascii.eqb x c)) a = true ->
  Py.split (String c sep) a = [a].
Proof.
  intros H. unfold Py.split. simpl. now rewrite find_none.
Qed.

Lemma encode_message_shape float_repr V :
  McpStdio.encode_message float_repr V
  = (("Content-Length: "
      ++ Py.str_of_nat (String.length (Json.dumps float_repr V)))
     ++ McpStdio.HEADER_SEPARATOR ++ Json.dumps float_repr V)%string.
Proof.
  unfold McpStdio.encode_message, McpStdio.HEADER_SEPARATOR.
  now rewrite !append_assoc.
Qed.

(** C9: when [json.loads] gives back [V] from the text [json.dumps]
    writes for it, the frame parser applied to [encode_message(V)] yields
    [V] and an empty remaining buffer; the frame is the header
    [Content-Length: n], a blank line and the body, with [n] the byte length
    of the body, and [n] is the length the parser reads from the header. *)
Theorem framing_round_trip :
  forall (float_repr : spec_float -> string)
         (json_loads : string -> result json) (V : json),
  json_loads (Json.dumps float_repr V) = Ok V ->
  let body := Json.dumps float_repr V in
  let frame := McpStdio.encode_message float_repr V in
  McpStdio._try_parse_one json_loads frame = Ok (Some V, "") /\
  frame = ("Content-Length: " ++ Py.str_of_nat (String.length body)
           ++ McpStdio.crlf ++ McpStdio.crlf ++ body)%string /\
  exists header_end,
    Py.find McpStdio.HEADER_SEPARATOR frame = Some header_end /\
    McpStdio.content_length
      (Py.split McpStdio.crlf (Py.take header_end frame))
    = Some (Z.of_nat (String.length body)).
Proof.
  intros float_repr json_loads V RT body frame.
  set (H := ("Content-Length: " ++ Py.str_of_nat (String.length body))%string).
  assert (F : frame = (H ++ McpStdio.HEADER_SEPARATOR ++ body)%string)
    by apply encode_message_shape.
  assert (NC : all_chars (fun c => negb (Ascii.eqb c Json.char_cr)) H = true)
    by apply header_no_cr.
  assert (FI : Py.find McpStdio.HEADER_SEPARATOR frame = Some (String.length H)).
  { rewrite F. apply (find_first Json.char_cr). exact NC. }
  assert (TK : Py.take (String.length H) frame = H)
    by (rewrite F; apply take_app).
  assert (CL : McpStdio.content_length
                 (Py.split McpStdio.crlf (Py.take (String.length H) frame))
               = Some (Z.of_nat (String.length body))).
  { rewrite TK. unfold McpStdio.crlf. rewrite split_no_sep by exact NC.
    unfold H. rewrite header_content_length. apply int_of_str_of_nat. }
  assert (LF : String.length frame
               = (String.length H + 4 + String.length body)%nat).
  { rewrite F, !length_append.
    change (String.length McpStdio.HEADER_SEPARATOR) with 4%nat. lia. }
  split; [|split].
  - unfold McpStdio._try_parse_one. rewrite FI, CL.
    replace (String.length McpStdio.HEADER_SEPARATOR) with 4%nat
      by reflexivity.
    replace (Z.of_nat (String.length frame)
             <? Z.of_nat (String.length H) + Z.of_nat 4
                + Z.of_nat (String.length body)) with false
      by (symmetry; apply Z.ltb_ge; lia).
    assert (B : Py.slice frame
                  (Z.of_nat (String.length H) + Z.of_nat 4)
                  (Z.of_nat (String.length H) + Z.of_nat 4
                   + Z.of_nat (String.length body)) = body).
    { unfold Py.slice, Py.slice_index.
      replace (Z.of_nat (String.length H) + Z.of_nat 4 <? 0) with false
        by (symmetry; apply Z.ltb_ge; lia).
      replace (Z.of_nat (String.length H) + Z.of_nat 4
               + Z.of_nat (String.length body) <? 0) with false
        by (symmetry; apply Z.ltb_ge; lia).
      rewrite LF.
      assert (LS : String.length (H ++ McpStdio.HEADER_SEPARATOR)
                   = (String.length H + 4)%nat)
        by (rewrite length_append; reflexivity).
      replace (Z.to_nat (Z.min (Z.of_nat (String.length H) + Z.of_nat 4) _))
        with (String.length (H ++ McpStdio.HEADER_SEPARATOR))
        by (rewrite LS; lia).
      replace (Z.to_nat (Z.min _ _)
               - String.length (H ++ McpStdio.HEADER_SEPARATOR))%nat
        with (String.length body)
        by (rewrite LS; lia).
      rewrite F, <- append_assoc, drop_app. apply take_all. }
    assert (R : Py.slice_from frame
                  (Z.of_nat (String.length H) + Z.of_nat 4
                   + Z.of_nat (String.length body)) = "").
    { unfold Py.slice_from, Py.slice_index.
      replace (Z.of_nat (String.length H) + Z.of_nat 4
               + Z.of_nat (String.length body) <? 0) with false
        by (symmetry; apply Z.ltb_ge; lia).
      replace (Z.to_nat (Z.min _ _)) with (String.length frame)
        by (rewrite LF; lia).
      apply drop_all. }
    rewrite B, R. fold body in RT. rewrite RT. reflexivity.
  - rewrite F. unfold H, McpStdio.HEADER_SEPARATOR.
    now rewrite !append_assoc.
  - exists (String.length H). split; [exact FI|exact CL].
Qed.

Lemma framing_round_trip_witness :
  McpStdio._try_parse_one Samples.loads_empty_object
    (McpStdio.encode_message Samples.float_repr0 (JDict []))
  = Ok (Some (JDict []), "").
Proof.
  apply (framing_round_trip Samples.float_repr0 Samples.loads_empty_object
           (JDict [])).
  reflexivity.
Defined.

(** ** The dispatch loop *)

Lemma count_type_app ty l1 l2 :
  RunSmoke.count_type ty (l1 ++ l2)%list
  = (RunSmoke.count_type ty l1 + RunSmoke.count_type ty l2)%nat.
Proof.
  unfold RunSmoke.count_type. now rewrite filter_app, length_app.
Qed.

(** *** The writer behind the loop *)

Lemma appends_app fr l1 : forall l2 w f,
  EvidenceWriter.appends fr w f (l1 ++ l2)%list
  = EvidenceWriter.appends fr
      (fst (EvidenceWriter.appends fr w f l1))
      (snd (EvidenceWriter.appends fr w f l1)) l2.
Proof.
  induction l1 as [|[iso obj] l1 IH]; intros l2 w f; [reflexivity|].
  rewrite <- app_comm_cons. cbn [EvidenceWriter.appends].
  destruct (EvidenceWriter.append fr iso w f obj) as [w' f']. apply IH.
Qed.

Lemma entries_app E l1 : forall l2 k,
  RunSmoke.entries E k (l1 ++ l2)%list
  = (RunSmoke.entries E k l1
     ++ RunSmoke.entries E (k + List.length l1) l2)%list.
Proof.
  induction l1 as [|e l1 IH]; intros l2 k; simpl.
  - now rewrite Nat.add_0_r.
  - rewrite IH. do 3 f_equal. lia.
Qed.

Lemma lines_app fr l1 l2 :
  EvidenceWriter.lines fr (l1 ++ l2)%list
  = (EvidenceWriter.lines fr l1 ++ EvidenceWriter.lines fr l2)%string.
Proof.
  induction l1 as [|[iso obj] l1 IH]; [reflexivity|].
  rewrite <- app_comm_cons. cbn [EvidenceWriter.lines].
  now rewrite IH, append_assoc.
Qed.

(** A writer without a budget writes every line. *)
Lemma append_unlimited fr B iso f obj :
  B <= 0 ->
  EvidenceWriter.append fr iso (EvidenceWriter.init B) f obj
  = (EvidenceWriter.init B,
     EvidenceWriter.write f (EvidenceWriter.line fr obj)).
Proof.
  intros HB. unfold EvidenceWriter.append.
  cbn [EvidenceWriter._disabled EvidenceWriter.init EvidenceWriter.max_bytes].
  replace (0 <? B) with false by (symmetry; apply Z.ltb_ge; lia).
  reflexivity.
Qed.

Lemma appends_unlimited fr B events : forall f,
  B <= 0 ->
  fst (EvidenceWriter.appends fr (EvidenceWriter.init B) f events)
  = EvidenceWriter.init B /\
  EvidenceWriter.content
    (snd (EvidenceWriter.appends fr (EvidenceWriter.init B) f events))
  = (EvidenceWriter.content f ++ EvidenceWriter.lines fr events)%string.
Proof.
  induction events as [|[iso obj] rest IH]; intros f HB.
  - simpl. now rewrite append_nil_r.
  - cbn [EvidenceWriter.appends EvidenceWriter.lines].
    rewrite append_unlimited by exact HB.
    destruct (IH (EvidenceWriter.write f (EvidenceWriter.line fr obj)) HB)
      as [W C].
    split; [exact W|].
    rewrite C. unfold EvidenceWriter.write. cbn [EvidenceWriter.content].
    now rewrite append_assoc.
Qed.

(** A writer whose budget is enough for every line writes every line. *)
Lemma appends_within fr B events :
  0 < B -> EvidenceWriter.len (EvidenceWriter.lines fr events) <= B ->
  EvidenceWriter._disabled
    (fst (EvidenceWriter.appends fr (EvidenceWriter.init B) None events))
  = false /\
  EvidenceWriter.content
    (snd (EvidenceWriter.appends fr (EvidenceWriter.init B) None events))
  = EvidenceWriter.lines fr events.
Proof.
  intros HB Fit.
  destruct (appends_spec fr B events None HB) as (kept & dropped & E & _ & R).
  { unfold EvidenceWriter.size. simpl. lia. }
  destruct dropped as [|[iso obj] dropped].
  - rewrite app_nil_r in E. subst kept. exact R.
  - exfalso. destruct R as (_ & Over & _).
    rewrite E, lines_app in Fit. cbn [EvidenceWriter.lines] in Fit.
    rewrite !len_append in Fit.
    unfold EvidenceWriter.size in Over. simpl in Over.
    unfold EvidenceWriter.len in *. lia.
Qed.

Lemma replayed_start E messages0 : replayed E (RunSmoke.start E messages0).
Proof. reflexivity. Qed.

Lemma replayed_log E s e : replayed E s -> replayed E (RunSmoke.log E s e).
Proof.
  unfold replayed, RunSmoke.log.
  cbn [RunSmoke.writer RunSmoke.events_file RunSmoke.evidence].
  intros R. rewrite entries_app, appends_app, <- R.
  cbn [fst snd RunSmoke.entries EvidenceWriter.appends Nat.add].
  now destruct (EvidenceWriter.append _ _ _ _ _).
Qed.

Lemma evidence_logs E events : forall s,
  RunSmoke.evidence (fold_left (RunSmoke.log E) events s)
  = (RunSmoke.evidence s ++ events)%list.
Proof.
  induction events as [|e rest IH]; intros s; simpl.
  - now rewrite app_nil_r.
  - rewrite IH. unfold RunSmoke.log. cbn [RunSmoke.evidence].
    now rewrite <- app_assoc.
Qed.

Lemma replayed_logs E events : forall s,
  replayed E s -> replayed E (fold_left (RunSmoke.log E) events s).
Proof.
  induction events as [|e rest IH]; intros s R; simpl; auto.
  apply IH. now apply replayed_log.
Qed.

Lemma bad_outputs_logs E events : forall s,
  RunSmoke.bad_outputs (fold_left (RunSmoke.log E) events s)
  = RunSmoke.bad_outputs s.
Proof.
  induction events as [|e rest IH]; intros s; simpl; auto.
  now rewrite IH.
Qed.

(** The type a dictionary carries is the type of its event, for the events
    of a round without a tool call. *)
Lemma entry_types_plain E events : forall k,
  Forall (fun e => match e with RunSmoke.ToolCall _ => False | _ => True end)
         events ->
  entry_types (RunSmoke.entries E k events)
  = map (fun e => JStr (RunSmoke.event_type e)) events.
Proof.
  induction events as [|e rest IH]; intros k F; [reflexivity|].
  apply Forall_cons_iff in F as [Fe F].
  cbn [RunSmoke.entries entry_types map snd]. f_equal.
  - destruct e; try contradiction; reflexivity.
  - apply IH. exact F.
Qed.

(** C6 as stated fails: with a model that answers [not json] at every step
    and twelve steps allowed, the loop asks the model five times, not six:
    the fifth unparseable answer raises.  The writer is handed five
    [llm.request], five [llm.parse_error] and, last, [run.error]. *)
Lemma five_strikes_counterexample :
  let r := RunSmoke.run (Samples.stubborn_env "not json") 12
             Samples.first_messages [] in
  (RunSmoke.count_type "llm.request" (RunSmoke.evidence (fst r)),
   RunSmoke.count_type "llm.parse_error" (RunSmoke.evidence (fst r)),
   option_map RunSmoke.event_type (last (map Some (RunSmoke.evidence (fst r))) None),
   snd r)
  = (5%nat, 5%nat, Some "run.error", Some TooManyUnparseable).
Proof. vm_compute. reflexivity. Qed.

Section Unparseable.
Variable E : RunSmoke.env.

Hypothesis unparseable : always_unparseable E.

(** One iteration on an unparseable answer: three events and one strike,
    the fifth strike raising. *)
Lemma body_unparseable step s :
  exists req resp perr s',
    RunSmoke.event_type req = "llm.request" /\
    RunSmoke.event_type resp = "llm.response" /\
    RunSmoke.event_type perr = "llm.parse_error" /\
    RunSmoke.evidence s' = (RunSmoke.evidence s ++ [req; resp; perr])%list /\
    RunSmoke.bad_outputs s' = S (RunSmoke.bad_outputs s) /\
    (replayed E s -> replayed E s') /\
    RunSmoke.body E step s
    = if (5 <=? S (RunSmoke.bad_outputs s))%nat
      then RunSmoke.Raised s' TooManyUnparseable
      else RunSmoke.Next
             (RunSmoke.say s'
                [ ("assistant",
                   match perr with
                   | RunSmoke.LlmParseError _ c => c
                   | _ => ""
                   end);
                  ("user", RunSmoke.steer_parse (RunSmoke.next_required s')) ]).
Proof.
  unfold RunSmoke.body.
  set (req := RunSmoke.LlmRequest step _).
  set (s1 := RunSmoke.log E s req).
  destruct (unparseable step (RunSmoke.messages s1)) as
    (resp & content & exc & Hc & He & Hp).
  rewrite Hc, He, Hp.
  set (rsp := RunSmoke.LlmResponse step _ _).
  set (s2 := RunSmoke.log E s1 rsp).
  set (perr := RunSmoke.LlmParseError exc _).
  set (s3 := RunSmoke.strike (RunSmoke.log E s2 perr)).
  exists req, rsp, perr, s3.
  split; [reflexivity|]. split; [reflexivity|]. split; [reflexivity|].
  split; [|split; [reflexivity|split; [|reflexivity]]].
  - subst s3 s2 s1. unfold RunSmoke.strike, RunSmoke.log.
    cbn [RunSmoke.evidence]. rewrite <- !app_assoc. reflexivity.
  - intros R. subst s3 s2 s1.
    assert (R3 := replayed_log E _ perr
                    (replayed_log E _ rsp (replayed_log E _ req R))).
    exact R3.
Qed.

(** From [b] strikes on, the loop raises after [5 - b] more iterations, each
    of them a round of three events. *)
Lemma loop_unparseable k : forall steps step s,
  (RunSmoke.bad_outputs s + k = 5)%nat -> (1 <= k)%nat -> (k <= steps)%nat ->
  exists middle s',
    RunSmoke.loop E steps step s = (s', Some TooManyUnparseable) /\
    RunSmoke.evidence s'
    = (RunSmoke.evidence s ++ middle
       ++ [RunSmoke.RunError TooManyUnparseable])%list /\
    map RunSmoke.event_type middle
    = List.concat (repeat ["llm.request"; "llm.response"; "llm.parse_error"] k) /\
    (replayed E s -> replayed E s').
Proof.
  induction k as [|k IH]; intros steps step s Hb Hk Hs; [lia|].
  destruct steps as [|steps]; [lia|]. cbn [RunSmoke.loop].
  destruct (body_unparseable step s) as
    (req & resp & perr & s' & Tq & Tr & Tp & Ev & Bo & Rp & Eb).
  rewrite Eb. clear Eb.
  destruct k as [|k].
  - (* the fifth strike *)
    assert (B : RunSmoke.bad_outputs s = 4%nat) by lia. rewrite B.
    cbn [Nat.leb].
    exists [req; resp; perr],
      (RunSmoke.log E s' (RunSmoke.RunError TooManyUnparseable)).
    split; [reflexivity|]. split; [|split].
    + unfold RunSmoke.log. cbn [RunSmoke.evidence].
      rewrite Ev, <- !app_assoc. reflexivity.
    + cbn [map repeat List.concat app]. now rewrite Tq, Tr, Tp.
    + intros R. apply replayed_log. now apply Rp.
  - assert (B : (5 <=? S (RunSmoke.bad_outputs s))%nat = false)
      by (apply Nat.leb_gt; lia).
    rewrite B.
    set (s'' := RunSmoke.say s' _).
    destruct (IH steps (S step) s'') as (middle & sf & L & Evf & Ty & Rf).
    { subst s''. unfold RunSmoke.say. cbn [RunSmoke.bad_outputs]. lia. }
    { lia. }
    { lia. }
    exists ([req; resp; perr] ++ middle)%list, sf.
    split; [exact L|]. split; [|split].
    + rewrite Evf. subst s''. unfold RunSmoke.say at 1.
      cbn [RunSmoke.evidence]. rewrite Ev, <- !app_assoc. reflexivity.
    + rewrite map_app, Ty. cbn [map repeat List.concat app].
      now rewrite Tq, Tr, Tp.
    + intros R. apply Rf. apply Rp in R. exact R.
Qed.

End Unparseable.

(** C6, amended: when the model's answer is unparseable at every step and
    at least five steps are allowed, the loop raises on the fifth attempt.
    After the events appended before the loop, the writer is handed five
    rounds of [llm.request], [llm.response], [llm.parse_error] and then
    [run.error], sixteen dictionaries of these types.  The evidence file is
    what the writer makes of all the events handed to it: with no budget
    ([evidence_max <= 0]) or a budget that is enough for all their lines it
    holds exactly these lines, hence exactly five [llm.parse_error] events
    of the loop and [run.error] as its last line; with a smaller budget it
    holds the lines of the events that fit, followed by the truncation
    marker if that fits. *)
Theorem five_strikes_on_fifth_attempt :
  forall (E : RunSmoke.env) (max_steps : nat)
         (messages0 : list (string * string)) (evidence0 : list RunSmoke.event),
  always_unparseable E -> (5 <= max_steps)%nat ->
  let r := RunSmoke.run E max_steps messages0 evidence0 in
  let B := RunSmoke.evidence_max E in
  let fr := RunSmoke.float_repr E in
  let file := RunSmoke.events_file (fst r) in
  let rounds :=
    List.concat (repeat ["llm.request"; "llm.response"; "llm.parse_error"] 5) in
  exists rounds_events,
    let loop_events :=
      (rounds_events ++ [RunSmoke.RunError TooManyUnparseable])%list in
    let before := RunSmoke.entries E 0 evidence0 in
    let written := RunSmoke.entries E (List.length evidence0) loop_events in
    snd r = Some TooManyUnparseable /\
    RunSmoke.evidence (fst r) = (evidence0 ++ loop_events)%list /\
    map RunSmoke.event_type rounds_events = rounds /\
    entry_types written = map JStr (rounds ++ ["run.error"])%list /\
    (RunSmoke.writer (fst r), file)
    = EvidenceWriter.appends fr (EvidenceWriter.init B) None
        (before ++ written)%list /\
    (B <= 0 \/
     EvidenceWriter.len (EvidenceWriter.lines fr (before ++ written)) <= B ->
     EvidenceWriter.content file
     = (EvidenceWriter.lines fr before
        ++ EvidenceWriter.lines fr written)%string /\
     EvidenceWriter._disabled (RunSmoke.writer (fst r)) = false) /\
    (0 < B ->
     exists kept dropped,
       (before ++ written)%list = (kept ++ dropped)%list /\
       EvidenceWriter.len (EvidenceWriter.lines fr kept) <= B /\
       EvidenceWriter.content file
       = (EvidenceWriter.lines fr kept
          ++ match dropped with
             | [] => ""
             | (iso, obj) :: _ =>
                 EvidenceWriter.marker fr B
                   (EvidenceWriter.len (EvidenceWriter.lines fr kept)) iso
             end)%string).
Proof.
  intros E max_steps messages0 evidence0 U M r B fr file rounds.
  subst r file. unfold RunSmoke.run.
  set (s0 := fold_left (RunSmoke.log E) evidence0
               (RunSmoke.start E messages0)).
  assert (Ev0 : RunSmoke.evidence s0 = evidence0)
    by (unfold s0; now rewrite evidence_logs).
  assert (R0 : replayed E s0)
    by (unfold s0; apply replayed_logs, replayed_start).
  destruct (loop_unparseable E U 5 max_steps 0 s0)
    as (middle & s' & L & Ev & Ty & Rp); try lia.
  { unfold s0. rewrite bad_outputs_logs. reflexivity. }
  exists middle. cbv zeta. rewrite L. cbn [fst snd].
  rewrite Ev0 in Ev. specialize (Rp R0). unfold replayed in Rp.
  rewrite Ev, entries_app in Rp. fold B fr in Rp.
  set (before := RunSmoke.entries E 0 evidence0) in *.
  cbn [Nat.add] in Rp.
  set (written := RunSmoke.entries E (List.length evidence0)
                    (middle ++ [RunSmoke.RunError TooManyUnparseable])) in *.
  split; [reflexivity|]. split; [exact Ev|]. split; [exact Ty|].
  split.
  { unfold written. rewrite entry_types_plain.
    - rewrite map_app, <- (map_map RunSmoke.event_type JStr), Ty.
      now rewrite map_app.
    - apply Forall_app. split; [|repeat constructor].
      apply Forall_forall. intros e I.
      assert (T : In (RunSmoke.event_type e)
                    (map RunSmoke.event_type middle)) by now apply in_map.
      rewrite Ty in T. destruct e; auto.
      cbn in T. intuition discriminate. }
  split; [exact Rp|].
  assert (W : RunSmoke.writer s'
              = fst (EvidenceWriter.appends fr (EvidenceWriter.init B) None
                       (before ++ written)))
    by now rewrite <- Rp.
  assert (F : RunSmoke.events_file s'
              = snd (EvidenceWriter.appends fr (EvidenceWriter.init B) None
                       (before ++ written)))
    by now rewrite <- Rp.
  rewrite W, F. clear W F Rp. split.
  - intros [Un|Fit].
    + destruct (appends_unlimited fr B (before ++ written) None Un) as [Wr C].
      rewrite Wr, C, lines_app. split; reflexivity.
    + destruct (Z_le_gt_dec B 0) as [Un|Pos].
      * destruct (appends_unlimited fr B (before ++ written) None Un)
          as [Wr C].
        rewrite Wr, C, lines_app. split; reflexivity.
      * destruct (appends_within fr B (before ++ written)) as [D C];
          [lia|exact Fit|].
        rewrite D, C, lines_app. split; reflexivity.
  - intros Pos.
    destruct (appends_spec fr B (before ++ written) None Pos)
      as (kept & dropped & Eq & Fit & R).
    { unfold EvidenceWriter.size. simpl. lia. }
    exists kept, dropped. split; [exact Eq|].
    unfold EvidenceWriter.size in Fit. simpl in Fit. split; [exact Fit|].
    destruct dropped as [|[iso obj] dropped].
    + destruct R as [_ C]. rewrite C. cbn [EvidenceWriter.content].
      now rewrite append_nil_r.
    + destruct R as (_ & _ & C). rewrite C. reflexivity.
Qed.

Lemma five_strikes_on_fifth_attempt_witness :
  snd (RunSmoke.run (Samples.stubborn_env "not json") 12
         Samples.first_messages [])
  = Some TooManyUnparseable.
Proof.
  destruct (five_strikes_on_fifth_attempt (Samples.stubborn_env "not json") 12
              Samples.first_messages []) as (evs & H & _).
  - intros step msgs.
    exists (JDict [ ("output_text", JStr "not json") ]), "not json",
      JSONDecodeError.
    repeat split; reflexivity.
  - lia.
  - exact H.
Defined.

(** C5, the code at the failing input: a model that proposes
    [workbench.workflow.status] at every step, where
    [workbench.registry.scan] is expected, is rejected twelve times in
    twelve steps; no strike is counted and the loop ends without error. *)
Lemma tool_mismatch_never_strikes :
  let r := RunSmoke.run (Samples.stubborn_env Samples.status_call_text) 12
             Samples.first_messages [] in
  (RunSmoke.count_type "tool.rejected" (RunSmoke.evidence (fst r)),
   RunSmoke.bad_outputs (fst r),
   RunSmoke.count_type "run.error" (RunSmoke.evidence (fst r)),
   snd r)
  = (12%nat, 0%nat, 0%nat, None).
Proof. vm_compute. reflexivity. Qed.

(* ------------------------------------------------------------------ *)
(** * Part III: further properties of the pool                          *)
(* ------------------------------------------------------------------ *)

(** ** Pools stored under their own names *)

Lemma get_in ps k p : OAuthPool.get ps k = Some p -> In (k, p) ps.
Proof.
  induction ps as [|[k' p'] ps IH]; simpl; [discriminate|].
  destruct (String.eqb k' k) eqn:E.
  - apply String.eqb_eq in E. intros [= ->]. left. now subst.
  - intros H. right. auto.
Qed.

Lemma in_contains ps k p : In (k, p) ps -> OAuthPool.contains ps k = true.
Proof.
  unfold OAuthPool.contains.
  induction ps as [|[k' p'] ps IH]; simpl; [tauto|].
  intros [[= -> ->]|H].
  - now rewrite String.eqb_refl.
  - destruct (String.eqb k' k); auto.
Qed.

Lemma in_get ps k p :
  NoDup (map fst ps) -> In (k, p) ps -> OAuthPool.get ps k = Some p.
Proof.
  induction ps as [|[k' p'] ps IH]; simpl; [tauto|].
  intros ND [[= -> ->]|H].
  - now rewrite String.eqb_refl.
  - inversion ND as [|? ? NI ND']; subst.
    destruct (String.eqb k' k) eqn:E.
    + apply String.eqb_eq in E. subst. exfalso. apply NI.
      apply (in_map fst) in H. exact H.
    + auto.
Qed.

Lemma set_keys ps k p :
  map fst (OAuthPool.set ps k p)
  = if OAuthPool.contains ps k then map fst ps else (map fst ps ++ [k])%list.
Proof.
  unfold OAuthPool.contains.
  induction ps as [|[k' p'] ps IH]; simpl; [reflexivity|].
  destruct (String.eqb k' k); simpl; [reflexivity|].
  rewrite IH. now destruct (OAuthPool.get ps k).
Qed.

Lemma contains_keys ps k :
  OAuthPool.contains ps k = true <-> In k (map fst ps).
Proof.
  unfold OAuthPool.contains.
  induction ps as [|[k' p'] ps IH]; simpl; [split; [discriminate|tauto]|].
  destruct (String.eqb k' k) eqn:E.
  - apply String.eqb_eq in E. split; auto.
  - apply String.eqb_neq in E. rewrite IH. split; [auto|].
    intros [H|H]; [contradiction|exact H].
Qed.

Lemma set_well_keyed ps k p :
  well_keyed ps -> OAuthProfile.profile p = k -> Py.str_truthy k = true ->
  well_keyed (OAuthPool.set ps k p).
Proof.
  intros [ND F] Hp Hk. split.
  - rewrite set_keys. destruct (OAuthPool.contains ps k) eqn:C; [exact ND|].
    apply Permutation_NoDup with (l := k :: map fst ps).
    + apply Permutation_cons_append.
    + constructor; [|exact ND]. intros H. apply contains_keys in H. congruence.
  - clear ND. induction ps as [|[k' p'] ps IH]; simpl.
    + constructor; [|constructor]. simpl. auto.
    + apply Forall_cons_iff in F as [F1 F2].
      destruct (String.eqb k' k) eqn:E.
      * apply String.eqb_eq in E. subst k'. constructor; [|exact F2].
        simpl. auto.
      * constructor; [exact F1|]. apply IH. exact F2.
Qed.

Lemma profiles_from_json_well_keyed repr profs : forall acc ps,
  well_keyed acc ->
  OAuthPool.profiles_from_json repr profs acc = Ok ps -> well_keyed ps.
Proof.
  induction profs as [|[k v] rest IH]; intros acc ps W; simpl.
  - now intros [= <-].
  - destruct v; try (apply IH; exact W).
    destruct (OAuthProfile.from_json repr _) as [p|e]; simpl; [|discriminate].
    apply IH.
    destruct (Py.str_truthy (OAuthProfile.profile p)) eqn:T; [|exact W].
    apply set_well_keyed; auto.
Qed.

Lemma load_pool_well_keyed_aux repr iso file pool :
  PoolFile.load_pool repr iso file = Ok pool ->
  well_keyed (OAuthPool.profiles pool).
Proof.
  assert (W0 : well_keyed []) by (split; constructor).
  destruct file as [| |data]; simpl.
  - intros [= <-]. exact W0.
  - discriminate.
  - destruct data; try discriminate.
    unfold OAuthPool.from_json.
    destruct (OAuthPool.profiles_from_json repr _ []) as [ps|e] eqn:P;
      simpl; [|discriminate].
    destruct (Json.int _) as [v|e]; simpl; [|discriminate].
    intros [= <-]. simpl. eapply profiles_from_json_well_keyed; eauto.
Qed.

(** X1: whatever the file holds, a pool [load_pool] returns stores every
    profile under its own name: the keys are distinct and not empty, and each
    is the [profile] field of the profile stored under it. *)
Theorem load_pool_well_keyed :
  forall (repr : json -> string) (iso : string) (file : file_content)
         (pool : OAuthPool.t),
  PoolFile.load_pool repr iso file = Ok pool ->
  well_keyed (OAuthPool.profiles pool).
Proof.
  intros repr iso file pool. apply load_pool_well_keyed_aux.
Qed.

Lemma load_pool_well_keyed_witness :
  exists pool,
    PoolFile.load_pool Samples.no_repr "2026-01-01T00:00:00Z"
      Samples.version2_file = Ok pool /\
    well_keyed (OAuthPool.profiles pool).
Proof.
  eexists. split; [reflexivity|].
  apply (load_pool_well_keyed Samples.no_repr "2026-01-01T00:00:00Z"
           Samples.version2_file).
  reflexivity.
Defined.

(** ** What [choose_profile] hands out *)

Lemma sticky_choice_stored self at_ name :
  OAuthPool.sticky_choice self at_ = Some name ->
  exists l p,
    OAuthPool.get (OAuthPool.profiles self) l = Some p /\
    OAuthProfile.profile p = name /\
    OAuthProfile.is_usable at_ p (Some at_) = true.
Proof.
  unfold OAuthPool.sticky_choice.
  destruct (String.eqb (OAuthPool.strategy self) "sticky"); [|discriminate].
  destruct (Py.if_truthy (OAuthPool.last_used_profile self)) as [l|];
    [|discriminate].
  destruct (OAuthPool.get (OAuthPool.profiles self) l) as [p|] eqn:G;
    [|discriminate].
  destruct (OAuthProfile.is_usable at_ p (Some at_)) eqn:U; [|discriminate].
  intros [= <-]. eauto.
Qed.

Lemma usable_in self at_ p :
  In p (OAuthPool.usable self at_) <->
  In p (OAuthPool.values self) /\
  OAuthProfile.is_usable at_ p (Some at_) = true.
Proof. unfold OAuthPool.usable. apply filter_In. Qed.

Lemma values_in self p :
  In p (OAuthPool.values self) ->
  exists k, In (k, p) (OAuthPool.profiles self).
Proof.
  unfold OAuthPool.values. intros H. apply in_map_iff in H as ([k q] & E & H).
  simpl in E. subst. eauto.
Qed.

Lemma well_keyed_in ps k p :
  well_keyed ps -> In (k, p) ps ->
  OAuthProfile.profile p = k /\ Py.str_truthy k = true /\
  OAuthPool.get ps k = Some p.
Proof.
  intros [ND F] H. rewrite Forall_forall in F.
  destruct (F _ H) as [F1 F2]. simpl in F1, F2.
  repeat split; auto. now apply in_get.
Qed.

(** [choose_profile] behind the sticky shortcut, when some profile is
    usable. *)
Lemma choose_profile_sorted now self explicit at_ms :
  let at_ := match at_ms with None => now | Some a => a end in
  Py.if_truthy explicit = None ->
  Py.if_truthy (OAuthPool.pinned_profile self) = None ->
  OAuthPool.sticky_choice self at_ = None ->
  OAuthPool.usable self at_ <> [] ->
  OAuthPool.choose_profile now self explicit at_ms
  = match OAuthPool.round_robin_choice self
            (map OAuthProfile.profile
               (Py.sorted OAuthProfile.lt (OAuthPool.usable self at_))) with
    | Some name => Ok name
    | None =>
        match Py.sorted OAuthProfile.lt (OAuthPool.usable self at_) with
        | p :: _ => Ok (OAuthProfile.profile p)
        | [] => Raise IndexError
        end
    end.
Proof.
  intros at_ He Hp Hs U. unfold OAuthPool.choose_profile.
  fold at_. rewrite He, Hp, Hs.
  destruct (OAuthPool.usable self at_); [congruence|reflexivity].
Qed.

(** The names [choose_profile] picks from once the sticky shortcut is
    passed: the profile names of the usable profiles in sorted order. *)
Lemma choose_profile_sorted_pick now self explicit at_ms name :
  let at_ := match at_ms with None => now | Some a => a end in
  Py.if_truthy explicit = None ->
  Py.if_truthy (OAuthPool.pinned_profile self) = None ->
  OAuthPool.sticky_choice self at_ = None ->
  OAuthPool.choose_profile now self explicit at_ms = Ok name ->
  exists p, In p (OAuthPool.usable self at_) /\ OAuthProfile.profile p = name.
Proof.
  intros at_ He Hp Hs.
  destruct (OAuthPool.usable self at_) as [|u us] eqn:U.
  { unfold OAuthPool.choose_profile. fold at_. rewrite He, Hp, Hs, U.
    discriminate. }
  rewrite <- U.
  rewrite (choose_profile_sorted now self explicit at_ms He Hp Hs)
    by (fold at_; congruence).
  fold at_.
  set (srt := Py.sorted OAuthProfile.lt (OAuthPool.usable self at_)).
  assert (P : Permutation srt (OAuthPool.usable self at_))
    by apply sorted_perm.
  assert (from_names : forall n, In n (map OAuthProfile.profile srt) ->
            exists p, In p (OAuthPool.usable self at_) /\
                      OAuthProfile.profile p = n).
  { intros n H. apply in_map_iff in H as (p & E & H). exists p. split; auto.
    eapply Permutation_in; eauto. }
  destruct (OAuthPool.round_robin_choice self _) as [n|] eqn:R.
  - intros [= <-]. apply from_names.
    unfold OAuthPool.round_robin_choice in R.
    destruct (String.eqb (OAuthPool.strategy self) "round-robin");
      [|discriminate].
    destruct (Py.if_truthy (OAuthPool.last_used_profile self)); [|discriminate].
    destruct (Py.list_index _ _); [|discriminate].
    eapply nth_error_In; eauto.
  - destruct srt as [|b rest] eqn:S; [discriminate|].
    intros [= <-]. apply from_names. simpl. now left.
Qed.

(** X2: on a pool that stores its profiles under their own names, a name
    [choose_profile] returns is always a key of the pool, whichever branch
    returns it: explicit, pinned, sticky, round-robin or sorted. *)
Theorem choose_profile_in_pool :
  forall (now : Z) (self : OAuthPool.t) (explicit : option string)
         (at_ms : option Z) (name : string),
  well_keyed (OAuthPool.profiles self) ->
  OAuthPool.choose_profile now self explicit at_ms = Ok name ->
  OAuthPool.contains (OAuthPool.profiles self) name = true.
Proof.
  intros now self explicit at_ms name W H.
  destruct (Py.if_truthy explicit) as [e|] eqn:He.
  { unfold OAuthPool.choose_profile in H. rewrite He in H.
    destruct (OAuthPool.contains (OAuthPool.profiles self) e) eqn:C;
      [|discriminate].
    now injection H as <-. }
  destruct (Py.if_truthy (OAuthPool.pinned_profile self)) as [e|] eqn:Hp.
  { unfold OAuthPool.choose_profile in H. rewrite He, Hp in H.
    destruct (OAuthPool.contains (OAuthPool.profiles self) e) eqn:C;
      [|discriminate].
    now injection H as <-. }
  set (at_ := match at_ms with None => now | Some a => a end).
  destruct (OAuthPool.sticky_choice self at_) as [n|] eqn:Hs.
  { unfold OAuthPool.choose_profile in H. fold at_ in H.
    rewrite He, Hp, Hs in H. injection H as <-.
    apply sticky_choice_stored in Hs as (l & p & G & E & _).
    apply get_in in G.
    destruct (well_keyed_in _ _ _ W G) as (E' & _ & _).
    rewrite <- E, E'. eapply in_contains; eauto. }
  destruct (choose_profile_sorted_pick now self explicit at_ms name He Hp Hs H)
    as (p & U & E).
  apply usable_in in U as [V _]. apply values_in in V as [k K].
  destruct (well_keyed_in _ _ _ W K) as (E' & _ & _).
  rewrite <- E, E'. eapply in_contains; eauto.
Qed.

Lemma choose_profile_in_pool_witness :
  OAuthPool.contains (OAuthPool.profiles Samples.round_robin_pool) "b" = true.
Proof.
  apply (choose_profile_in_pool 0 Samples.round_robin_pool None (Some 0) "b").
  - split.
    + repeat constructor; simpl; intuition discriminate.
    + repeat constructor.
  - reflexivity.
Defined.

(** X3: with no explicit and no pinned profile, the name [choose_profile]
    returns is that of a stored profile that is usable at the time asked
    for: neither disabled nor rate-limited beyond it. *)
Theorem choose_profile_usable :
  forall (now : Z) (self : OAuthPool.t) (explicit : option string)
         (at_ms : option Z) (name : string),
  well_keyed (OAuthPool.profiles self) ->
  Py.if_truthy explicit = None ->
  Py.if_truthy (OAuthPool.pinned_profile self) = None ->
  OAuthPool.choose_profile now self explicit at_ms = Ok name ->
  exists p,
    stored self name p /\
    OAuthProfile.profile p = name /\
    OAuthProfile.disabled p = false /\
    OAuthProfile.until_or_0 p
      <= match at_ms with None => now | Some a => a end /\
    OAuthProfile.is_usable now p at_ms = true.
Proof.
  intros now self explicit at_ms name W He Hp H.
  set (at_ := match at_ms with None => now | Some a => a end).
  assert (usable_facts : forall p,
            OAuthProfile.is_usable at_ p (Some at_) = true ->
            OAuthProfile.disabled p = false /\
            OAuthProfile.until_or_0 p <= at_ /\
            OAuthProfile.is_usable now p at_ms = true).
  { intros p. unfold OAuthProfile.is_usable. fold at_.
    destruct (OAuthProfile.disabled p); [discriminate|].
    intros U. repeat split; auto. now apply Z.leb_le. }
  destruct (OAuthPool.sticky_choice self at_) as [n|] eqn:Hs.
  - unfold OAuthPool.choose_profile in H. fold at_ in H.
    rewrite He, Hp, Hs in H. injection H as <-.
    apply sticky_choice_stored in Hs as (l & p & G & E & U).
    destruct (well_keyed_in _ _ _ W (get_in _ _ _ G)) as (E' & _ & _).
    exists p. unfold stored. rewrite <- E, E'. split; [exact G|].
    split; [reflexivity|]. now apply usable_facts.
  - destruct (choose_profile_sorted_pick now self explicit at_ms name
                He Hp Hs H) as (p & U & E).
    apply usable_in in U as [V U]. apply values_in in V as [k K].
    destruct (well_keyed_in _ _ _ W K) as (E' & _ & G).
    exists p. unfold stored. rewrite <- E, E'. split; [exact G|].
    split; [reflexivity|]. now apply usable_facts.
Qed.

Lemma choose_profile_usable_witness :
  exists p,
    stored Samples.tie_pool "p2" p /\
    OAuthProfile.is_usable 0 p (Some 0) = true.
Proof.
  destruct (choose_profile_usable 0 Samples.tie_pool None (Some 0) "p2")
    as (p & S & _ & _ & _ & U).
  - split.
    + repeat constructor; simpl; intuition discriminate.
    + repeat constructor.
  - reflexivity.
  - reflexivity.
  - reflexivity.
  - exists p. split; assumption.
Defined.

(** [choose_profile] raises exactly when nothing is usable. *)
Lemma choose_profile_none_usable :
  forall (now : Z) (self : OAuthPool.t) (explicit : option string)
         (at_ms : option Z),
  let at_ := match at_ms with None => now | Some a => a end in
  Py.if_truthy explicit = None ->
  Py.if_truthy (OAuthPool.pinned_profile self) = None ->
  (OAuthPool.usable self at_ = [] ->
     OAuthPool.choose_profile now self explicit at_ms
       = Raise (OAuthPool.no_usable_error self at_)) /\
  (OAuthPool.usable self at_ <> [] ->
     exists name, OAuthPool.choose_profile now self explicit at_ms = Ok name).
Proof.
  intros now self explicit at_ms at_ He Hp.
  unfold OAuthPool.choose_profile. fold at_. rewrite He, Hp. split.
  - intros U.
    destruct (OAuthPool.sticky_choice self at_) as [n|] eqn:Hs.
    + apply sticky_choice_stored in Hs as (l & p & G & _ & Us).
      assert (In p (OAuthPool.usable self at_)).
      { apply usable_in. split; [|exact Us].
        unfold OAuthPool.values. apply get_in in G.
        apply (in_map snd) in G. exact G. }
      rewrite U in H. destruct H.
    + now rewrite U.
  - intros U.
    destruct (OAuthPool.sticky_choice self at_) as [n|]; [eauto|].
    destruct (OAuthPool.usable self at_) as [|u us] eqn:E; [congruence|].
    rewrite <- E.
    destruct (OAuthPool.round_robin_choice self _) as [n|]; [eauto|].
    destruct (Py.sorted OAuthProfile.lt (OAuthPool.usable self at_))
      as [|b rest] eqn:S; [|eauto].
    exfalso. apply (sorted_nonempty OAuthProfile.lt (OAuthPool.usable self at_));
      congruence.
Qed.

(** X4: with no explicit and no pinned profile, [choose_profile] raises
    exactly when no profile of the pool is usable at the time asked for, and
    then with the no-usable-profile error; otherwise it returns a name. *)
Theorem choose_profile_raises_iff_none_usable :
  forall (now : Z) (self : OAuthPool.t) (explicit : option string)
         (at_ms : option Z),
  let at_ := match at_ms with None => now | Some a => a end in
  Py.if_truthy explicit = None ->
  Py.if_truthy (OAuthPool.pinned_profile self) = None ->
  (OAuthPool.usable self at_ = [] ->
     OAuthPool.choose_profile now self explicit at_ms
       = Raise (OAuthPool.no_usable_error self at_)) /\
  (OAuthPool.usable self at_ <> [] ->
     exists name, OAuthPool.choose_profile now self explicit at_ms = Ok name).
Proof. exact choose_profile_none_usable. Qed.

Lemma choose_profile_raises_iff_none_usable_witness :
  OAuthPool.choose_profile 0
    (OAuthPool.mark_rate_limited 0 "t1" "t2" Samples.single_pool "a" 1000)
    None (Some 500)
  = Raise (NoUsableAllRateLimited 1000 "a@example.com").
Proof.
  apply (choose_profile_raises_iff_none_usable 0
           (OAuthPool.mark_rate_limited 0 "t1" "t2" Samples.single_pool "a" 1000)
           None (Some 500)); reflexivity.
Defined.

(** X5: with the sticky strategy and no pinned profile, a profile that was
    just marked used is the one [choose_profile] returns next, for as long as
    it is usable and whatever the quotas of the other profiles are. *)
Theorem choose_profile_sticks_to_marked :
  forall (now : Z) (iso : string) (self : OAuthPool.t) (name : string)
         (p : OAuthProfile.t) (at_ms : option Z),
  Py.if_truthy (OAuthPool.pinned_profile self) = None ->
  OAuthPool.strategy self = "sticky" ->
  stored self name p ->
  OAuthProfile.profile p = name ->
  Py.str_truthy name = true ->
  OAuthProfile.is_usable now p at_ms = true ->
  OAuthPool.choose_profile now (OAuthPool.mark_used iso self name) None at_ms
  = Ok name.
Proof.
  intros now iso self name p at_ms Hp Hs G E T U.
  unfold OAuthPool.choose_profile. cbn [Py.if_truthy].
  replace (OAuthPool.pinned_profile (OAuthPool.mark_used iso self name))
    with (OAuthPool.pinned_profile self) by reflexivity.
  rewrite Hp. unfold OAuthPool.sticky_choice.
  replace (OAuthPool.strategy (OAuthPool.mark_used iso self name))
    with (OAuthPool.strategy self) by reflexivity.
  rewrite Hs.
  replace (OAuthPool.last_used_profile (OAuthPool.mark_used iso self name))
    with (Some name) by reflexivity.
  replace (OAuthPool.profiles (OAuthPool.mark_used iso self name))
    with (OAuthPool.profiles self) by reflexivity.
  cbn [Py.if_truthy]. rewrite T. unfold stored in G. rewrite G.
  replace (String.eqb "sticky" "sticky") with true by reflexivity.
  assert (U' : OAuthProfile.is_usable
                 match at_ms with None => now | Some a => a end p
                 (Some match at_ms with None => now | Some a => a end) = true).
  { revert U. unfold OAuthProfile.is_usable. now destruct at_ms. }
  rewrite U', E. reflexivity.
Qed.

Lemma choose_profile_sticks_to_marked_witness :
  OAuthPool.choose_profile 0
    (OAuthPool.mark_used "2026-01-02T00:00:00Z" Samples.tie_pool "p3")
    None (Some 0)
  = Ok "p3".
Proof.
  apply (choose_profile_sticks_to_marked 0 "2026-01-02T00:00:00Z"
           Samples.tie_pool "p3"
           (Samples.profile "p3" "c@example.com" 100 9000) (Some 0));
    reflexivity.
Defined.

(** ** The round-robin step *)

Lemma list_index_some x xs i :
  Py.list_index x xs = Some i -> nth_error xs i = Some x /\ (i < List.length xs)%nat.
Proof.
  revert i. induction xs as [|y ys IH]; simpl; [discriminate|].
  intros i. destruct (String.eqb y x) eqn:E.
  - apply String.eqb_eq in E. intros [= <-]. subst. split; [reflexivity|lia].
  - destruct (Py.list_index x ys) as [j|]; simpl; [|discriminate].
    intros [= <-]. destruct (IH j eq_refl). split; [assumption|simpl; lia].
Qed.

Lemma list_index_in x xs : In x xs -> exists i, Py.list_index x xs = Some i.
Proof.
  induction xs as [|y ys IH]; simpl; [tauto|].
  intros H. destruct (String.eqb y x) eqn:E; [eauto|].
  apply String.eqb_neq in E. destruct H as [H|H]; [contradiction|].
  destruct (IH H) as [i ->]. simpl. eauto.
Qed.

Lemma well_keyed_values_nodup self :
  well_keyed (OAuthPool.profiles self) ->
  NoDup (map OAuthProfile.profile (OAuthPool.values self)).
Proof.
  intros [ND F]. unfold OAuthPool.values. rewrite map_map.
  replace (map (fun x => OAuthProfile.profile (snd x)) (OAuthPool.profiles self))
    with (map fst (OAuthPool.profiles self)); [exact ND|].
  apply map_ext_in. intros kv H. rewrite Forall_forall in F.
  symmetry. apply (F kv H).
Qed.

Lemma nodup_map_filter {A B : Type} (f : A -> B) (g : A -> bool) l :
  NoDup (map f l) -> NoDup (map f (filter g l)).
Proof.
  induction l as [|x l IH]; simpl; [auto|].
  intros ND. inversion ND as [|? ? NI ND']; subst.
  destruct (g x); simpl; [|auto].
  constructor; [|auto]. intros H. apply NI.
  apply in_map_iff in H as (y & E & H). apply filter_In in H as [H _].
  rewrite <- E. now apply in_map.
Qed.

(** X6: with the round-robin strategy, no explicit and no pinned profile,
    when the profile used last is one of two or more usable profiles,
    [choose_profile] moves on: it returns a usable profile other than the
    one used last. *)
Theorem choose_profile_round_robin_moves_on :
  forall (now : Z) (self : OAuthPool.t) (explicit : option string)
         (at_ms : option Z) (last : string),
  let at_ := match at_ms with None => now | Some a => a end in
  well_keyed (OAuthPool.profiles self) ->
  Py.if_truthy explicit = None ->
  Py.if_truthy (OAuthPool.pinned_profile self) = None ->
  OAuthPool.strategy self = "round-robin" ->
  Py.if_truthy (OAuthPool.last_used_profile self) = Some last ->
  In last (map OAuthProfile.profile (OAuthPool.usable self at_)) ->
  (2 <= List.length (OAuthPool.usable self at_))%nat ->
  exists name p,
    OAuthPool.choose_profile now self explicit at_ms = Ok name /\
    name <> last /\
    In p (OAuthPool.usable self at_) /\ OAuthProfile.profile p = name.
Proof.
  intros now self explicit at_ms last at_ W He Hp Hs Hl Hin Hn.
  assert (St : OAuthPool.sticky_choice self at_ = None).
  { unfold OAuthPool.sticky_choice. now rewrite Hs. }
  set (srt := Py.sorted OAuthProfile.lt (OAuthPool.usable self at_)).
  assert (P : Permutation srt (OAuthPool.usable self at_))
    by apply sorted_perm.
  set (names := map OAuthProfile.profile srt).
  assert (Pn : Permutation names
                 (map OAuthProfile.profile (OAuthPool.usable self at_)))
    by (apply Permutation_map; exact P).
  assert (ND : NoDup names).
  { eapply Permutation_NoDup; [apply Permutation_sym; exact Pn|].
    unfold OAuthPool.usable. apply nodup_map_filter.
    now apply well_keyed_values_nodup. }
  assert (Ln : List.length names = List.length (OAuthPool.usable self at_)).
  { unfold names. rewrite length_map. now apply Permutation_length. }
  destruct (list_index_in last names) as [i I].
  { eapply Permutation_in; [apply Permutation_sym; exact Pn|exact Hin]. }
  destruct (list_index_some _ _ _ I) as [Ni Li].
  set (j := Nat.modulo (i + 1) (List.length names)).
  assert (Lj : (j < List.length names)%nat)
    by (apply Nat.mod_upper_bound; lia).
  destruct (nth_error names j) as [n|] eqn:Nj;
    [|apply nth_error_None in Nj; lia].
  assert (C : OAuthPool.choose_profile now self explicit at_ms = Ok n).
  { rewrite (choose_profile_sorted now self explicit at_ms He Hp St)
      by (intros U; fold at_ in U; rewrite U in Hn; simpl in Hn; lia).
    fold at_. fold srt. fold names.
    unfold OAuthPool.round_robin_choice. rewrite Hs, Hl, I.
    replace (String.eqb "round-robin" "round-robin") with true by reflexivity.
    fold j. now rewrite Nj. }
  destruct (choose_profile_sorted_pick now self explicit at_ms n He Hp St C)
    as (p & U & E).
  exists n, p. repeat split; auto.
  intros ->.
  assert (i = j).
  { apply (proj1 (NoDup_nth_error names) ND); [exact Li|congruence]. }
  subst j.
  destruct (Nat.eq_dec (i + 1) (List.length names)) as [Q|Q].
  - rewrite Q, Nat.Div0.mod_same in H. lia.
  - rewrite Nat.mod_small in H; lia.
Qed.

Lemma choose_profile_round_robin_moves_on_witness :
  exists name p,
    OAuthPool.choose_profile 0 Samples.round_robin_pool None (Some 0)
      = Ok name /\
    name <> "a" /\
    In p (OAuthPool.usable Samples.round_robin_pool 0) /\
    OAuthProfile.profile p = name.
Proof.
  apply (choose_profile_round_robin_moves_on 0 Samples.round_robin_pool None
           (Some 0) "a").
  - split.
    + repeat constructor; simpl; intuition discriminate.
    + repeat constructor.
  - reflexivity.
  - reflexivity.
  - reflexivity.
  - reflexivity.
  - simpl. now left.
  - simpl. lia.
Defined.

(** ** When nothing is usable *)

Lemma filter_all_length {A : Type} (f : A -> bool) l :
  List.length (filter f l) = List.length l <-> forall x, In x l -> f x = true.
Proof.
  induction l as [|x l IH]; simpl; [tauto|].
  pose proof (filter_length_le f l) as LE.
  destruct (f x) eqn:E; simpl.
  - split.
    + intros H y [<-|Hy]; [exact E|]. apply IH; [lia|exact Hy].
    + intros H. f_equal. apply IH. auto.
  - split; [lia|]. intros H. rewrite (H x) in E by auto. discriminate.
Qed.

Lemma wait_lt_cmp p q :
  OAuthProfile.wait_lt p q
  = is_lt (lex Z.compare String.compare (OAuthProfile.wait_key p)
             (OAuthProfile.wait_key q)).
Proof.
  unfold OAuthProfile.wait_lt, OAuthProfile.wait_key_lt, OAuthProfile.wait_key,
    lex, is_lt. cbn [fst snd].
  rewrite Z.eqb_compare, String_eqb_compare. unfold Z.ltb, String.ltb.
  destruct (Z.compare _ _); try reflexivity.
  destruct (String.compare _ _); reflexivity.
Qed.

Lemma wait_order_ok :
  order_ok (fun _ : Z * string => True /\ True)
    (lex Z.compare String.compare).
Proof.
  apply (lex_ok (fun _ : Z => True) (fun _ : string => True));
    [apply Z_compare_ok|apply String_compare_ok].
Qed.

Lemma wait_lt_asym p q :
  OAuthProfile.wait_lt p q = true -> OAuthProfile.wait_lt q p = false.
Proof.
  rewrite !wait_lt_cmp. intros H.
  apply (cmp_asym _ _ wait_order_ok); auto.
  unfold is_lt in H. now destruct (lex _ _ _ _).
Qed.

Lemma wait_nlt_trans p q r :
  OAuthProfile.wait_lt q p = false -> OAuthProfile.wait_lt r q = false ->
  OAuthProfile.wait_lt r p = false.
Proof.
  rewrite !wait_lt_cmp. apply (cmp_nlt_trans _ _ wait_order_ok); auto.
Qed.

Lemma wait_lt_irrefl p : OAuthProfile.wait_lt p p = false.
Proof.
  destruct (OAuthProfile.wait_lt p p) eqn:E; [|reflexivity].
  now rewrite (wait_lt_asym _ _ E) in E.
Qed.

(** [min(xs, key=...)] returns an element no element is strictly below. *)
Lemma min_from_least xs : forall best,
  let w := Py.min_from OAuthProfile.wait_lt best xs in
  In w (best :: xs) /\
  forall q, In q (best :: xs) -> OAuthProfile.wait_lt q w = false.
Proof.
  induction xs as [|x xs IH]; intros best; simpl.
  - split; [now left|]. intros q [<-|[]]. apply wait_lt_irrefl.
  - destruct (OAuthProfile.wait_lt x best) eqn:E.
    + destruct (IH x) as [I L]. split.
      * simpl in I. destruct I as [I|I]; auto.
      * intros q [<-|[<-|H]].
        -- apply (wait_nlt_trans _ x).
           ++ apply L. now left.
           ++ now apply wait_lt_asym.
        -- apply L. now left.
        -- apply L. now right.
    + destruct (IH best) as [I L]. split.
      * simpl in I. destruct I as [I|I]; auto.
      * intros q [<-|[<-|H]].
        -- apply L. now left.
        -- apply (wait_nlt_trans _ best); [apply L; now left|exact E].
        -- apply L. now right.
Qed.

Lemma wait_nlt_reset p q :
  OAuthProfile.wait_lt q p = false ->
  OAuthProfile.effective_reset_at_ms p <= OAuthProfile.effective_reset_at_ms q.
Proof.
  unfold OAuthProfile.wait_lt, OAuthProfile.wait_key_lt, OAuthProfile.wait_key.
  destruct (Z.eqb_spec (OAuthProfile.effective_reset_at_ms q)
              (OAuthProfile.effective_reset_at_ms p)) as [->|N]; simpl.
  - lia.
  - intros H. apply Z.ltb_ge in H. lia.
Qed.

(** X7: what [choose_profile] reports when no profile is usable, with no
    explicit and no pinned profile and a pool that is not empty.  If every
    profile is disabled the error says so.  If not, and every profile is
    rate-limited beyond the time asked for, the error names the wait target:
    a profile of the pool that no profile precedes in the order
    (resetAtMs, email), so that no profile resets earlier. *)
Theorem choose_profile_no_usable_report :
  forall (now : Z) (self : OAuthPool.t) (explicit : option string)
         (at_ms : option Z),
  let at_ := match at_ms with None => now | Some a => a end in
  Py.if_truthy explicit = None ->
  Py.if_truthy (OAuthPool.pinned_profile self) = None ->
  OAuthPool.profiles self <> [] ->
  ((forall p, In p (OAuthPool.values self) -> OAuthProfile.disabled p = true) ->
     OAuthPool.choose_profile now self explicit at_ms
       = Raise NoUsableAllDisabled) /\
  ((exists p, In p (OAuthPool.values self) /\ OAuthProfile.disabled p = false) ->
   (forall p, In p (OAuthPool.values self) ->
      at_ < OAuthProfile.until_or_0 p) ->
     exists w,
       In w (OAuthPool.values self) /\
       OAuthPool.choose_profile now self explicit at_ms
         = Raise (NoUsableAllRateLimited
                    (OAuthProfile.effective_reset_at_ms w)
                    (OAuthProfile.effective_email w)) /\
       forall q, In q (OAuthPool.values self) ->
         OAuthProfile.wait_lt q w = false /\
         OAuthProfile.effective_reset_at_ms w
           <= OAuthProfile.effective_reset_at_ms q).
Proof.
  intros now self explicit at_ms at_ He Hp NE.
  pose proof (choose_profile_none_usable now self explicit at_ms
                He Hp) as [R _].
  fold at_ in R.
  assert (Ln : List.length (OAuthPool.values self)
               = List.length (OAuthPool.profiles self))
    by (unfold OAuthPool.values; apply length_map).
  assert (Lp : List.length (OAuthPool.profiles self) <> 0%nat).
  { destruct (OAuthPool.profiles self); [congruence|simpl; lia]. }
  split.
  - intros D. rewrite R.
    + unfold OAuthPool.no_usable_error.
      assert (L : List.length (filter OAuthProfile.disabled (OAuthPool.values self))
                  = List.length (OAuthPool.profiles self)).
      { rewrite <- Ln. apply filter_all_length. exact D. }
      rewrite L, Nat.eqb_refl.
      apply Nat.eqb_neq in Lp. rewrite Lp. reflexivity.
    + unfold OAuthPool.usable.
      destruct (filter _ _) as [|p ps] eqn:F; [reflexivity|].
      assert (I : In p (filter (fun p => OAuthProfile.is_usable at_ p (Some at_))
                          (OAuthPool.values self)))
        by (rewrite F; now left).
      apply filter_In in I as [I U]. unfold OAuthProfile.is_usable in U.
      now rewrite (D p I) in U.
  - intros (e & Ie & De) Lim.
    destruct (OAuthPool.values self) as [|v vs] eqn:V;
      [simpl in Ln; lia|].
    destruct (min_from_least vs v) as [Iw Lw].
    exists (Py.min_from OAuthProfile.wait_lt v vs).
    split; [exact Iw|]. split.
    + rewrite R.
      * unfold OAuthPool.no_usable_error. rewrite V.
        assert (Ld : List.length (filter OAuthProfile.disabled (v :: vs))
                     <> List.length (OAuthPool.profiles self)).
        { rewrite <- Ln. intros Q.
          pose proof (proj1 (filter_all_length _ _) Q e Ie) as Q'.
          rewrite Q' in De. discriminate. }
        apply Nat.eqb_neq in Ld. rewrite Ld, andb_false_r.
        assert (L : List.length
                      (filter (fun p => at_ <? OAuthProfile.until_or_0 p)
                         (v :: vs))
                    = List.length (OAuthPool.profiles self)).
        { rewrite <- Ln. apply filter_all_length. intros p I.
          apply Z.ltb_lt. now apply Lim. }
        rewrite L, Nat.eqb_refl.
        apply Nat.eqb_neq in Lp. rewrite Lp. reflexivity.
      * unfold OAuthPool.usable. rewrite V.
        destruct (filter _ _) as [|p ps] eqn:F; [reflexivity|].
        assert (I : In p (filter
                            (fun p => OAuthProfile.is_usable at_ p (Some at_))
                            (v :: vs)))
          by (rewrite F; now left).
        apply filter_In in I as [I U]. unfold OAuthProfile.is_usable in U.
        destruct (OAuthProfile.disabled p); [discriminate|].
        apply Z.leb_le in U. specialize (Lim p I). lia.
    + intros q Iq. split; [now apply Lw|].
      apply wait_nlt_reset. now apply Lw.
Qed.

Lemma choose_profile_no_usable_report_witness :
  OAuthPool.choose_profile 0
    (OAuthPool.mark_rate_limited 0 "t1" "t2" Samples.single_pool "a" 1000)
    None (Some 500)
  <> Raise NoUsableAllDisabled.
Proof.
  destruct (choose_profile_no_usable_report 0
              (OAuthPool.mark_rate_limited 0 "t1" "t2" Samples.single_pool
                 "a" 1000)
              None (Some 500)) as [_ H]; try reflexivity.
  - discriminate.
  - destruct H as (w & _ & E & _).
    + eexists. split; [now left|reflexivity].
    + intros p [<-|[]]. reflexivity.
    + rewrite E. discriminate.
Defined.

(** ** What [mark_rate_limited] leaves alone *)

Lemma get_set_other ps k p other :
  other <> k -> OAuthPool.get (OAuthPool.set ps k p) other = OAuthPool.get ps other.
Proof.
  intros N. induction ps as [|[k' p'] ps IH]; simpl.
  - destruct (String.eqb_spec k other); [congruence|reflexivity].
  - destruct (String.eqb_spec k' k) as [->|N']; simpl.
    + destruct (String.eqb_spec k other); [congruence|reflexivity].
    + destruct (String.eqb k' other); [reflexivity|exact IH].
Qed.

(** X8: [mark_rate_limited] touches one profile and nothing else.  For a name
    the pool does not hold it changes nothing at all.  Otherwise the names
    and their order, every other profile, the selection settings and the
    version stay as they were, and of the marked profile only
    [rate_limited_until_ms] and [updated_at] change. *)
Theorem mark_rate_limited_frame :
  forall (now : Z) (iso_p iso_pool : string) (self : OAuthPool.t)
         (name : string) (until_ms : Z),
  let marked :=
    OAuthPool.mark_rate_limited now iso_p iso_pool self name until_ms in
  (OAuthPool.get (OAuthPool.profiles self) name = None -> marked = self) /\
  map fst (OAuthPool.profiles marked) = map fst (OAuthPool.profiles self) /\
  (forall other, other <> name ->
     OAuthPool.get (OAuthPool.profiles marked) other
     = OAuthPool.get (OAuthPool.profiles self) other) /\
  (OAuthPool.version marked, OAuthPool.selection_strategy marked,
   OAuthPool.pinned_profile marked, OAuthPool.last_used_profile marked)
  = (OAuthPool.version self, OAuthPool.selection_strategy self,
     OAuthPool.pinned_profile self, OAuthPool.last_used_profile self) /\
  (forall p, OAuthPool.get (OAuthPool.profiles self) name = Some p ->
     OAuthPool.get (OAuthPool.profiles marked) name
     = Some (OAuthProfile.set_updated_at
               (OAuthProfile.set_rate_limited_until_ms p
                  (Some (Z.max until_ms now)))
               (Some iso_p))).
Proof.
  intros now iso_p iso_pool self name until_ms marked. subst marked.
  unfold OAuthPool.mark_rate_limited.
  destruct (OAuthPool.get (OAuthPool.profiles self) name) as [p|] eqn:G.
  - split; [discriminate|]. cbn [OAuthPool.profiles OAuthPool.set_updated_at
      OAuthPool.set_profiles OAuthPool.version OAuthPool.selection_strategy
      OAuthPool.pinned_profile OAuthPool.last_used_profile].
    split; [|split; [|split]].
    + rewrite set_keys.
      unfold OAuthPool.contains. now rewrite G.
    + intros other N. now apply get_set_other.
    + reflexivity.
    + intros q [= <-]. apply get_set_same.
      unfold OAuthPool.contains. now rewrite G.
  - repeat split; auto. discriminate.
Qed.

(** ** What [rotate_after] hands out *)

Lemma usable_now_in clock p ps : forall k,
  In p (OAuthPool.usable_now clock k ps) ->
  exists i, nth_error ps i = Some p /\
            OAuthProfile.is_usable (clock (k + i)%nat) p None = true.
Proof.
  induction ps as [|q ps IH]; intros k; simpl; [tauto|].
  destruct (OAuthProfile.is_usable (clock k) q None) eqn:U.
  - intros [<-|H].
    + exists 0%nat. rewrite Nat.add_0_r. auto.
    + destruct (IH _ H) as (i & N & Ui). exists (S i).
      rewrite Nat.add_succ_r. auto.
  - intros H. destruct (IH _ H) as (i & N & Ui). exists (S i).
    rewrite Nat.add_succ_r. auto.
Qed.

Lemma first_other_in current l n :
  OAuthPool.first_other current l = Some n -> In n l /\ n <> current.
Proof.
  induction l as [|x l IH]; simpl; [discriminate|].
  destruct (String.eqb_spec x current) as [->|N]; simpl.
  - intros H. destruct (IH H). auto.
  - intros [= <-]. auto.
Qed.

(** X9: without an explicit profile, a name [rotate_after] returns is that
    of a profile of the pool that was usable when the call looked at it:
    [rotate_after] never hands out a disabled profile or one still
    rate-limited at that reading of the clock, not even when it falls back
    to the current profile. *)
Theorem rotate_after_usable :
  forall (clock : nat -> Z) (self : OAuthPool.t) (current : string)
         (explicit : option string) (name : string),
  Py.if_truthy explicit = None ->
  OAuthPool.rotate_after clock self current explicit = Ok name ->
  exists p i,
    nth_error (OAuthPool.values self) i = Some p /\
    OAuthProfile.profile p = name /\
    OAuthProfile.disabled p = false /\
    OAuthProfile.until_or_0 p <= clock i /\
    OAuthProfile.is_usable (clock i) p None = true.
Proof.
  intros clock self current explicit name He.
  unfold OAuthPool.rotate_after. rewrite He.
  set (usable := OAuthPool.usable_now clock 0 (OAuthPool.values self)).
  set (ranked := Py.sorted OAuthProfile.lt usable).
  assert (from_names : forall n, In n (map OAuthProfile.profile ranked) ->
            exists p i,
              nth_error (OAuthPool.values self) i = Some p /\
              OAuthProfile.profile p = n /\
              OAuthProfile.disabled p = false /\
              OAuthProfile.until_or_0 p <= clock i /\
              OAuthProfile.is_usable (clock i) p None = true).
  { intros n H. apply in_map_iff in H as (p & E & H).
    apply (Permutation_in _ (sorted_perm OAuthProfile.lt usable)) in H.
    apply usable_now_in in H as (i & N & U). simpl in U.
    exists p, i. repeat split; auto.
    - unfold OAuthProfile.is_usable in U.
      now destruct (OAuthProfile.disabled p).
    - unfold OAuthProfile.is_usable in U.
      destruct (OAuthProfile.disabled p); [discriminate|].
      now apply Z.leb_le. }
  destruct usable as [|u us] eqn:U; [discriminate|].
  fold ranked.
  destruct (Py.str_in current (map OAuthProfile.profile ranked)) eqn:C; simpl.
  - destruct (OAuthPool.first_other current _) as [n|] eqn:F.
    + intros [= <-]. apply from_names. now apply first_other_in in F.
    + intros [= <-]. apply from_names. now apply str_in_true.
  - destruct (map OAuthProfile.profile ranked) as [|n ns] eqn:M;
      [discriminate|].
    intros [= <-]. apply from_names. now left.
Qed.

Lemma rotate_after_usable_witness :
  exists p i,
    nth_error (OAuthPool.values Samples.tie_pool) i = Some p /\
    OAuthProfile.profile p = "p1" /\
    OAuthProfile.disabled p = false /\
    OAuthProfile.until_or_0 p <= 0 /\
    OAuthProfile.is_usable 0 p None = true.
Proof.
  apply (rotate_after_usable (fun _ => 0) Samples.tie_pool "p2" None "p1");
    reflexivity.
Defined.

(** ** Pools on disk *)

Lemma as_nonempty_of_opt o :
  o <> Some "" -> Json.as_nonempty_str (Json.of_opt_str o) = o.
Proof.
  destruct o as [[|c s]|]; simpl; auto. congruence.
Qed.

Lemma as_str_of_opt o : Json.as_str (Json.of_opt_str o) = o.
Proof. now destruct o. Qed.

Lemma as_int_of_opt o : Json.as_int (Json.of_opt_int o) = o.
Proof. now destruct o. Qed.

Lemma as_float_of_opt o : Json.as_float (Json.of_opt_float o) = Ok o.
Proof. now destruct o. Qed.

Lemma str_or_default repr s d :
  Json.str repr (Json.or_ (JStr s) (JStr d)) = if Py.str_truthy s then s else d.
Proof. unfold Json.or_. simpl. now destruct (Py.str_truthy s). Qed.

Lemma int_or_default z d :
  Json.int (Json.or_ (JInt z) (JInt d)) = Ok (if z =? 0 then d else z).
Proof. unfold Json.or_. simpl. now destruct (z =? 0). Qed.

Lemma truthy_or_empty s : (if Py.str_truthy s then s else "") = s.
Proof. now destruct s. Qed.

Lemma zero_or_zero z : (if z =? 0 then 0 else z) = z.
Proof. now destruct (Z.eqb_spec z 0). Qed.

Lemma bool_or_false b : Json.truthy (Json.or_ (JBool b) (JBool false)) = b.
Proof. now destruct b. Qed.

Lemma profile_from_to_json repr iso p k fields :
  OAuthProfile.to_json iso p = JDict fields ->
  OAuthProfile.profile p = k ->
  no_empty_text p ->
  OAuthProfile.from_json repr (Py.dict_update [("profile", JStr k)] fields)
  = Ok (stamped iso p).
Proof.
  intros T K (He & Hp & Hl). unfold OAuthProfile.to_json in T.
  injection T as <-. subst k.
  unfold OAuthProfile.from_json.
  set (obj := Py.dict_update _ _).
  replace (Json.get obj "profile") with (JStr (OAuthProfile.profile p))
    by reflexivity.
  replace (Json.get obj "email")
    with (Json.of_opt_str (OAuthProfile.email p)) by reflexivity.
  replace (Json.get obj "accountId")
    with (Json.of_opt_str (OAuthProfile.account_id p)) by reflexivity.
  replace (Json.get obj "issuer")
    with (Json.of_opt_str (OAuthProfile.issuer p)) by reflexivity.
  replace (Json.get obj "clientId")
    with (Json.of_opt_str (OAuthProfile.client_id p)) by reflexivity.
  replace (Json.get obj "accessToken")
    with (JStr (OAuthProfile.access_token p)) by reflexivity.
  replace (Json.get obj "refreshToken")
    with (JStr (OAuthProfile.refresh_token p)) by reflexivity.
  replace (Json.get obj "expiresAtMs")
    with (JInt (OAuthProfile.expires_at_ms p)) by reflexivity.
  replace (Json.get obj "remaining")
    with (Json.of_opt_float (OAuthProfile.remaining p)) by reflexivity.
  replace (Json.get obj "resetAtMs")
    with (Json.of_opt_int (OAuthProfile.reset_at_ms p)) by reflexivity.
  replace (Json.get obj "provider")
    with (Json.of_opt_str (OAuthProfile.provider p)) by reflexivity.
  replace (Json.get obj "lastSeenAt")
    with (Json.of_opt_str (OAuthProfile.last_seen_at p)) by reflexivity.
  replace (Json.get obj "rateLimitedUntilMs")
    with (Json.of_opt_int (OAuthProfile.rate_limited_until_ms p))
    by reflexivity.
  replace (Json.get obj "disabled")
    with (JBool (OAuthProfile.disabled p)) by reflexivity.
  replace (Json.get obj "updatedAt")
    with (JStr match Py.if_truthy (OAuthProfile.updated_at p) with
               | Some u => u
               | None => iso
               end) by reflexivity.
  clear obj.
  rewrite !str_or_default, int_or_default, !as_nonempty_of_opt by assumption.
  rewrite !as_str_of_opt, !as_int_of_opt, as_float_of_opt.
  rewrite !truthy_or_empty, zero_or_zero, bool_or_false.
  cbn [bind Json.as_str]. unfold stamped, OAuthProfile.set_updated_at.
  reflexivity.
Qed.

(** X10: a profile written by [to_json] and read back by [from_json] is the
    same profile, stamped with the time of writing where [updated_at] was
    unset or empty, provided none of [email], [provider] and [last_seen_at]
    is the empty string (which [from_json] reads as unset). *)
Theorem profile_json_round_trip :
  forall (repr : json -> string) (iso : string) (p : OAuthProfile.t),
  no_empty_text p ->
  OAuthProfile.from_json repr (Json.as_dict (OAuthProfile.to_json iso p))
  = Ok (stamped iso p).
Proof.
  intros repr iso p H.
  rewrite <- (profile_from_to_json repr iso p (OAuthProfile.profile p)
                (Json.as_dict (OAuthProfile.to_json iso p)));
    try reflexivity; exact H.
Qed.

Lemma profile_json_round_trip_witness :
  OAuthProfile.from_json Samples.no_repr
    (Json.as_dict
       (OAuthProfile.to_json "2026-01-01T00:00:00Z"
          (Samples.profile "a" "a@example.com" 100 1000)))
  = Ok (stamped "2026-01-01T00:00:00Z"
          (Samples.profile "a" "a@example.com" 100 1000)).
Proof.
  apply (profile_json_round_trip Samples.no_repr "2026-01-01T00:00:00Z"
           (Samples.profile "a" "a@example.com" 100 1000)).
  repeat split; discriminate.
Defined.

Lemma stamped_same iso p :
  Py.if_truthy (OAuthProfile.updated_at p) = OAuthProfile.updated_at p ->
  OAuthProfile.updated_at p <> None ->
  stamped iso p = p.
Proof.
  unfold stamped, OAuthProfile.set_updated_at. intros E N. rewrite E.
  destruct p as [? ? ? ? ? ? ? ? ? ? ? ? ? ? [u|]]; simpl in *; congruence.
Qed.

Lemma set_new ps k p :
  ~ In k (map fst ps) -> OAuthPool.set ps k p = (ps ++ [(k, p)])%list.
Proof.
  induction ps as [|[k' p'] ps IH]; simpl; [reflexivity|].
  intros N. destruct (String.eqb_spec k' k) as [->|_]; [tauto|].
  rewrite IH by tauto. reflexivity.
Qed.

Lemma profiles_from_json_saved repr iso ps : forall acc,
  NoDup (map fst acc ++ map fst ps) ->
  Forall (fun kv => OAuthProfile.profile (snd kv) = fst kv /\
                    Py.str_truthy (fst kv) = true) ps ->
  Forall (fun kv => no_empty_text (snd kv) /\
                    Py.if_truthy (OAuthProfile.updated_at (snd kv))
                    = OAuthProfile.updated_at (snd kv) /\
                    OAuthProfile.updated_at (snd kv) <> None) ps ->
  OAuthPool.profiles_from_json repr
    (map (fun kv => (fst kv, OAuthProfile.to_json iso (snd kv))) ps) acc
  = Ok (acc ++ ps)%list.
Proof.
  induction ps as [|[k p] ps IH]; intros acc ND K C.
  - simpl. now rewrite app_nil_r.
  - apply Forall_cons_iff in K as [[Kp Kt] K].
    apply Forall_cons_iff in C as [(Ce & Cu & Cn) C].
    simpl in Kp, Kt, Ce, Cu, Cn.
    cbn [map OAuthPool.profiles_from_json fst snd].
    unfold OAuthProfile.to_json at 1. cbv iota beta.
    rewrite (profile_from_to_json repr iso p k _ eq_refl Kp Ce).
    rewrite (stamped_same iso p Cu Cn). cbn [bind]. rewrite Kp, Kt.
    assert (N : ~ In k (map fst acc)).
    { intros I. apply NoDup_remove_2 in ND. apply ND.
      apply in_or_app. now left. }
    rewrite set_new by exact N.
    rewrite IH; auto.
    + now rewrite <- app_assoc.
    + rewrite map_app. simpl. rewrite <- app_assoc. exact ND.
Qed.

(** X11: a canonical pool survives the disk: what [load_pool] reads from the
    file [save_pool] wrote is the pool that was saved, with every profile,
    its order and the selection settings. *)
Theorem save_load_round_trip :
  forall (repr : json -> string) (iso iso' : string) (pool : OAuthPool.t),
  canonical pool ->
  PoolFile.load_pool repr iso' (PoolFile.save_pool iso pool) = Ok pool.
Proof.
  intros repr iso iso' pool (Hv & Hp & Hu & Hs & [ND K] & C).
  unfold PoolFile.save_pool, PoolFile.load_pool, OAuthPool.to_json.
  unfold OAuthPool.from_json.
  set (obj := [("version", _); _; _; _; _; _; _; _; _]).
  replace (Json.get obj "selection")
    with (JDict [ ("strategy", JStr (OAuthPool.selection_strategy pool));
                  ("pinnedProfile",
                   Json.of_opt_str (OAuthPool.pinned_profile pool));
                  ("lastUsedProfile",
                   Json.of_opt_str (OAuthPool.last_used_profile pool)) ])
    by reflexivity.
  replace (Json.get obj "profiles")
    with (JDict (map (fun kv => (fst kv, OAuthProfile.to_json iso (snd kv)))
                     (OAuthPool.profiles pool))) by reflexivity.
  replace (Json.get obj "version") with (JInt (OAuthPool.version pool))
    by reflexivity.
  replace (Json.get obj "provider") with (JStr (OAuthPool.provider pool))
    by reflexivity.
  replace (Json.get obj "updatedAt") with (JStr (OAuthPool.updated_at pool))
    by reflexivity.
  replace (Json.get obj "issuer")
    with (Json.of_opt_str (OAuthPool.issuer pool)) by reflexivity.
  replace (Json.get obj "clientId")
    with (Json.of_opt_str (OAuthPool.client_id pool)) by reflexivity.
  replace (Json.get obj "model")
    with (Json.of_opt_str (OAuthPool.model pool)) by reflexivity.
  replace (Json.get obj "codexEndpoint")
    with (Json.of_opt_str (OAuthPool.codex_endpoint pool)) by reflexivity.
  clear obj. cbn [Json.as_dict].
  set (sel := [("strategy", _); _; _]).
  replace (Json.get sel "strategy")
    with (JStr (OAuthPool.selection_strategy pool)) by reflexivity.
  replace (Json.get sel "pinnedProfile")
    with (Json.of_opt_str (OAuthPool.pinned_profile pool)) by reflexivity.
  replace (Json.get sel "lastUsedProfile")
    with (Json.of_opt_str (OAuthPool.last_used_profile pool)) by reflexivity.
  clear sel.
  rewrite (profiles_from_json_saved repr iso (OAuthPool.profiles pool) [])
    by assumption.
  cbn [bind app].
  rewrite int_or_default, !str_or_default, !as_str_of_opt, Hp, Hu, Hs.
  destruct (Z.eqb_spec (OAuthPool.version pool) 0) as [E|_]; [contradiction|].
  cbn [bind]. now destruct pool.
Qed.

Lemma save_load_round_trip_witness :
  PoolFile.load_pool Samples.no_repr "2026-02-02T00:00:00Z"
    (PoolFile.save_pool "2026-01-01T00:00:00Z"
       (OAuthPool.mark_rate_limited 0 "2026-01-01T00:00:00Z"
          "2026-01-01T00:00:00Z" Samples.single_pool "a" 1000))
  = Ok (OAuthPool.mark_rate_limited 0 "2026-01-01T00:00:00Z"
          "2026-01-01T00:00:00Z" Samples.single_pool "a" 1000).
Proof.
  apply (save_load_round_trip Samples.no_repr "2026-01-01T00:00:00Z"
           "2026-02-02T00:00:00Z").
  split; [discriminate|]. split; [reflexivity|]. split; [reflexivity|].
  split; [reflexivity|]. split.
  - split.
    + repeat constructor; simpl; intuition discriminate.
    + repeat constructor.
  - repeat constructor; discriminate.
Defined.

(** ** [list_profiles] and [upsert_profile] *)

Lemma string_ltb_cmp a b : String.ltb a b = is_lt (String.compare a b).
Proof. reflexivity. Qed.

(** X12: [list_profiles] returns the names of the pool, each as often as
    the pool holds it, in ascending order. *)
Theorem list_profiles_sorted :
  forall (self : OAuthPool.t),
  Permutation (OAuthPool.list_profiles self)
              (map fst (OAuthPool.profiles self)) /\
  StronglySorted (fun a b => String.ltb b a = false)
                 (OAuthPool.list_profiles self) /\
  (forall name,
     In name (OAuthPool.list_profiles self) <->
     OAuthPool.contains (OAuthPool.profiles self) name = true).
Proof.
  intros self. unfold OAuthPool.list_profiles.
  assert (P : Permutation (Py.sorted String.ltb (map fst (OAuthPool.profiles self)))
                          (map fst (OAuthPool.profiles self)))
    by apply sorted_perm.
  split; [exact P|]. split.
  - apply (sorted_sorted String.ltb (fun _ => True)).
    + intros x y _ _. rewrite !string_ltb_cmp. intros H.
      apply (cmp_asym _ _ String_compare_ok); auto.
      unfold is_lt in H. now destruct (String.compare x y).
    + intros x y z _ _ _. rewrite !string_ltb_cmp.
      apply (cmp_nlt_trans _ _ String_compare_ok); auto.
    + apply Forall_forall. auto.
  - intros name. rewrite contains_keys. split; intros H.
    + eapply Permutation_in; eauto.
    + eapply Permutation_in; [apply Permutation_sym|]; eauto.
Qed.

Lemma get_set_eq ps k p : OAuthPool.get (OAuthPool.set ps k p) k = Some p.
Proof.
  induction ps as [|[k' p'] ps IH]; simpl.
  - now rewrite String.eqb_refl.
  - destruct (String.eqb k' k) eqn:E; simpl; rewrite E; auto.
Qed.

(** X13: when [upsert_profile] returns, the pool it read had version 1; the
    pool it returns and has written to the file stores the given profile
    under its own name, has that name as last used profile, keeps every
    other profile as it was read, and is stored under own names when the
    new name is not empty. *)
Theorem upsert_profile_stores :
  forall (repr : json -> string) (iso : string) (file file' : file_content)
         (profile : OAuthProfile.t) (pool_fields : list (string * option string))
         (pool : OAuthPool.t) (name : string),
  PoolFile.upsert_profile repr iso file profile pool_fields
    = Ok (pool, name, file') ->
  name = OAuthProfile.profile profile /\
  file' = PoolFile.save_pool iso pool /\
  stored pool name profile /\
  OAuthPool.last_used_profile pool = Some name /\
  OAuthPool.updated_at pool = iso /\
  OAuthPool.version pool = 1 /\
  exists old,
    PoolFile.load_pool repr iso file = Ok old /\
    OAuthPool.version old = 1 /\
    OAuthPool.profiles pool = OAuthPool.set (OAuthPool.profiles old) name profile /\
    (forall other, other <> name ->
       OAuthPool.get (OAuthPool.profiles pool) other
       = OAuthPool.get (OAuthPool.profiles old) other) /\
    (Py.str_truthy name = true -> well_keyed (OAuthPool.profiles pool)).
Proof.
  intros repr iso file file' profile pool_fields pool name.
  unfold PoolFile.upsert_profile.
  destruct (PoolFile.load_pool repr iso file) as [old|e] eqn:L;
    [|discriminate].
  cbn [bind].
  destruct (Z.eqb_spec (OAuthPool.version old) 1) as [V|V]; [|discriminate].
  cbn [negb]. intros [= <- <- <-].
  cbn [OAuthPool.mark_used OAuthPool.set_updated_at
       OAuthPool.set_last_used_profile OAuthPool.profiles
       OAuthPool.last_used_profile OAuthPool.updated_at OAuthPool.version].
  unfold stored.
  cbn [OAuthPool.mark_used OAuthPool.set_updated_at
       OAuthPool.set_last_used_profile OAuthPool.profiles
       OAuthPool.last_used_profile OAuthPool.updated_at OAuthPool.version].
  repeat split; auto using get_set_eq.
  exists old. split; [reflexivity|]. split; [exact V|].
  split; [reflexivity|]. split.
  - intros other N. now apply get_set_other.
  - intros T. apply set_well_keyed; auto.
    eapply load_pool_well_keyed_aux; eauto.
Qed.

Lemma upsert_profile_stores_witness :
  exists pool file',
    PoolFile.upsert_profile Samples.no_repr "2026-01-01T00:00:00Z" Absent
      (Samples.profile "b" "b@example.com" 1 1) []
    = Ok (pool, "b", file') /\
    stored pool "b" (Samples.profile "b" "b@example.com" 1 1) /\
    OAuthPool.last_used_profile pool = Some "b".
Proof.
  eexists. eexists. split; [reflexivity|].
  destruct (upsert_profile_stores Samples.no_repr "2026-01-01T00:00:00Z"
              Absent _ (Samples.profile "b" "b@example.com" 1 1) [] _ "b"
              eq_refl) as (_ & _ & S & L & _).
  split; [exact S|exact L].
Defined.

(* ------------------------------------------------------------------ *)
(** * Part IV: further properties of the framing                       *)
(* ------------------------------------------------------------------ *)

Lemma find_after c sep a b :
  all_chars (fun x => negb (Ascii.eqb x c)) a = true ->
  Py.find (String c sep) (a ++ b)
  = option_map (Nat.add (String.length a)) (Py.find (String c sep) b).
Proof.
  induction a as [|x a IH]; intros N.
  - simpl. now destruct (Py.find (String c sep) b).
  - simpl in N. apply andb_prop in N as [Nx Na].
    cbn [append Py.find]. rewrite prefix_cons.
    replace (Ascii.eqb c x) with false
      by (rewrite Ascii.eqb_sym; now destruct (Ascii.eqb x c)).
    cbn [andb]. rewrite (IH Na).
    destruct (Py.find (String c sep) b); reflexivity.
Qed.

Lemma take_app_more a b k :
  Py.take (String.length a + k) (a ++ b) = (a ++ Py.take k b)%string.
Proof. induction a as [|x a IH]; simpl; [reflexivity|]. now rewrite IH. Qed.

Lemma take_app_less a b : forall n,
  (n <= String.length a)%nat -> Py.take n (a ++ b) = Py.take n a.
Proof.
  induction a as [|x a IH]; intros n L; simpl in *.
  - assert (n = 0)%nat by lia. subst. now destruct b.
  - destruct n; [reflexivity|]. simpl. rewrite IH by lia. reflexivity.
Qed.

Lemma all_chars_take p s : forall n,
  all_chars p s = true -> all_chars p (Py.take n s) = true.
Proof.
  induction s as [|x s IH]; intros n H.
  - now destruct n.
  - simpl in H. apply andb_prop in H as [Hx Hs]. destruct n; [reflexivity|].
    simpl. rewrite Hx. now apply IH.
Qed.

Lemma length_take s : forall n,
  (n <= String.length s)%nat -> String.length (Py.take n s) = n.
Proof.
  induction s as [|x s IH]; intros n L; simpl in *.
  - assert (n = 0)%nat by lia. now subst.
  - destruct n; [reflexivity|]. simpl. rewrite IH; lia.
Qed.

Lemma drop_app_more a b k :
  Py.drop (String.length a + k) (a ++ b) = Py.drop k b.
Proof. induction a as [|x a IH]; simpl; auto. Qed.

(** The slice of a buffer behind a prefix of known length. *)
Lemma slice_behind a b k :
  (k <= String.length b)%nat ->
  Py.slice (a ++ b) (Z.of_nat (String.length a))
    (Z.of_nat (String.length a) + Z.of_nat k) = Py.take k b.
Proof.
  intros L. unfold Py.slice, Py.slice_index.
  replace (Z.of_nat (String.length a) <? 0) with false
    by (symmetry; apply Z.ltb_ge; lia).
  replace (Z.of_nat (String.length a) + Z.of_nat k <? 0) with false
    by (symmetry; apply Z.ltb_ge; lia).
  rewrite length_append.
  replace (Z.to_nat (Z.min (Z.of_nat (String.length a)) _))
    with (String.length a + 0)%nat by lia.
  replace (Z.to_nat (Z.min _ _) - (String.length a + 0))%nat with k by lia.
  rewrite drop_app_more. reflexivity.
Qed.

Lemma slice_from_behind a b k :
  (k <= String.length b)%nat ->
  Py.slice_from (a ++ b) (Z.of_nat (String.length a) + Z.of_nat k)
  = Py.drop k b.
Proof.
  intros L. unfold Py.slice_from, Py.slice_index.
  replace (Z.of_nat (String.length a) + Z.of_nat k <? 0) with false
    by (symmetry; apply Z.ltb_ge; lia).
  rewrite length_append.
  replace (Z.to_nat (Z.min _ _)) with (String.length a + k)%nat by lia.
  apply drop_app_more.
Qed.

Section Frames.
Variable float_repr : spec_float -> string.
Variable json_loads : string -> result json.

Local Abbreviation header V :=
  ("Content-Length: "
   ++ Py.str_of_nat (String.length (Json.dumps float_repr V)))%string.

(** The parser on a buffer that holds the header of [V], the separator and
    [tail]: it waits while [tail] is shorter than the body announced, and
    cuts the body off [tail] otherwise. *)
Lemma try_parse_one_header V tail :
  McpStdio._try_parse_one json_loads
    (header V ++ McpStdio.HEADER_SEPARATOR ++ tail)
  = let n := String.length (Json.dumps float_repr V) in
    if (String.length tail <? n)%nat
    then Ok (None, (header V ++ McpStdio.HEADER_SEPARATOR ++ tail)%string)
    else do v <- json_loads (Py.take n tail); Ok (Some v, Py.drop n tail).
Proof.
  set (H := header V). set (n := String.length (Json.dumps float_repr V)).
  set (buffer := (H ++ McpStdio.HEADER_SEPARATOR ++ tail)%string).
  assert (NC : all_chars (fun c => negb (Ascii.eqb c Json.char_cr)) H = true)
    by apply header_no_cr.
  assert (FI : Py.find McpStdio.HEADER_SEPARATOR buffer
               = Some (String.length H))
    by (apply (find_first Json.char_cr); exact NC).
  assert (TK : Py.take (String.length H) buffer = H) by apply take_app.
  assert (CL : McpStdio.content_length
                 (Py.split McpStdio.crlf (Py.take (String.length H) buffer))
               = Some (Z.of_nat n)).
  { rewrite TK. unfold McpStdio.crlf. rewrite split_no_sep by exact NC.
    unfold H. rewrite header_content_length. apply int_of_str_of_nat. }
  assert (LB : String.length buffer
               = (String.length H + 4 + String.length tail)%nat).
  { unfold buffer. rewrite !length_append.
    change (String.length McpStdio.HEADER_SEPARATOR) with 4%nat. lia. }
  unfold McpStdio._try_parse_one. rewrite FI, CL.
  change (String.length McpStdio.HEADER_SEPARATOR) with 4%nat.
  cbv zeta. destruct (Nat.ltb_spec (String.length tail) n) as [S|S].
  - replace (Z.of_nat (String.length buffer)
             <? Z.of_nat (String.length H) + Z.of_nat 4 + Z.of_nat n)
      with true by (symmetry; apply Z.ltb_lt; lia).
    reflexivity.
  - replace (Z.of_nat (String.length buffer)
             <? Z.of_nat (String.length H) + Z.of_nat 4 + Z.of_nat n)
      with false by (symmetry; apply Z.ltb_ge; lia).
    assert (E : buffer = ((H ++ McpStdio.HEADER_SEPARATOR) ++ tail)%string)
      by (unfold buffer; now rewrite append_assoc).
    assert (LS : Z.of_nat (String.length H) + Z.of_nat 4
                 = Z.of_nat (String.length (H ++ McpStdio.HEADER_SEPARATOR))).
    { rewrite length_append.
      change (String.length McpStdio.HEADER_SEPARATOR) with 4%nat. lia. }
    rewrite LS, E, slice_behind, slice_from_behind by lia. reflexivity.
Qed.

Lemma parse_frame_rest V rest :
  json_loads (Json.dumps float_repr V) = Ok V ->
  McpStdio._try_parse_one json_loads
    (McpStdio.encode_message float_repr V ++ rest)
  = Ok (Some V, rest).
Proof.
  intros RT. rewrite encode_message_shape.
  rewrite (append_assoc (header V)), (append_assoc McpStdio.HEADER_SEPARATOR).
  rewrite try_parse_one_header. cbv zeta. rewrite length_append.
  replace (_ <? _)%nat with false by (symmetry; apply Nat.ltb_ge; lia).
  rewrite take_app, drop_app, RT. reflexivity.
Qed.

Lemma parse_frame_partial V n :
  (n < String.length (McpStdio.encode_message float_repr V))%nat ->
  McpStdio._try_parse_one json_loads
    (Py.take n (McpStdio.encode_message float_repr V))
  = Ok (None, Py.take n (McpStdio.encode_message float_repr V)).
Proof.
  rewrite encode_message_shape.
  rewrite (length_append (header V)),
    (length_append McpStdio.HEADER_SEPARATOR).
  change (String.length McpStdio.HEADER_SEPARATOR) with 4%nat. intros L.
  assert (NC : all_chars (fun c => negb (Ascii.eqb c Json.char_cr))
                 (header V) = true)
    by apply header_no_cr.
  destruct (Nat.le_gt_cases (String.length (header V) + 4) n) as [G|G].
  - (* the header is there, the body is not *)
    replace n with (String.length (header V ++ McpStdio.HEADER_SEPARATOR)
                    + (n - (String.length (header V) + 4)))%nat at 1 2
      by (rewrite length_append;
          change (String.length McpStdio.HEADER_SEPARATOR) with 4%nat; lia).
    rewrite <- append_assoc, take_app_more, append_assoc.
    rewrite try_parse_one_header. cbv zeta.
    rewrite length_take by lia.
    replace (_ <? _)%nat with true by (symmetry; apply Nat.ltb_lt; lia).
    reflexivity.
  - (* the separator is not there in full *)
    unfold McpStdio._try_parse_one.
    replace (Py.find McpStdio.HEADER_SEPARATOR _) with (@None nat);
      [reflexivity|].
    symmetry.
    destruct (Nat.le_gt_cases n (String.length (header V))) as [S|S].
    + rewrite take_app_less by exact S.
      apply find_none. now apply all_chars_take.
    + replace n with (String.length (header V)
                      + (n - String.length (header V)))%nat at 1 by lia.
      rewrite take_app_more.
      change McpStdio.HEADER_SEPARATOR
        with (String Json.char_cr (String Json.char_lf McpStdio.crlf)).
      rewrite find_after by exact NC.
      assert (K : (n - String.length (header V) = 1
                   \/ n - String.length (header V) = 2
                   \/ n - String.length (header V) = 3)%nat) by lia.
      destruct K as [->|[->| ->]]; reflexivity.
Qed.

(** X14: a frame followed by more bytes.  When [json.loads] gives back [V] from
    the text [json.dumps] writes for it, the parser applied to the frame of
    [V] followed by any bytes [rest] yields [V] and leaves exactly [rest]:
    it never reads into the next frame and never leaves part of the body
    behind. *)
Theorem try_parse_one_leaves_rest :
  forall (V : json) (rest : string),
  json_loads (Json.dumps float_repr V) = Ok V ->
  McpStdio._try_parse_one json_loads
    (McpStdio.encode_message float_repr V ++ rest)
  = Ok (Some V, rest).
Proof. exact parse_frame_rest. Qed.

(** X15: a frame that has not arrived in full.  On every proper prefix of a frame
    the parser reports that no message is complete and returns the buffer
    unchanged, whatever [json.loads] does: nothing is parsed or dropped
    before the last byte of the body is there. *)
Theorem try_parse_one_waits :
  forall (V : json) (n : nat),
  (n < String.length (McpStdio.encode_message float_repr V))%nat ->
  McpStdio._try_parse_one json_loads
    (Py.take n (McpStdio.encode_message float_repr V))
  = Ok (None, Py.take n (McpStdio.encode_message float_repr V)).
Proof. exact parse_frame_partial. Qed.

Lemma frame_not_empty V :
  (1 <= String.length (McpStdio.encode_message float_repr V))%nat.
Proof.
  rewrite encode_message_shape, !length_append.
  change (String.length McpStdio.HEADER_SEPARATOR) with 4%nat. lia.
Qed.

Lemma frames_length msgs :
  (List.length msgs <= String.length (McpStdio.frames float_repr msgs))%nat.
Proof.
  induction msgs as [|m msgs IH]; [simpl; lia|].
  cbn [McpStdio.frames fold_right List.length].
  rewrite length_append. pose proof (frame_not_empty m).
  fold (McpStdio.frames float_repr msgs). lia.
Qed.

(** The loop over a buffer of whole frames: the messages with another id
    are passed, then the parser sees [tail]. *)
Lemma parse_buffered_skips want others : forall fuel tail,
  (forall x, In x others -> json_loads (Json.dumps float_repr x) = Ok x) ->
  Forall (fun x => x <> JNull /\ McpStdio.has_id x want = false) others ->
  McpStdio.parse_buffered json_loads (List.length others + fuel) want
    (McpStdio.frames float_repr others ++ tail)
  = McpStdio.parse_buffered json_loads fuel want tail.
Proof.
  induction others as [|x others IH]; intros fuel tail RT F; [reflexivity|].
  apply Forall_cons_iff in F as [[Nx Hx] F].
  cbn [McpStdio.frames fold_right List.length Nat.add
       McpStdio.parse_buffered].
  fold (McpStdio.frames float_repr others).
  rewrite append_assoc, parse_frame_rest by (apply RT; now left).
  rewrite Hx. destruct x; try congruence; apply IH; auto;
    intros y I; apply RT; now right.
Qed.

(** X16: the inner loop of [_read_response] on a buffer of whole frames.  When
    [json.loads] gives back each message from its text, the messages in
    front are none of them [null] and carry other ids, and [m] carries the
    wanted id, the loop passes the messages in front, returns [m] and leaves
    behind exactly the bytes after the frame of [m]. *)
Theorem read_buffered_returns_match :
  forall (want : Z) (others : list json) (m : json) (rest : string),
  (forall x, In x (others ++ [m])%list ->
     json_loads (Json.dumps float_repr x) = Ok x) ->
  Forall (fun x => x <> JNull /\ McpStdio.has_id x want = false) others ->
  McpStdio.has_id m want = true ->
  McpStdio._read_buffered json_loads want
    (McpStdio.frames float_repr others
     ++ McpStdio.encode_message float_repr m ++ rest)
  = Some (Ok (Some m, rest)).
Proof.
  intros want others m rest RT F Hm. unfold McpStdio._read_buffered.
  set (buf := (McpStdio.frames float_repr others ++ _)%string).
  assert (L : (List.length others + 1 <= String.length buf)%nat).
  { unfold buf. rewrite !length_append.
    pose proof (frames_length others). pose proof (frame_not_empty m). lia. }
  replace (S (String.length buf))
    with (List.length others + S (String.length buf - List.length others))%nat
    by lia.
  unfold buf. rewrite parse_buffered_skips; auto.
  - cbn [McpStdio.parse_buffered].
    rewrite parse_frame_rest by (apply RT, in_or_app; right; now left).
    rewrite Hm. destruct m; try discriminate; reflexivity.
  - intros x I. apply RT, in_or_app. now left.
Qed.

(** X17: the inner loop of [_read_response] when the answer has not arrived in
    full.  With whole frames of other ids in front and a proper prefix of a
    frame behind them, the loop passes the whole frames, returns no message
    and keeps exactly the unfinished frame for the next read. *)
Theorem read_buffered_keeps_partial :
  forall (want : Z) (others : list json) (V : json) (n : nat),
  (forall x, In x others -> json_loads (Json.dumps float_repr x) = Ok x) ->
  Forall (fun x => x <> JNull /\ McpStdio.has_id x want = false) others ->
  (n < String.length (McpStdio.encode_message float_repr V))%nat ->
  McpStdio._read_buffered json_loads want
    (McpStdio.frames float_repr others
     ++ Py.take n (McpStdio.encode_message float_repr V))
  = Some (Ok (None, Py.take n (McpStdio.encode_message float_repr V))).
Proof.
  intros want others V n RT F L. unfold McpStdio._read_buffered.
  set (buf := (McpStdio.frames float_repr others ++ _)%string).
  assert (Lb : (List.length others <= String.length buf)%nat).
  { unfold buf. rewrite !length_append.
    pose proof (frames_length others). lia. }
  replace (S (String.length buf))
    with (List.length others + S (String.length buf - List.length others))%nat
    by lia.
  unfold buf. rewrite parse_buffered_skips; auto.
  cbn [McpStdio.parse_buffered].
  now rewrite parse_frame_partial.
Qed.

End Frames.

Lemma try_parse_one_leaves_rest_witness :
  McpStdio._try_parse_one Samples.loads_empty_object
    (McpStdio.encode_message Samples.float_repr0 (JDict [])
     ++ "Content-Length: 2")
  = Ok (Some (JDict []), "Content-Length: 2").
Proof.
  apply (try_parse_one_leaves_rest Samples.float_repr0
           Samples.loads_empty_object (JDict []) "Content-Length: 2").
  reflexivity.
Defined.

Lemma try_parse_one_waits_witness :
  McpStdio._try_parse_one Samples.loads_empty_object
    (Py.take 21 (McpStdio.encode_message Samples.float_repr0 (JDict [])))
  = Ok (None,
        Py.take 21 (McpStdio.encode_message Samples.float_repr0 (JDict []))).
Proof.
  apply (try_parse_one_waits Samples.float_repr0 Samples.loads_empty_object
           (JDict []) 21).
  vm_compute. lia.
Defined.

Lemma read_buffered_returns_match_witness :
  McpStdio._read_buffered Samples.loads_ids 2
    (McpStdio.frames Samples.float_repr0 [Samples.with_id 1]
     ++ McpStdio.encode_message Samples.float_repr0 (Samples.with_id 2)
     ++ "Content-")
  = Some (Ok (Some (Samples.with_id 2), "Content-")).
Proof.
  apply (read_buffered_returns_match Samples.float_repr0 Samples.loads_ids 2
           [Samples.with_id 1] (Samples.with_id 2) "Content-").
  - intros x [<-|[<-|[]]]; reflexivity.
  - repeat constructor; discriminate.
  - reflexivity.
Defined.

Lemma read_buffered_keeps_partial_witness :
  McpStdio._read_buffered Samples.loads_ids 2
    (McpStdio.frames Samples.float_repr0 [Samples.with_id 1]
     ++ Py.take 25 (McpStdio.encode_message Samples.float_repr0
                      (Samples.with_id 2)))
  = Some (Ok (None,
              Py.take 25 (McpStdio.encode_message Samples.float_repr0
                            (Samples.with_id 2)))).
Proof.
  apply (read_buffered_keeps_partial Samples.float_repr0 Samples.loads_ids 2
           [Samples.with_id 1] (Samples.with_id 2) 25).
  - intros x [<-|[]]. reflexivity.
  - repeat constructor; discriminate.
  - vm_compute. lia.
Defined.

(* ------------------------------------------------------------------ *)
(** * Part V: further properties of the dispatch loop                  *)
(* ------------------------------------------------------------------ *)

(** ** The script *)

Lemma in_script_log E s e : in_script s -> in_script (RunSmoke.log E s e).
Proof. exact (fun H => H). Qed.

Lemma in_script_say s ms : in_script s -> in_script (RunSmoke.say s ms).
Proof. exact (fun H => H). Qed.

Lemma in_script_strike s : in_script s -> in_script (RunSmoke.strike s).
Proof. exact (fun H => H). Qed.

Lemma in_script_set_mapping s m :
  in_script s -> in_script (RunSmoke.set_mapping s m).
Proof. exact (fun H => H). Qed.

Lemma in_script_set_workflow s w :
  in_script s -> in_script (RunSmoke.set_workflow s w).
Proof. exact (fun H => H). Qed.

Lemma firstn_snoc_in {A : Type} (l : list A) x n :
  (n <= List.length l)%nat -> firstn n (l ++ [x]) = firstn n l.
Proof. intros L. rewrite firstn_app. replace (n - List.length l)%nat with 0%nat by lia. simpl. apply app_nil_r. Qed.

Lemma firstn_succ_nth {A : Type} (l : list A) d : forall n,
  (n < List.length l)%nat -> firstn (S n) l = (firstn n l ++ [nth n l d])%list.
Proof.
  induction l as [|a l IH]; intros n L; simpl in L; [lia|].
  destruct n; [reflexivity|].
  change (firstn (S (S n)) (a :: l)) with (a :: firstn (S n) l).
  rewrite (IH n) by lia. reflexivity.
Qed.

(** A tool call that passed the check against the script extends it. *)
Lemma in_script_seen s tool :
  in_script s ->
  (RunSmoke.expected_i s <? List.length RunSmoke.expected)%nat
  && negb (String.eqb tool (RunSmoke.next_required s)) = false ->
  in_script (RunSmoke.seen s tool).
Proof.
  unfold in_script, RunSmoke.seen.
  cbn [RunSmoke.expected_i RunSmoke.tool_calls_seen].
  change (List.length RunSmoke.expected) with 5%nat.
  intros [Hi Hf] C. rewrite length_app. cbn [List.length].
  destruct (Nat.ltb_spec (RunSmoke.expected_i s) 5) as [Lt|Ge].
  - cbn [andb] in C. apply negb_false_iff, String.eqb_eq in C. subst tool.
    assert (Ls : List.length (RunSmoke.tool_calls_seen s)
                 = RunSmoke.expected_i s) by lia.
    split; [lia|].
    replace (Nat.min (S (RunSmoke.expected_i s)) 5)
      with (S (RunSmoke.expected_i s)) by lia.
    rewrite firstn_app, Hf. rewrite Ls.
    unfold RunSmoke.next_required.
    rewrite (firstn_succ_nth RunSmoke.expected "workbench.workflow.status")
      by exact Lt.
    f_equal.
    replace (5 - RunSmoke.expected_i s)%nat
      with (S (4 - RunSmoke.expected_i s)) by lia.
    cbn [firstn]. now rewrite firstn_nil.
  - split; [lia|].
    replace (Nat.min (S (RunSmoke.expected_i s)) 5) with 5%nat by lia.
    rewrite firstn_snoc_in by lia. rewrite Hf.
    rewrite !firstn_all2; auto; change (List.length RunSmoke.expected) with 5%nat; lia.
Qed.

Lemma in_script_dispatch E step s content tool arguments :
  in_script s ->
  (RunSmoke.expected_i s <? List.length RunSmoke.expected)%nat
  && negb (String.eqb tool (RunSmoke.next_required s)) = false ->
  in_script (state_of (RunSmoke.dispatch_tool E step s content tool arguments)).
Proof.
  intros I C. unfold RunSmoke.dispatch_tool.
  destruct (String.eqb tool "workbench.registry.scan").
  - destruct (RunSmoke.call_tool E step _ tool arguments) as [[[req resp] meta]|e];
      [|exact I].
    cbv zeta.
    destruct (RunSmoke.load_registry_mapping E step) as [m|e];
      cbn [state_of].
    + apply in_script_say, in_script_log, in_script_set_mapping,
        in_script_log, in_script_seen; assumption.
    + apply in_script_log, in_script_seen; assumption.
  - destruct (RunSmoke.tool_to_server s) as [|x xs] eqn:T; [exact I|].
    rewrite <- T.
    destruct (Py.dict_get (RunSmoke.tool_to_server s) tool)
      as [[server manifest]|]; [|exact I].
    destruct (RunSmoke.call_tool E step server tool arguments)
      as [[[req resp] meta]|e]; [|exact I].
    cbv zeta. cbn [state_of].
    apply in_script_say, in_script_log.
    set (s0 := if String.eqb tool "workbench.workflow.upload" then _ else s).
    assert (I0 : in_script s0 /\
                 RunSmoke.expected_i s0 = RunSmoke.expected_i s).
    { unfold s0. destruct (String.eqb tool "workbench.workflow.upload");
        [|auto].
      destruct (RunSmoke.extract_first_json_content resp); [|auto].
      destruct (Json.get _ "id"); auto. }
    destruct I0 as [I0 E0].
    apply in_script_seen; [exact I0|].
    unfold RunSmoke.next_required in *. rewrite E0. exact C.
Qed.

(** One iteration keeps the tool calls in step with the script. *)
Lemma in_script_body E step s :
  in_script s -> in_script (state_of (RunSmoke.body E step s)).
Proof.
  intros I. unfold RunSmoke.body.
  set (s1 := RunSmoke.log E s _).
  assert (I1 : in_script s1) by exact I.
  destruct (RunSmoke.chat E step (RunSmoke.messages s1)) as [resp|e];
    [|exact I1].
  destruct (RunSmoke.extract_text E resp) as [content|e]; [|exact I1].
  cbv zeta.
  set (s2 := RunSmoke.log E s1 _).
  assert (I2 : in_script s2) by exact I.
  destruct (RunSmoke.parse_tool_json (RunSmoke.json_loads E) content)
    as [call|exc].
  2:{ destruct (5 <=? _)%nat; exact I. }
  destruct (RunSmoke.has_final call) as [[|]|e]; [| |exact I2].
  - destruct (RunSmoke.expected_i s2 <? _)%nat.
    + destruct (5 <=? _)%nat; exact I.
    + destruct (RunSmoke.get_final call); exact I.
  - destruct (RunSmoke.call_get call "tool" JNull) as [tool_|e]; [|exact I2].
    destruct (RunSmoke.call_get call "arguments" (JDict [])) as [arguments|e];
      [|exact I2].
    destruct (Py.if_truthy (Json.as_str tool_)) as [tool|]; [|exact I2].
    destruct ((RunSmoke.expected_i s2 <? List.length RunSmoke.expected)%nat
              && negb (String.eqb tool (RunSmoke.next_required s2))) eqn:C.
    + exact I.
    + now apply in_script_dispatch.
Qed.

Lemma in_script_loop E steps : forall step s,
  in_script s -> in_script (fst (RunSmoke.loop E steps step s)).
Proof.
  induction steps as [|steps IH]; intros step s I; [exact I|].
  cbn [RunSmoke.loop].
  pose proof (in_script_body E step s I) as B.
  destruct (RunSmoke.body E step s) as [s'|s'|s' e]; cbn [state_of] in B.
  - now apply IH.
  - exact B.
  - exact B.
Qed.

Lemma in_script_logs E events : forall s,
  in_script s -> in_script (fold_left (RunSmoke.log E) events s).
Proof.
  induction events as [|e rest IH]; intros s I; simpl; auto.
Qed.

(** X20: the runner keeps to the script.  Whatever the model, the tools and the
    files do, for however many steps: when the run ends, [expected_i] is the
    number of tool calls made, capped at the length of the script, and the
    tool calls made while the script was open are the first entries of the
    script, in its order; no tool was called out of turn. *)
Theorem run_follows_script :
  forall (E : RunSmoke.env) (max_steps : nat)
         (messages0 : list (string * string)) (evidence0 : list RunSmoke.event),
  let s := fst (RunSmoke.run E max_steps messages0 evidence0) in
  RunSmoke.expected_i s
  = Nat.min (List.length (RunSmoke.tool_calls_seen s)) 5 /\
  firstn 5 (RunSmoke.tool_calls_seen s)
  = firstn (RunSmoke.expected_i s)
      [ "workbench.registry.scan"; "workbench.workflow.upload";
        "workbench.workflow.status"; "workbench.workflow.update";
        "workbench.workflow.status" ].
Proof.
  intros E max_steps messages0 evidence0.
  apply (in_script_loop E max_steps 0).
  apply in_script_logs. split; reflexivity.
Qed.

(** ** When the run is declared final *)

Lemma evidence_log E s e :
  RunSmoke.evidence (RunSmoke.log E s e) = (RunSmoke.evidence s ++ [e])%list.
Proof. reflexivity. Qed.

(** The events an iteration hands to the writer: [run.final] is handed over
    only by the iteration that breaks the loop, as its last event and with
    the script closed. *)
Lemma body_final E step s :
  exists new,
    RunSmoke.evidence (state_of (RunSmoke.body E step s))
    = (RunSmoke.evidence s ++ new)%list /\
    match RunSmoke.body E step s with
    | RunSmoke.Break s' =>
        (RunSmoke.expected_i s' <? List.length RunSmoke.expected)%nat = false /\
        exists pre final,
          new = (pre ++ [RunSmoke.RunFinal final])%list /\
          Forall (fun e => RunSmoke.event_type e <> "run.final") pre
    | _ => Forall (fun e => RunSmoke.event_type e <> "run.final") new
    end.
Proof.
  assert (dispatch : forall s2 content tool arguments pre,
            RunSmoke.evidence s2 = (RunSmoke.evidence s ++ pre)%list ->
            Forall (fun e => RunSmoke.event_type e <> "run.final") pre ->
            exists new,
              RunSmoke.evidence
                (state_of (RunSmoke.dispatch_tool E step s2 content tool
                             arguments))
              = (RunSmoke.evidence s ++ new)%list /\
              match RunSmoke.dispatch_tool E step s2 content tool arguments with
              | RunSmoke.Break s' =>
                  (RunSmoke.expected_i s' <? List.length RunSmoke.expected)%nat
                  = false /\
                  exists pre final,
                    new = (pre ++ [RunSmoke.RunFinal final])%list /\
                    Forall (fun e => RunSmoke.event_type e <> "run.final") pre
              | _ => Forall (fun e => RunSmoke.event_type e <> "run.final") new
              end).
  { intros s2 content tool arguments pre Ev F.
    unfold RunSmoke.dispatch_tool.
    destruct (String.eqb tool "workbench.registry.scan").
    - destruct (RunSmoke.call_tool E step _ tool arguments)
        as [[[req resp] meta]|e]; [|exists pre; split; assumption].
      cbv zeta.
      destruct (RunSmoke.load_registry_mapping E step) as [m|e];
        cbn [state_of].
      + eexists. split.
        * unfold RunSmoke.say, RunSmoke.set_mapping, RunSmoke.seen.
          cbn [RunSmoke.evidence]. rewrite !evidence_log.
          cbn [RunSmoke.evidence]. rewrite Ev, <- !app_assoc. reflexivity.
        * apply Forall_app. split; [exact F|]. repeat constructor; discriminate.
      + eexists. split.
        * rewrite evidence_log. unfold RunSmoke.seen.
          cbn [RunSmoke.evidence]. rewrite Ev, <- !app_assoc. reflexivity.
        * apply Forall_app. split; [exact F|]. repeat constructor; discriminate.
    - destruct (RunSmoke.tool_to_server s2) as [|x xs] eqn:T;
        [exists pre; split; assumption|].
      rewrite <- T.
      destruct (Py.dict_get (RunSmoke.tool_to_server s2) tool)
        as [[server manifest]|]; [|exists pre; split; assumption].
      destruct (RunSmoke.call_tool E step server tool arguments)
        as [[[req resp] meta]|e]; [|exists pre; split; assumption].
      cbv zeta. cbn [state_of].
      set (s0 := if String.eqb tool "workbench.workflow.upload" then _ else s2).
      assert (E0 : RunSmoke.evidence s0 = RunSmoke.evidence s2).
      { unfold s0. destruct (String.eqb tool "workbench.workflow.upload");
          [|auto].
        destruct (RunSmoke.extract_first_json_content resp); [|auto].
        destruct (Json.get _ "id"); auto. }
      eexists. split.
      + unfold RunSmoke.say. cbn [RunSmoke.evidence]. rewrite evidence_log.
        unfold RunSmoke.seen at 1. cbn [RunSmoke.evidence].
        rewrite E0, Ev, <- !app_assoc. reflexivity.
      + apply Forall_app. split; [exact F|]. repeat constructor; discriminate. }
  unfold RunSmoke.body.
  set (req := RunSmoke.LlmRequest step _).
  set (s1 := RunSmoke.log E s req).
  assert (F1 : Forall (fun e => RunSmoke.event_type e <> "run.final") [req])
    by (repeat constructor; discriminate).
  destruct (RunSmoke.chat E step (RunSmoke.messages s1)) as [resp|e];
    [|exists [req]; split; [reflexivity|exact F1]].
  destruct (RunSmoke.extract_text E resp) as [content|e];
    [|exists [req]; split; [reflexivity|exact F1]].
  cbv zeta.
  set (rsp := RunSmoke.LlmResponse step _ _).
  set (s2 := RunSmoke.log E s1 rsp).
  assert (Ev2 : RunSmoke.evidence s2 = (RunSmoke.evidence s ++ [req; rsp])%list).
  { unfold s2, s1. rewrite !evidence_log, <- app_assoc. reflexivity. }
  assert (F2 : Forall (fun e => RunSmoke.event_type e <> "run.final")
                 [req; rsp])
    by (repeat constructor; discriminate).
  destruct (RunSmoke.parse_tool_json (RunSmoke.json_loads E) content)
    as [call|exc].
  2:{ set (perr := RunSmoke.LlmParseError exc _).
      exists [req; rsp; perr]. split.
      - destruct (5 <=? _)%nat; cbn [state_of]; unfold RunSmoke.say,
          RunSmoke.strike; cbn [RunSmoke.evidence]; rewrite evidence_log, Ev2,
          <- app_assoc; reflexivity.
      - destruct (5 <=? _)%nat; repeat constructor; discriminate. }
  destruct (RunSmoke.has_final call) as [[|]|e];
    [| |exists [req; rsp]; split; assumption].
  - destruct (RunSmoke.expected_i s2 <? _)%nat eqn:Open.
    + exists [req; rsp]. split.
      * destruct (5 <=? _)%nat; exact Ev2.
      * destruct (5 <=? _)%nat; exact F2.
    + destruct (RunSmoke.get_final call) as [final|e].
      * exists ([req; rsp] ++ [RunSmoke.RunFinal final])%list. split.
        -- cbn [state_of]. rewrite evidence_log, Ev2, <- app_assoc.
           reflexivity.
        -- split; [exact Open|]. exists [req; rsp], final. split; auto.
      * exists [req; rsp]. split; assumption.
  - destruct (RunSmoke.call_get call "tool" JNull) as [tool_|e];
      [|exists [req; rsp]; split; assumption].
    destruct (RunSmoke.call_get call "arguments" (JDict [])) as [arguments|e];
      [|exists [req; rsp]; split; assumption].
    destruct (Py.if_truthy (Json.as_str tool_)) as [tool|];
      [|exists [req; rsp]; split; assumption].
    destruct ((RunSmoke.expected_i s2 <? List.length RunSmoke.expected)%nat
              && negb (String.eqb tool (RunSmoke.next_required s2))).
    + eexists. split.
      * cbn [state_of]. unfold RunSmoke.say. cbn [RunSmoke.evidence].
        rewrite evidence_log, Ev2, <- app_assoc. reflexivity.
      * repeat constructor; discriminate.
    + apply (dispatch s2 content tool arguments [req; rsp] Ev2 F2).
Qed.

(** The loop: [run.final] is among the events handed over only when the
    loop ended by a [break], with the script closed; it is then the last
    event. *)
Lemma loop_final E steps : forall step s,
  exists new,
    RunSmoke.evidence (fst (RunSmoke.loop E steps step s))
    = (RunSmoke.evidence s ++ new)%list /\
    ((exists final, In (RunSmoke.RunFinal final) new) ->
     snd (RunSmoke.loop E steps step s) = None /\
     (RunSmoke.expected_i (fst (RunSmoke.loop E steps step s))
      <? List.length RunSmoke.expected)%nat = false /\
     exists pre final, new = (pre ++ [RunSmoke.RunFinal final])%list).
Proof.
  assert (absurd : forall l final,
            Forall (fun e => RunSmoke.event_type e <> "run.final") l ->
            In (RunSmoke.RunFinal final) l -> False).
  { intros l final F I. rewrite Forall_forall in F. now apply (F _ I). }
  induction steps as [|steps IH]; intros step s.
  - exists []. split; [simpl; now rewrite app_nil_r|]. now intros [f []].
  - cbn [RunSmoke.loop].
    destruct (body_final E step s) as (new & Ev & K).
    destruct (RunSmoke.body E step s) as [s'|s'|s' e]; cbn [state_of] in Ev.
    + destruct (IH (S step) s') as (more & Ev' & K').
      exists (new ++ more)%list. split.
      * rewrite Ev', Ev, <- app_assoc. reflexivity.
      * intros [final I]. apply in_app_or in I as [I|I];
          [exfalso; eapply absurd; eauto|].
        destruct K' as (N & C & pre & f & ->); [eauto|].
        split; [exact N|]. split; [exact C|].
        exists (new ++ pre)%list, f. now rewrite app_assoc.
    + destruct K as (C & pre & final & -> & F).
      exists (pre ++ [RunSmoke.RunFinal final])%list. cbn [fst snd].
      split; [exact Ev|]. intros _. split; [reflexivity|].
      split; [exact C|]. eauto.
    + exists (new ++ [RunSmoke.RunError e])%list. cbn [fst snd]. split.
      * rewrite evidence_log, Ev, <- app_assoc. reflexivity.
      * intros [final I]. exfalso. apply in_app_or in I as [I|I].
        -- eapply absurd; eauto.
        -- destruct I as [I|[]]. discriminate.
Qed.

(** X21: the run is declared final only with the script done.  When the loop has
    handed a [run.final] event to the writer, the five tools of the script
    were called before, in its order, that event is the last one handed
    over and the run ended without an error. *)
Theorem run_final_only_after_script :
  forall (E : RunSmoke.env) (max_steps : nat)
         (messages0 : list (string * string)) (evidence0 : list RunSmoke.event),
  let r := RunSmoke.run E max_steps messages0 evidence0 in
  exists new,
    RunSmoke.evidence (fst r) = (evidence0 ++ new)%list /\
    ((exists final, In (RunSmoke.RunFinal final) new) ->
     snd r = None /\
     firstn 5 (RunSmoke.tool_calls_seen (fst r))
     = [ "workbench.registry.scan"; "workbench.workflow.upload";
         "workbench.workflow.status"; "workbench.workflow.update";
         "workbench.workflow.status" ] /\
     exists pre final, new = (pre ++ [RunSmoke.RunFinal final])%list).
Proof.
  intros E max_steps messages0 evidence0 r. subst r. unfold RunSmoke.run.
  set (s0 := fold_left (RunSmoke.log E) evidence0 (RunSmoke.start E messages0)).
  destruct (loop_final E max_steps 0 s0) as (new & Ev & K).
  exists new. split.
  - rewrite Ev. unfold s0. now rewrite evidence_logs.
  - intros F. destruct (K F) as (N & C & L). split; [exact N|].
    split; [|exact L].
    assert (I : in_script (fst (RunSmoke.loop E max_steps 0 s0))).
    { apply in_script_loop. unfold s0. apply in_script_logs.
      split; reflexivity. }
    destruct I as [Hi Hf]. apply Nat.ltb_ge in C.
    change (List.length RunSmoke.expected) with 5%nat in *.
    rewrite Hf. apply firstn_all2. exact C.
Qed.

Lemma run_final_only_after_script_witness :
  firstn 5 (RunSmoke.tool_calls_seen
              (fst (RunSmoke.run Samples.scripted_env 12
                      Samples.first_messages [])))
  = [ "workbench.registry.scan"; "workbench.workflow.upload";
      "workbench.workflow.status"; "workbench.workflow.update";
      "workbench.workflow.status" ].
Proof.
  destruct (run_final_only_after_script Samples.scripted_env 12
              Samples.first_messages []) as (new & Ev & K).
  apply K. change ([] ++ new)%list with new in Ev. rewrite <- Ev.
  exists (JStr "done"). vm_compute. intuition.
Defined.

(** ** Outputs that are not strikes, and outputs that are *)

Section Mismatch.
Variable E : RunSmoke.env.

Hypothesis mismatch : always_mismatch E.

(** One iteration on a tool that is not the first of the script, with the
    script at its start: three events, no strike, the next iteration. *)
Lemma body_mismatch step s :
  RunSmoke.expected_i s = 0%nat ->
  exists req resp rej s',
    RunSmoke.event_type req = "llm.request" /\
    RunSmoke.event_type resp = "llm.response" /\
    RunSmoke.event_type rej = "tool.rejected" /\
    RunSmoke.evidence s' = (RunSmoke.evidence s ++ [req; resp; rej])%list /\
    RunSmoke.bad_outputs s' = RunSmoke.bad_outputs s /\
    RunSmoke.expected_i s' = 0%nat /\
    RunSmoke.tool_calls_seen s' = RunSmoke.tool_calls_seen s /\
    RunSmoke.body E step s = RunSmoke.Next s'.
Proof.
  intros Z0. unfold RunSmoke.body.
  set (req := RunSmoke.LlmRequest step _).
  set (s1 := RunSmoke.log E s req).
  destruct (mismatch step (RunSmoke.messages s1)) as
    (resp & content & call & tool_ & arguments & tool
     & Hc & He & Hp & Hf & Ht & Ha & Hs & Hn).
  rewrite Hc, He. cbv zeta. rewrite Hp, Hf, Ht, Ha, Hs.
  set (rsp := RunSmoke.LlmResponse step _ _).
  set (s2 := RunSmoke.log E s1 rsp).
  assert (Z2 : RunSmoke.expected_i s2 = 0%nat) by exact Z0.
  unfold RunSmoke.next_required. rewrite Z2.
  change (0 <? List.length RunSmoke.expected)%nat with true.
  change (nth 0 RunSmoke.expected "workbench.workflow.status")
    with "workbench.registry.scan".
  apply String.eqb_neq in Hn. rewrite Hn. cbn [andb negb].
  set (rej := RunSmoke.ToolRejected tool _).
  exists req, rsp, rej, (RunSmoke.say (RunSmoke.log E s2 rej)
                           [ ("assistant", content);
                             ("user", RunSmoke.steer_tool
                                        "workbench.registry.scan") ]).
  split; [reflexivity|]. split; [reflexivity|]. split; [reflexivity|].
  split; [|split; [reflexivity|split; [exact Z0|split; reflexivity]]].
  unfold RunSmoke.say. cbn [RunSmoke.evidence]. unfold s2, s1.
  rewrite !evidence_log, <- !app_assoc. reflexivity.
Qed.

Lemma loop_mismatch steps : forall step s,
  RunSmoke.expected_i s = 0%nat ->
  exists new s',
    RunSmoke.loop E steps step s = (s', None) /\
    RunSmoke.evidence s' = (RunSmoke.evidence s ++ new)%list /\
    map RunSmoke.event_type new
    = List.concat
        (repeat ["llm.request"; "llm.response"; "tool.rejected"] steps) /\
    RunSmoke.bad_outputs s' = RunSmoke.bad_outputs s /\
    RunSmoke.tool_calls_seen s' = RunSmoke.tool_calls_seen s.
Proof.
  induction steps as [|steps IH]; intros step s Z0.
  - exists [], s. cbn [RunSmoke.loop]. rewrite app_nil_r. auto.
  - cbn [RunSmoke.loop].
    destruct (body_mismatch step s Z0) as
      (req & resp & rej & s' & Tq & Tr & Tj & Ev & Bo & Z1 & Tc & Eb).
    rewrite Eb.
    destruct (IH (S step) s' Z1) as (new & sf & L & Evf & Ty & Bf & Tf).
    exists ([req; resp; rej] ++ new)%list, sf.
    split; [exact L|]. split; [|split; [|split]].
    + rewrite Evf, Ev, <- app_assoc. reflexivity.
    + rewrite map_app, Ty. cbn [map repeat List.concat app].
      now rewrite Tq, Tr, Tj.
    + congruence.
    + congruence.
Qed.

End Mismatch.

Lemma expected_i_logs E events : forall s,
  RunSmoke.expected_i (fold_left (RunSmoke.log E) events s)
  = RunSmoke.expected_i s.
Proof.
  induction events as [|e rest IH]; intros s; simpl; auto.
  now rewrite IH.
Qed.

Lemma tool_calls_seen_logs E events : forall s,
  RunSmoke.tool_calls_seen (fold_left (RunSmoke.log E) events s)
  = RunSmoke.tool_calls_seen s.
Proof.
  induction events as [|e rest IH]; intros s; simpl; auto.
  now rewrite IH.
Qed.

(** X22: a wrong tool is never a strike.  When the model proposes, at every
    step, a tool other than the first of the script, the loop runs for all
    its [max_steps]: every step hands [llm.request], [llm.response] and
    [tool.rejected] to the writer, no tool is called, [bad_outputs] stays 0
    and the run ends without an error, however many steps are allowed. *)
Theorem tool_mismatch_is_no_strike :
  forall (E : RunSmoke.env) (max_steps : nat)
         (messages0 : list (string * string)) (evidence0 : list RunSmoke.event),
  always_mismatch E ->
  let r := RunSmoke.run E max_steps messages0 evidence0 in
  exists new,
    snd r = None /\
    RunSmoke.evidence (fst r) = (evidence0 ++ new)%list /\
    map RunSmoke.event_type new
    = List.concat
        (repeat ["llm.request"; "llm.response"; "tool.rejected"] max_steps) /\
    RunSmoke.bad_outputs (fst r) = 0%nat /\
    RunSmoke.tool_calls_seen (fst r) = [].
Proof.
  intros E max_steps messages0 evidence0 M r. subst r. unfold RunSmoke.run.
  set (s0 := fold_left (RunSmoke.log E) evidence0 (RunSmoke.start E messages0)).
  destruct (loop_mismatch E M max_steps 0%nat s0)
    as (new & sf & L & Ev & Ty & Bo & Tc).
  { unfold s0. now rewrite expected_i_logs. }
  exists new. rewrite L. cbn [fst snd].
  split; [reflexivity|]. split; [|split; [exact Ty|split]].
  - rewrite Ev. unfold s0. now rewrite evidence_logs.
  - rewrite Bo. unfold s0. now rewrite bad_outputs_logs.
  - rewrite Tc. unfold s0. now rewrite tool_calls_seen_logs.
Qed.

Lemma tool_mismatch_is_no_strike_witness :
  always_mismatch (Samples.stubborn_env Samples.status_call_text) /\
  snd (RunSmoke.run (Samples.stubborn_env Samples.status_call_text) 30
         Samples.first_messages []) = None.
Proof.
  assert (M : always_mismatch (Samples.stubborn_env Samples.status_call_text)).
  { intros step msgs.
    exists (JDict [ ("output_text", JStr Samples.status_call_text) ]),
      Samples.status_call_text, Samples.status_call,
      (JStr "workbench.workflow.status"), (JDict []),
      "workbench.workflow.status".
    repeat split; try reflexivity. discriminate. }
  split; [exact M|].
  destruct (tool_mismatch_is_no_strike
              (Samples.stubborn_env Samples.status_call_text) 30
              Samples.first_messages [] M) as (new & H & _).
  exact H.
Defined.

Section EarlyFinal.
Variable E : RunSmoke.env.

Hypothesis final : always_final E.

(** One iteration on a declaration that the run is done, with the script at
    its start: two events and one strike, the fifth strike raising. *)
Lemma body_early_final step s :
  RunSmoke.expected_i s = 0%nat ->
  exists req resp content s',
    RunSmoke.event_type req = "llm.request" /\
    RunSmoke.event_type resp = "llm.response" /\
    RunSmoke.evidence s' = (RunSmoke.evidence s ++ [req; resp])%list /\
    RunSmoke.bad_outputs s' = S (RunSmoke.bad_outputs s) /\
    RunSmoke.expected_i s' = 0%nat /\
    RunSmoke.tool_calls_seen s' = RunSmoke.tool_calls_seen s /\
    RunSmoke.body E step s
    = if (5 <=? S (RunSmoke.bad_outputs s))%nat
      then RunSmoke.Raised s'
             (FinishedEarlyTooOften "workbench.registry.scan")
      else RunSmoke.Next
             (RunSmoke.say s'
                [ ("assistant", content);
                  ("user", RunSmoke.steer_final "workbench.registry.scan") ]).
Proof.
  intros Z0. unfold RunSmoke.body.
  set (req := RunSmoke.LlmRequest step _).
  set (s1 := RunSmoke.log E s req).
  destruct (final step (RunSmoke.messages s1)) as
    (resp & content & call & Hc & He & Hp & Hf).
  rewrite Hc, He. cbv zeta. rewrite Hp, Hf.
  set (rsp := RunSmoke.LlmResponse step _ _).
  set (s2 := RunSmoke.log E s1 rsp).
  assert (Z2 : RunSmoke.expected_i s2 = 0%nat) by exact Z0.
  rewrite Z2. change (0 <? List.length RunSmoke.expected)%nat with true.
  cbv iota.
  assert (N : RunSmoke.next_required (RunSmoke.strike s2)
              = "workbench.registry.scan").
  { unfold RunSmoke.next_required.
    change (RunSmoke.expected_i (RunSmoke.strike s2))
      with (RunSmoke.expected_i s2).
    rewrite Z2. reflexivity. }
  rewrite N.
  exists req, rsp, (Redact.redact_text content (RunSmoke.secrets E)),
    (RunSmoke.strike s2).
  split; [reflexivity|]. split; [reflexivity|].
  split; [|split; [reflexivity|split; [exact Z0|split; reflexivity]]].
  unfold RunSmoke.strike. cbn [RunSmoke.evidence]. unfold s2, s1.
  rewrite !evidence_log, <- !app_assoc. reflexivity.
Qed.

Lemma loop_early_final k : forall steps step s,
  RunSmoke.expected_i s = 0%nat ->
  (RunSmoke.bad_outputs s + k = 5)%nat -> (1 <= k)%nat -> (k <= steps)%nat ->
  exists middle s',
    RunSmoke.loop E steps step s
    = (s', Some (FinishedEarlyTooOften "workbench.registry.scan")) /\
    RunSmoke.evidence s'
    = (RunSmoke.evidence s ++ middle
       ++ [RunSmoke.RunError
             (FinishedEarlyTooOften "workbench.registry.scan")])%list /\
    map RunSmoke.event_type middle
    = List.concat (repeat ["llm.request"; "llm.response"] k) /\
    RunSmoke.tool_calls_seen s' = RunSmoke.tool_calls_seen s.
Proof.
  induction k as [|k IH]; intros steps step s Z0 Hb Hk Hs; [lia|].
  destruct steps as [|steps]; [lia|]. cbn [RunSmoke.loop].
  destruct (body_early_final step s Z0) as
    (req & resp & content & s' & Tq & Tr & Ev & Bo & Z1 & Tc & Eb).
  rewrite Eb. clear Eb.
  destruct k as [|k].
  - assert (B : RunSmoke.bad_outputs s = 4%nat) by lia. rewrite B.
    cbn [Nat.leb].
    exists [req; resp],
      (RunSmoke.log E s'
         (RunSmoke.RunError (FinishedEarlyTooOften "workbench.registry.scan"))).
    split; [reflexivity|]. split; [|split].
    + rewrite evidence_log, Ev, <- !app_assoc. reflexivity.
    + cbn [map repeat List.concat app]. now rewrite Tq, Tr.
    + exact Tc.
  - assert (B : (5 <=? S (RunSmoke.bad_outputs s))%nat = false)
      by (apply Nat.leb_gt; lia).
    rewrite B.
    set (s'' := RunSmoke.say s' _).
    destruct (IH steps (S step) s'') as (middle & sf & L & Evf & Ty & Tf).
    { exact Z1. }
    { subst s''. unfold RunSmoke.say. cbn [RunSmoke.bad_outputs]. lia. }
    { lia. }
    { lia. }
    exists ([req; resp] ++ middle)%list, sf.
    split; [exact L|]. split; [|split].
    + rewrite Evf. subst s''. unfold RunSmoke.say at 1.
      cbn [RunSmoke.evidence]. rewrite Ev, <- !app_assoc. reflexivity.
    + rewrite map_app, Ty. cbn [map repeat List.concat app].
      now rewrite Tq, Tr.
    + rewrite Tf. exact Tc.
Qed.

End EarlyFinal.

(** X23: finishing early is a strike.  When the model declares the run done at
    every step and at least five steps are allowed, the fifth declaration
    raises, naming [workbench.registry.scan] as the next required tool: the
    writer is handed five rounds of [llm.request] and [llm.response] and
    then [run.error], never [run.final], and no tool is called. *)
Theorem early_final_raises_on_fifth :
  forall (E : RunSmoke.env) (max_steps : nat)
         (messages0 : list (string * string)) (evidence0 : list RunSmoke.event),
  always_final E -> (5 <= max_steps)%nat ->
  let r := RunSmoke.run E max_steps messages0 evidence0 in
  exists rounds,
    snd r = Some (FinishedEarlyTooOften "workbench.registry.scan") /\
    RunSmoke.evidence (fst r)
    = (evidence0 ++ rounds
       ++ [RunSmoke.RunError
             (FinishedEarlyTooOften "workbench.registry.scan")])%list /\
    map RunSmoke.event_type rounds
    = List.concat (repeat ["llm.request"; "llm.response"] 5) /\
    RunSmoke.tool_calls_seen (fst r) = [].
Proof.
  intros E max_steps messages0 evidence0 F M r. subst r. unfold RunSmoke.run.
  set (s0 := fold_left (RunSmoke.log E) evidence0 (RunSmoke.start E messages0)).
  destruct (loop_early_final E F 5 max_steps 0%nat s0)
    as (rounds & sf & L & Ev & Ty & Tc).
  { unfold s0. now rewrite expected_i_logs. }
  { unfold s0. now rewrite bad_outputs_logs. }
  { lia. }
  { exact M. }
  exists rounds. rewrite L. cbn [fst snd].
  split; [reflexivity|]. split; [|split; [exact Ty|]].
  - rewrite Ev. unfold s0. now rewrite evidence_logs.
  - rewrite Tc. unfold s0. now rewrite tool_calls_seen_logs.
Qed.

Lemma early_final_raises_on_fifth_witness :
  always_final Samples.finishing_env /\ (5 <= 12)%nat /\
  snd (RunSmoke.run Samples.finishing_env 12 Samples.first_messages [])
  = Some (FinishedEarlyTooOften "workbench.registry.scan").
Proof.
  assert (F : always_final Samples.finishing_env).
  { intros step msgs.
    exists (JDict [ ("output_text", JStr Samples.final_call_text) ]),
      Samples.final_call_text, Samples.final_call.
    repeat split; reflexivity. }
  split; [exact F|]. split; [lia|].
  destruct (early_final_raises_on_fifth Samples.finishing_env 12
              Samples.first_messages [] F) as (rounds & H & _).
  - lia.
  - exact H.
Defined.
